(** * migrate_frontegg_accounts.py: a shallow embedding and its properties

    The script copies tenants, permission categories, permissions and
    role assignments from one Frontegg account to another.  Every remote
    call goes through [make_request_with_rate_limiting]; the data joins
    are done with pandas.

    The embedding keeps the script's functions and their names.  Remote
    accounts, the token refresh and the CSV files are the environment
    (class [Env]); the script itself runs in a small monad that threads
    the environment state, the trace of requests sent, and the log, and
    that can raise a Python exception.  Progress-only log lines (counts,
    status codes) are not recorded; every diagnostic and every caught
    error is. *)

From Stdlib Require Import Ascii ZArith Permutation Sorted Lia.
From stdpp Require Import base option list strings gmap sets sorting.

Open Scope Z_scope.

(** ** Python values used by the script *)

(** Exceptions the script can meet.  [HTTPError] and [ConnectionError]
    are [requests.exceptions.RequestException]s.  [JSONDecodeError] stands
    for the decoder error of [json.loads], which is none, and for that of
    [response.json()], which is told apart where it matters
    ([authenticate_handlers]).  The others are not. *)
Inductive exn :=
| NameError (name : string)
| ValueError (what : string)
| KeyError (key : string)
| JSONDecodeError
| AttributeError
| HTTPError (status : Z)
| ConnectionError
| FileNotFoundError (path : string)
| OverflowError.

Definition is_RequestException (e : exn) : bool :=
  match e with
  | HTTPError _ | ConnectionError => true
  | _ => false
  end.

(** A string holding JSON text: either the serialisation of a value
    ([json.dumps v], written [JsonOf v]) or text that is no JSON at all.
    [json.loads] returns the value or raises [JSONDecodeError]. *)
Inductive json_text (A : Type) :=
| JsonOf (v : A)
| NotJson (raw : string).
Arguments JsonOf {A} v.
Arguments NotJson {A} raw.

Definition json_dumps {A} (v : A) : json_text A := JsonOf v.

Definition json_loads {A} (t : json_text A) : exn + A :=
  match t with
  | JsonOf v => inr v
  | NotJson _ => inl JSONDecodeError
  end.

(** Truth value of a Python string: the empty string is falsy. *)
Definition str_truthy (s : string) : bool :=
  match s with
  | EmptyString => false
  | _ => true
  end.

(** Truth value of [None] or a string. *)
Definition opt_truthy (o : option string) : bool :=
  match o with
  | Some s => str_truthy s
  | None => false
  end.

(** Truth value of a string that holds JSON text: serialised values are
    never the empty string. *)
Definition json_text_truthy {A} (t : json_text A) : bool :=
  match t with
  | JsonOf _ => true
  | NotJson raw => str_truthy raw
  end.

(** What [str.lower] does to ASCII text: the letters [A] to [Z] are
    folded, every other character stays. *)
Definition lower_ascii (c : ascii) : ascii :=
  let n := nat_of_ascii c in
  if (Nat.leb 65 n && Nat.leb n 90)%bool then ascii_of_nat (n + 32) else c.

Fixpoint lower (s : string) : string :=
  match s with
  | EmptyString => EmptyString
  | String c rest => String (lower_ascii c) (lower rest)
  end.

(** Text made of ASCII characters only. *)
Fixpoint ascii_text (s : string) : Prop :=
  match s with
  | EmptyString => True
  | String c rest => (nat_of_ascii c < 128)%nat ∧ ascii_text rest
  end.

(** [str.lower]: Python folds the cased letters of all of Unicode.  The
    fold is left open; all that is fixed of it is what it does to ASCII
    text. *)
Class Lower := {
  str_lower : string → string;
  str_lower_ascii : ∀ s, ascii_text s → str_lower s = lower s
}.

(** [sep.join(parts)] *)
Fixpoint join (sep : string) (parts : list string) : string :=
  match parts with
  | [] => ""
  | [p] => p
  | p :: rest => p +:+ sep +:+ join sep rest
  end.

(** ** Entities of the two accounts *)

Record Tenant := {
  tenant_tenantId : string;
  tenant_name : string;
  tenant_metadata : option (json_text string)
}.

Record User := {
  user_id : string;
  user_email : string;
  user_tenantId : string
}.

Record Role := {
  role_id : string;
  role_key : string
}.

(** One element of the answer of [/users/v3/roles]. *)
Record UserRoles := {
  ur_userId : string;
  ur_roleIds : list string
}.

Record Category := {
  cat_id : string;
  cat_name : string;
  cat_description : option string
}.

(** A permission as the account lists it; in the optional fields [None]
    is a missing key.  [migrate_settings] writes [categoryId] back, the
    value [None] included, which [create_permissions] treats as it treats
    a missing key. *)
Record Permission := {
  perm_name : string;
  perm_description : option string;
  perm_categoryId : option string;
  perm_key : string;
  perm_assignmentType : option string
}.

(** ** HTTP messages *)

(** The [Retry-After] header of a response, as [int(...)] sees it. *)
Inductive retry_after_header :=
| RetryAbsent
| RetryInt (seconds : Z)
| RetryText (raw : string).

(** What [response.json()] yields. *)
Inductive body :=
| BTenantsPage (items : list Tenant) (next : option string)
| BUsersPage (items : list User) (next : option string)
| BUserRoles (l : list (option UserRoles))
| BRoles (l : list Role)
| BCategories (l : list Category)
| BPermissions (l : list Permission)
| BEmpty.

Record Response := {
  status_code : Z;
  retry_after : retry_after_header;
  resp_json : body
}.

(** Outcome of [session.request]: a response, or a transport failure. *)
Inductive Reply :=
| Replied (r : Response)
| Unreachable.

(** One entry of the list posted by [create_permissions]. *)
Record PermissionData := {
  pd_name : string;
  pd_description : string;
  pd_categoryId : string;
  pd_key : string;
  pd_assignmentType : string
}.

(** The [json=] argument of a request. *)
Inductive json_data :=
| TenantBody (tenantId name : string)
| MetadataBody (metadata : string)
| RoleIdsBody (roleIds : list string)
| CategoryBody (name description : string)
| PermissionsBody (l : list PermissionData).

Inductive Account := Source | Destination.

Record Request := {
  req_account : Account;
  req_method : string;
  req_url : string;
  req_headers : list (string * string);
  req_params : option (list (string * string));
  req_json : option json_data
}.

Record FronteggClient := {
  base_url : string;
  account : Account
}.

(** ** Rows of the two CSV exports *)

(** The [createdAt] cell of a password row, as [pd.to_datetime] sees it. *)
Inductive created_cell :=
| CreatedAt (instant : Z)
| CreatedEmpty
| CreatedGarbage (raw : string).

Record UserDetail := {
  ud_userId : string;
  ud_name : string;
  ud_email : string;
  ud_tenantId : string
}.

Record RawHashRow := {
  raw_userId : string;
  raw_hash : string;
  raw_createdAt : created_cell
}.

(** A password row after [pd.to_datetime]: [None] is [NaT]. *)
Record HashRow := {
  hr_userId : string;
  hr_hash : string;
  hr_createdAt : option Z
}.

(** A row of [migration_data.csv]: [None] is an empty cell. *)
Record MigrationRow := {
  mr_name : string;
  mr_email : string;
  mr_tenantId : string;
  mr_hash : option string
}.

(** ** The environment and the script monad *)

Class Env (St : Type) := {
  (** [client.get_headers()]: the bearer token, refreshed when needed. *)
  env_get_headers : Account → St → (exn + string) * St;
  (** [client.session.request(...)] *)
  env_request : Request → St → Reply * St;
  (** [pd.read_csv] of the two exports; [None] when the file is missing. *)
  env_read_users : string → St → option (list UserDetail);
  env_read_hashes : string → St → option (list RawHashRow)
}.

Inductive Event :=
| Sent (r : Request)
| Slept (seconds : Z)
| WroteCsv (path : string) (rows : list MigrationRow).

Inductive LogEntry :=
| Info (msg : string)
| Failed (what : string) (e : exn).

Record World (St : Type) := {
  w_env : St;
  w_trace : list Event;
  w_log : list LogEntry;
  (** bound on the iterations of one [while] loop *)
  w_gas : nat
}.
Arguments w_env {St} _.
Arguments w_trace {St} _.
Arguments w_log {St} _.
Arguments w_gas {St} _.

Inductive Result (A : Type) :=
| Ok (a : A)
| Raise (e : exn)
| Diverge.
Arguments Ok {A} a.
Arguments Raise {A} e.
Arguments Diverge {A}.

Definition M (St A : Type) : Type := World St → Result A * World St.

Definition ret {St A} (a : A) : M St A := λ w, (Ok a, w).

Definition bind {St A B} (m : M St A) (k : A → M St B) : M St B :=
  λ w, match m w with
       | (Ok a, w') => k a w'
       | (Raise e, w') => (Raise e, w')
       | (Diverge, w') => (Diverge, w')
       end.

Definition raise {St A} (e : exn) : M St A := λ w, (Raise e, w).

Definition diverge {St A} : M St A := λ w, (Diverge, w).

(** [try: m except Exception as e: handler e] *)
Definition try_except {St A} (m : M St A) (handler : exn → M St A) : M St A :=
  λ w, match m w with
       | (Raise e, w') => handler e w'
       | r => r
       end.

Definition log {St} (entry : LogEntry) : M St unit :=
  λ w, (Ok (), {| w_env := w_env w; w_trace := w_trace w;
                  w_log := w_log w ++ [entry]; w_gas := w_gas w |}).

Definition emit {St} (ev : Event) : M St unit :=
  λ w, (Ok (), {| w_env := w_env w; w_trace := w_trace w ++ [ev];
                  w_log := w_log w; w_gas := w_gas w |}).

Definition lift_either {St A} (r : exn + A) : M St A :=
  match r with
  | inl e => raise e
  | inr a => ret a
  end.

Declare Scope py_scope.
Delimit Scope py_scope with py.
Notation "x <- m ;; k" := (bind m (λ x, k))
  (at level 100, m at next level, right associativity) : py_scope.
Notation "m ;;; k" := (bind m (λ _, k))
  (at level 100, right associativity) : py_scope.
Open Scope py_scope.

(** [for x in l: body x] *)
Fixpoint for_each {St A} (l : list A) (body : A → M St unit) : M St unit :=
  match l with
  | [] => ret ()
  | x :: rest => body x ;;; for_each rest body
  end.

(** [for x in l: acc = body acc x], for loops that grow a local value. *)
Fixpoint for_fold {St A B} (l : list A) (acc : B) (body : B → A → M St B)
  : M St B :=
  match l with
  | [] => ret acc
  | x :: rest => acc' <- body acc x ;; for_fold rest acc' body
  end.

(** [try: m except <class> as e: handler e], for the exceptions of the
    class [catches]. *)
Definition try_except_when {St A} (catches : exn → bool)
    (m : M St A) (handler : exn → M St A) : M St A :=
  try_except m (λ e, if catches e then handler e else raise e).

(** [while True: body], where [body] returns [Some a] for [return a] and
    [None] to go round again. *)
Fixpoint while_true {St A} (fuel : nat) (body : M St (option A)) : M St A :=
  match fuel with
  | O => diverge
  | S n =>
      r <- body ;;
      match r with
      | Some a => ret a
      | None => while_true n body
      end
  end.

(** ** Names bound at module level

    The names the module binds before [migrate] runs: its imports, its
    constants and its functions.  A name outside this list is looked up
    in the builtins, fails there, and raises [NameError]. *)
Definition module_globals : list string :=
  [ "json"; "os"; "logging"; "datetime"; "timedelta"; "pd"; "requests";
    "load_dotenv"; "script_dir"; "file_path"; "log";
    "BASE_URL_1"; "BASE_URL_2"; "CLIENT_ID_1"; "API_KEY_1"; "CLIENT_ID_2";
    "API_KEY_2"; "FronteggClient"; "FRONTEGG_ACCOUNT_1";
    "FRONTEGG_ACCOUNT_2"; "make_request_with_rate_limiting";
    "get_all_paginated_items"; "get_tenants"; "create_tenant";
    "set_tenant_metadata"; "bulk_create_tenants"; "migrate_tenants";
    "get_all_users"; "get_user_roles"; "get_all_user_roles";
    "assign_user_roles"; "get_roles_mapping"; "get_role_id_translations";
    "translate_role_ids"; "migrate_users"; "get_permissions";
    "create_permissions"; "get_categories"; "create_categories";
    "migrate_settings"; "create_migration_csv"; "migrate" ].

Definition global_name {St} (name : string) : M St unit :=
  if bool_decide (name ∈ module_globals) then ret () else raise (NameError name).

(** [time.sleep(seconds)]: the name [time] is resolved first. *)
Definition time_sleep {St} (seconds : Z) : M St unit :=
  global_name "time" ;;; emit (Slept seconds).

(** [int(response.headers.get('Retry-After', 1))] *)
Definition int_retry_after (h : retry_after_header) : exn + Z :=
  match h with
  | RetryAbsent => inr 1
  | RetryInt n => inr n
  | RetryText raw => inl (ValueError raw)
  end.

(** [response.raise_for_status()] *)
Definition raise_for_status {St} (response : Response) : M St unit :=
  if bool_decide (400 ≤ status_code response < 600)
  then raise (HTTPError (status_code response))
  else ret ().

(** ** Python dictionaries that are iterated: insertion-ordered *)

Fixpoint dict_set {V} (k : string) (v : V) (d : list (string * V))
  : list (string * V) :=
  match d with
  | [] => [(k, v)]
  | (k', v') :: rest =>
      if bool_decide (k = k') then (k, v) :: rest
      else (k', v') :: dict_set k v rest
  end.

Fixpoint dict_get {V} (k : string) (d : list (string * V)) : option V :=
  match d with
  | [] => None
  | (k', v') :: rest => if bool_decide (k = k') then Some v' else dict_get k rest
  end.

(** ** pandas *)

(** [pd.merge(left, right, how='left')] on one key: left rows in order,
    each paired with every right row of the same key, or with nothing. *)
Definition merge_left {L R K : Type} `{EqDecision K}
    (lkey : L → K) (rkey : R → K) (left : list L) (right : list R)
  : list (L * option R) :=
  flat_map (λ l, match filter (λ r, rkey r = lkey l) right with
                 | [] => [(l, None)]
                 | ms => map (λ r, (l, Some r)) ms
                 end) left.

(** [pd.merge(left, right, how='inner')] on one key. *)
Definition merge_inner {L R K : Type} `{EqDecision K}
    (lkey : L → K) (rkey : R → K) (left : list L) (right : list R)
  : list (L * R) :=
  flat_map (λ l, map (λ r, (l, r)) (filter (λ r, rkey r = lkey l) right)) left.

(** [series.unique()]: first occurrences, in order. *)
Fixpoint unique (l : list string) : list string :=
  match l with
  | [] => []
  | x :: rest => x :: filter (λ y, y ≠ x) (unique rest)
  end.

(** [groupby(key).tail(1)]: of each group the last row, rows staying in
    their order. *)
Fixpoint group_tail1 (rows : list HashRow) : list HashRow :=
  match rows with
  | [] => []
  | r :: rest =>
      if bool_decide (Exists (λ r', hr_userId r' = hr_userId r) rest)
      then group_tail1 rest
      else r :: group_tail1 rest
  end.

(** Order of [sort_values('createdAt')]: ascending, [NaT] last. *)
Definition created_le (a b : HashRow) : Prop :=
  match hr_createdAt a, hr_createdAt b with
  | Some x, Some y => x ≤ y
  | Some _, None => True
  | None, Some _ => False
  | None, None => True
  end.

(** [DataFrame.sort_values]: pandas sorts with an unstable quicksort, so
    all that is known of the result is that it is the input, sorted. *)
Class Pandas := {
  sort_values : list HashRow → list HashRow;
  sort_values_perm : ∀ rows, sort_values rows ≡ₚ rows;
  sort_values_sorted : ∀ rows, Sorted created_le (sort_values rows)
}.

(** A row of the users table after the left merge of [migrate_users]:
    [None] in [mu_id_dest] is NaN. *)
Record MergedUser := {
  mu_email : string;
  mu_tenantId : string;
  mu_id_source : string;
  mu_id_dest : option string
}.

(** A row of the table given to [assign_user_roles]. *)
Record AssignRow := {
  ar_email : string;
  ar_tenantId : string;
  ar_id_source : string;
  ar_id_dest : option string;
  ar_roleIds : option (json_text (list string))
}.

(** [str.format] of a cell: NaN prints as [nan]. *)
Definition format_cell (c : option string) : string :=
  match c with
  | Some s => s
  | None => "nan"
  end.

(** ** The script *)

Section Script.
Context {St : Type} `{!Env St}.

Definition set_env (w : World St) (s : St) : World St :=
  {| w_env := s; w_trace := w_trace w; w_log := w_log w; w_gas := w_gas w |}.

(** [client.get_headers()] *)
Definition get_headers (client : FronteggClient)
  : M St (list (string * string)) :=
  λ w, let '(r, s) := env_get_headers (account client) (w_env w) in
       match r with
       | inl e => (Raise e, set_env w s)
       | inr token => (Ok [("Authorization", "Bearer " +:+ token)], set_env w s)
       end.

(** [client.session.request(method, url, headers=..., params=..., json=...)]:
    the request is recorded in the trace, then answered by the account. *)
Definition session_request (req : Request) : M St Response :=
  λ w, let '(r, s) := env_request req (w_env w) in
       let w' := {| w_env := s; w_trace := w_trace w ++ [Sent req];
                    w_log := w_log w; w_gas := w_gas w |} in
       match r with
       | Replied response => (Ok response, w')
       | Unreachable => (Raise ConnectionError, w')
       end.

(** One round of the loop of [make_request_with_rate_limiting]. *)
Definition request_attempt (req : Request) : M St (option Response) :=
  try_except_when is_RequestException
    (response <- session_request req ;;
     if bool_decide (status_code response = 429) then
       retry_after <- lift_either (int_retry_after (retry_after response)) ;;
       log (Info "Rate limited. Retrying.") ;;;
       time_sleep retry_after ;;;
       ret None
     else
       raise_for_status response ;;;
       ret (Some response))
    (λ e, log (Failed "Request error" e) ;;; raise e).

(** [make_request_with_rate_limiting]; no caller passes [data]. *)
Definition make_request_with_rate_limiting (method url : string)
    (client : FronteggClient) (headers : list (string * string))
    (params : option (list (string * string))) (json_data : option json_data)
  : M St Response :=
  λ w, while_true (w_gas w)
         (request_attempt {| req_account := account client;
                             req_method := method; req_url := url;
                             req_headers := headers; req_params := params;
                             req_json := json_data |}) w.

(** Reading a page: [response.json()], [.get('items', [])] and
    [.get('_links', {}).get('next')].  A body of another shape has no
    [get]; an empty body is no JSON. *)
Definition tenants_page (b : body) : exn + (list Tenant * option string) :=
  match b with
  | BTenantsPage items next => inr (items, next)
  | BEmpty => inl JSONDecodeError
  | _ => inl AttributeError
  end.

Definition users_page (b : body) : exn + (list User * option string) :=
  match b with
  | BUsersPage items next => inr (items, next)
  | BEmpty => inl JSONDecodeError
  | _ => inl AttributeError
  end.

(** The [while next_url:] loop of [get_all_paginated_items]. *)
Fixpoint paginate {A} (read : body → exn + (list A * option string))
    (fuel : nat) (client : FronteggClient) (headers : list (string * string))
    (items : list A) (next_url : option string)
    (params : option (list (string * string))) : M St (list A) :=
  if opt_truthy next_url then
    match fuel with
    | O => diverge
    | S n =>
        response <- make_request_with_rate_limiting "GET" (default "" next_url)
                      client headers params None ;;
        page <- lift_either (read (resp_json response)) ;;
        let items := items ++ page.1 in
        let next_link := page.2 in
        if opt_truthy next_link then
          paginate read n client headers items
            (Some (base_url client +:+ default "" next_link)) (Some [])
        else
          paginate read n client headers items None params
    end
  else ret items.

Definition get_all_paginated_items {A}
    (read : body → exn + (list A * option string))
    (client : FronteggClient) (endpoint : string)
    (params : option (list (string * string))) : M St (list A) :=
  headers <- get_headers client ;;
  λ w, paginate read (w_gas w) client headers [] (Some endpoint) params w.

Definition get_tenants (client : FronteggClient) : M St (list Tenant) :=
  let endpoint := base_url client +:+ "/tenants/resources/tenants/v2" in
  let params := Some [("_limit", "100")] in
  get_all_paginated_items tenants_page client endpoint params.

Definition create_tenant (client : FronteggClient) (tenant : Tenant)
  : M St (option Response) :=
  let endpoint := base_url client +:+ "/tenants/resources/tenants/v1" in
  headers <- get_headers client ;;
  let req_body := TenantBody (tenant_tenantId tenant) (tenant_name tenant) in
  try_except
    (response <- make_request_with_rate_limiting "POST" endpoint client headers
                   None (Some req_body) ;;
     ret (Some response))
    (λ e, log (Failed ("Error creating tenant " +:+ tenant_tenantId tenant) e) ;;;
          ret None).

Definition set_tenant_metadata (client : FronteggClient) (tenant_id : string)
    (metadata : string) : M St (option Response) :=
  let endpoint := base_url client +:+ "/tenants/resources/tenants/v1/"
                  +:+ tenant_id +:+ "/metadata" in
  headers <- get_headers client ;;
  try_except
    (response <- make_request_with_rate_limiting "POST" endpoint client headers
                   None (Some (MetadataBody metadata)) ;;
     ret (Some response))
    (λ e, log (Failed ("Error updating metadata for tenant " +:+ tenant_id) e) ;;;
          ret None).

Definition bulk_create_tenants (destination_client : FronteggClient)
    (tenants : list Tenant) : M St unit :=
  dest <- get_tenants destination_client ;;
  let existing_tenants : gset string :=
    list_to_set (map tenant_tenantId dest) in
  for_each tenants (λ tenant,
    if bool_decide (tenant_tenantId tenant ∈ existing_tenants) then
      log (Info ("Tenant " +:+ tenant_tenantId tenant
                 +:+ " already exists. Skipping."))
    else
      create_tenant destination_client tenant ;;; ret ()).

Definition is_JSONDecodeError (e : exn) : bool :=
  match e with
  | JSONDecodeError => true
  | _ => false
  end.

Definition migrate_tenants (source_client destination_client : FronteggClient)
  : M St unit :=
  source_tenants <- get_tenants source_client ;;
  bulk_create_tenants destination_client source_tenants ;;;
  for_each source_tenants (λ tenant,
    match tenant_metadata tenant with
    | Some metadata =>
        if json_text_truthy metadata then
          try_except_when is_JSONDecodeError
            (metadata_json <- lift_either (json_loads metadata) ;;
             set_tenant_metadata destination_client (tenant_tenantId tenant)
               metadata_json ;;;
             ret ())
            (λ _, log (Info ("Invalid metadata for tenant "
                             +:+ tenant_tenantId tenant)))
        else ret ()
    | None => ret ()
    end).

Definition get_all_users (client : FronteggClient) : M St (list User) :=
  let endpoint := base_url client +:+ "/identity/resources/users/v2" in
  let params := Some [("_limit", "100"); ("_includeSubTenants", "True")] in
  get_all_paginated_items users_page client endpoint params.

(** [user_ids[i:i + chunk_size] for i in range(0, len(user_ids), chunk_size)] *)
Fixpoint chunks_aux {A} (fuel chunk_size : nat) (l : list A) : list (list A) :=
  match fuel with
  | O => []
  | S n =>
      match l with
      | [] => []
      | _ => take chunk_size l :: chunks_aux n chunk_size (drop chunk_size l)
      end
  end.

Definition chunks {A} (chunk_size : nat) (l : list A) : list (list A) :=
  chunks_aux (length l) chunk_size l.

Definition user_roles_list (b : body) : exn + list (option UserRoles) :=
  match b with
  | BUserRoles l => inr l
  | BEmpty => inl JSONDecodeError
  | _ => inl AttributeError
  end.

Definition get_user_roles (client : FronteggClient) (tenant_id : string)
    (user_ids : list string) : M St (list (option UserRoles)) :=
  let chunk_size := 100%nat in
  let endpoint := base_url client +:+ "/identity/resources/users/v3/roles" in
  headers <- get_headers client ;;
  let headers := headers ++ [("frontegg-tenant-id", tenant_id)] in
  for_fold (chunks chunk_size user_ids) [] (λ all_roles chunk,
    try_except
      (response <- make_request_with_rate_limiting "GET" endpoint client
                     headers (Some [("ids", join "," chunk)]) None ;;
       roles <- lift_either (user_roles_list (resp_json response)) ;;
       ret (all_roles ++ roles))
      (λ e, log (Failed ("Error fetching roles for tenant " +:+ tenant_id) e) ;;;
            ret all_roles)).

Definition get_all_user_roles (client : FronteggClient)
    (users_df : list MergedUser) : M St (list (option UserRoles)) :=
  let tenant_ids := unique (map mu_tenantId users_df) in
  for_fold tenant_ids [] (λ all_role_ids tenant_id,
    let tenant_df := filter (λ row, mu_tenantId row = tenant_id) users_df in
    let user_ids := map mu_id_source tenant_df in
    role_ids <- get_user_roles client tenant_id user_ids ;;
    ret (all_role_ids ++ role_ids)).

Definition assign_user_roles (client : FronteggClient)
    (users_df : list AssignRow) : M St unit :=
  let endpoint_template userId :=
    base_url client +:+ "/identity/resources/users/v1/" +:+ userId +:+ "/roles" in
  for_each (omap (λ row, pair row <$> ar_roleIds row) users_df) (λ '(row, roleIds),
    let endpoint := endpoint_template (format_cell (ar_id_dest row)) in
    headers <- get_headers client ;;
    let headers := headers ++ [("frontegg-tenant-id", ar_tenantId row)] in
    role_ids <- lift_either (json_loads roleIds) ;;
    try_except
      (make_request_with_rate_limiting "POST" endpoint client headers None
         (Some (RoleIdsBody role_ids)) ;;;
       ret ())
      (λ e, log (Failed ("Error assigning roles to user " +:+ ar_email row) e))).

Definition roles_list (b : body) : exn + list Role :=
  match b with
  | BRoles l => inr l
  | BEmpty => inl JSONDecodeError
  | _ => inl AttributeError
  end.

(** The dictionary [{role['key']: role['id'] for role in roles_list}], or
    the empty one when the fetch fails. *)
Definition get_roles_mapping (client : FronteggClient)
  : M St (list (string * string)) :=
  let endpoint := base_url client +:+ "/identity/resources/roles/v1" in
  headers <- get_headers client ;;
  try_except
    (response <- make_request_with_rate_limiting "GET" endpoint client headers
                   None None ;;
     roles <- lift_either (roles_list (resp_json response)) ;;
     ret (foldl (λ d role, dict_set (role_key role) (role_id role) d) [] roles))
    (λ e, log (Failed "Error fetching roles" e) ;;; ret []).

Definition get_role_id_translations
    (source_client destination_client : FronteggClient)
  : M St (gmap string string) :=
  source_roles <- get_roles_mapping source_client ;;
  destination_roles <- get_roles_mapping destination_client ;;
  for_fold source_roles ∅ (λ role_id_translation '(key, source_id),
    let dest_id := dict_get key destination_roles in
    if opt_truthy dest_id then
      ret (<[source_id := default "" dest_id]> role_id_translation)
    else
      log (Info ("Role key '" +:+ key
                 +:+ "' not found in destination account.")) ;;;
      ret role_id_translation).

Definition translate_role_ids (role_id_translation : gmap string string)
    (role_ids : list string) : M St (json_text (list string)) :=
  translated_role_ids <-
    for_fold role_ids [] (λ translated_role_ids role_id,
      let translated_id := role_id_translation !! role_id in
      if opt_truthy translated_id then
        ret (translated_role_ids ++ [default "" translated_id])
      else
        log (Info ("Role ID '" +:+ role_id
                   +:+ "' not found in translation mapping.")) ;;;
        ret translated_role_ids) ;;
  ret (json_dumps translated_role_ids).

(** [df[column]] on [pd.DataFrame(records)]: a frame made of no record
    has no column at all. *)
Definition require_column {A} (records : list A) (column : string)
  : M St unit :=
  match records with
  | [] => raise (KeyError column)
  | _ => ret ()
  end.

(** [df['email'] = df['email'].str.lower()] *)
Definition lower_email `{!Lower} (u : User) : User :=
  {| user_id := user_id u; user_email := str_lower (user_email u);
     user_tenantId := user_tenantId u |}.

Definition user_key (u : User) : string * string :=
  (user_email u, user_tenantId u).

(** The left merge of [migrate_users] on [email] and [tenantId], with the
    columns [id_source] and [id_dest] the suffixes produce. *)
Definition merge_users `{!Lower} (source_users destination_users : list User)
  : list MergedUser :=
  map (λ '(s, d), {| mu_email := user_email s; mu_tenantId := user_tenantId s;
                     mu_id_source := user_id s; mu_id_dest := user_id <$> d |})
      (merge_left user_key user_key
         (map lower_email source_users) (map lower_email destination_users)).

(** The inner merge with the role rows and the choice of columns. *)
Definition merge_roles (users_df : list MergedUser)
    (all_user_roles_df : list (string * json_text (list string)))
  : list AssignRow :=
  map (λ '(u, r), {| ar_email := mu_email u; ar_tenantId := mu_tenantId u;
                     ar_id_source := mu_id_source u;
                     ar_id_dest := mu_id_dest u; ar_roleIds := Some r.2 |})
      (merge_inner mu_id_source fst users_df all_user_roles_df).

Definition migrate_users `{!Lower}
    (source_client destination_client : FronteggClient) : M St unit :=
  source_users <- get_all_users source_client ;;
  destination_users <- get_all_users destination_client ;;
  require_column source_users "email" ;;;
  require_column destination_users "email" ;;;
  let users_df := merge_users source_users destination_users in
  all_user_roles <- get_all_user_roles source_client users_df ;;
  let all_user_roles := omap id all_user_roles in
  role_id_translations <-
    get_role_id_translations source_client destination_client ;;
  require_column all_user_roles "roleIds" ;;;
  all_user_roles_df <-
    for_fold all_user_roles [] (λ rows r,
      roleIds <- translate_role_ids role_id_translations (ur_roleIds r) ;;
      ret (rows ++ [(ur_userId r, roleIds)])) ;;
  let users_df := merge_roles users_df all_user_roles_df in
  assign_user_roles destination_client users_df.

Definition permissions_list (b : body) : exn + list Permission :=
  match b with
  | BPermissions l => inr l
  | BEmpty => inl JSONDecodeError
  | _ => inl AttributeError
  end.

Definition categories_list (b : body) : exn + list Category :=
  match b with
  | BCategories l => inr l
  | BEmpty => inl JSONDecodeError
  | _ => inl AttributeError
  end.

Definition get_permissions (client : FronteggClient) : M St (list Permission) :=
  let endpoint := base_url client +:+ "/identity/resources/permissions/v1" in
  headers <- get_headers client ;;
  try_except
    (response <- make_request_with_rate_limiting "GET" endpoint client headers
                   None None ;;
     lift_either (permissions_list (resp_json response)))
    (λ e, log (Failed "Error fetching permissions" e) ;;; ret []).

(** The list comprehension of [create_permissions]: the permissions with
    a truthy [categoryId], as the dictionaries that are posted. *)
Definition permissions_data (permissions : list Permission)
  : list PermissionData :=
  omap (λ p,
    if opt_truthy (perm_categoryId p) then
      Some {| pd_name := perm_name p;
              pd_description := default "" (perm_description p);
              pd_categoryId := default "" (perm_categoryId p);
              pd_key := perm_key p;
              pd_assignmentType := default "Admin" (perm_assignmentType p) |}
    else None) permissions.

Definition response_json (response : Response) : exn + body :=
  match resp_json response with
  | BEmpty => inl JSONDecodeError
  | b => inr b
  end.

Definition create_permissions (client : FronteggClient)
    (permissions : list Permission) : M St (option body) :=
  let endpoint := base_url client +:+ "/identity/resources/permissions/v1" in
  headers <- get_headers client ;;
  try_except
    (response <- make_request_with_rate_limiting "POST" endpoint client headers
                   None (Some (PermissionsBody (permissions_data permissions))) ;;
     b <- lift_either (response_json response) ;;
     ret (Some b))
    (λ e, log (Failed "Error creating permissions" e) ;;; ret None).

Definition get_categories (client : FronteggClient) : M St (list Category) :=
  let endpoint :=
    base_url client +:+ "/identity/resources/permissions/v1/categories" in
  headers <- get_headers client ;;
  try_except
    (response <- make_request_with_rate_limiting "GET" endpoint client headers
                   None None ;;
     lift_either (categories_list (resp_json response)))
    (λ e, log (Failed "Error fetching categories" e) ;;; ret []).

Definition create_categories (client : FronteggClient)
    (categories : list Category) : M St unit :=
  let endpoint :=
    base_url client +:+ "/identity/resources/permissions/v1/categories" in
  headers <- get_headers client ;;
  for_each categories (λ category,
    let category_json :=
      CategoryBody (cat_name category) (default "" (cat_description category)) in
    try_except
      (make_request_with_rate_limiting "POST" endpoint client headers None
         (Some category_json) ;;;
       ret ())
      (λ e, log (Failed ("Error creating category " +:+ cat_name category) e))).

(** The dictionary comprehension of [migrate_settings]: each source
    category id goes to the id of the first destination category of the
    same name, or to [None]. *)
Definition category_mapping (source_categories destination_categories
    : list Category) : gmap string (option string) :=
  foldl (λ m src_cat,
           <[cat_id src_cat :=
               cat_id <$> head (filter (λ dest_cat,
                                          cat_name dest_cat = cat_name src_cat)
                                       destination_categories)]> m)
        ∅ source_categories.

(** [permission['categoryId']]: a permission without the key raises. *)
Definition subscript_categoryId (permission : Permission) : exn + string :=
  match perm_categoryId permission with
  | Some categoryId => inr categoryId
  | None => inl (KeyError "categoryId")
  end.

(** [category_mapping.get(categoryId)] *)
Definition mapped_category (mapping : gmap string (option string))
    (categoryId : string) : option string :=
  mjoin (mapping !! categoryId).

Definition set_categoryId (p : Permission) (c : option string) : Permission :=
  {| perm_name := perm_name p; perm_description := perm_description p;
     perm_categoryId := c; perm_key := perm_key p;
     perm_assignmentType := perm_assignmentType p |}.

Definition migrate_settings (source_client destination_client : FronteggClient)
  : M St unit :=
  source_categories <- get_categories source_client ;;
  create_categories destination_client source_categories ;;;
  destination_categories <- get_categories destination_client ;;
  let mapping := category_mapping source_categories destination_categories in
  source_permissions <- get_permissions source_client ;;
  source_permissions <-
    for_fold source_permissions [] (λ done permission,
      categoryId <- lift_either (subscript_categoryId permission) ;;
      let permission :=
        set_categoryId permission (mapped_category mapping categoryId) in
      (if opt_truthy (perm_categoryId permission) then ret ()
       else log (Info ("Category ID for permission " +:+ perm_name permission
                       +:+ " not found. Skipping."))) ;;;
      ret (done ++ [permission])) ;;
  create_permissions destination_client source_permissions ;;;
  ret ().

(** [pd.to_datetime(hashes_df['createdAt'])]: an empty cell becomes NaT,
    a cell that is no date makes the conversion fail. *)
Fixpoint to_datetime (rows : list RawHashRow) : exn + list HashRow :=
  match rows with
  | [] => inr []
  | r :: rest =>
      match raw_createdAt r with
      | CreatedGarbage raw => inl (ValueError raw)
      | cell =>
          match to_datetime rest with
          | inl e => inl e
          | inr rest' =>
              inr ({| hr_userId := raw_userId r; hr_hash := raw_hash r;
                      hr_createdAt := match cell with
                                      | CreatedAt t => Some t
                                      | _ => None
                                      end |} :: rest')
          end
      end
  end.

(** [hashes_df.sort_values('createdAt').groupby('userId').tail(1)] *)
Definition latest_hashes `{!Pandas} (hashes_df : list HashRow) : list HashRow :=
  group_tail1 (sort_values hashes_df).

(** The merged frame of [create_migration_csv], with the columns kept. *)
Definition final_df `{!Pandas} (users_df : list UserDetail)
    (hashes_df : list HashRow) : list MigrationRow :=
  map (λ '(u, h), {| mr_name := ud_name u; mr_email := ud_email u;
                     mr_tenantId := ud_tenantId u; mr_hash := hr_hash <$> h |})
      (merge_left ud_userId hr_userId users_df (latest_hashes hashes_df)).

Definition read_csv {A} (read : string → St → option A) (path : string)
  : M St A :=
  λ w, match read path (w_env w) with
       | Some rows => (Ok rows, w)
       | None => (Raise (FileNotFoundError path), w)
       end.

Definition is_FileNotFoundError (e : exn) : bool :=
  match e with
  | FileNotFoundError _ => true
  | _ => false
  end.

Definition create_migration_csv `{!Pandas}
    (users_path hashes_path save_path : string) : M St unit :=
  frames <-
    try_except_when is_FileNotFoundError
      (users_df <- read_csv env_read_users users_path ;;
       hashes_df <- read_csv env_read_hashes hashes_path ;;
       ret (users_df, hashes_df))
      (λ e, log (Failed "File not found" e) ;;; raise e) ;;
  hashes_df <- lift_either (to_datetime frames.2) ;;
  emit (WroteCsv save_path (final_df frames.1 hashes_df)).

(** [migrate]; the creation of the [account_data] directory is left out. *)
Definition migrate `{!Pandas} `{!Lower}
    (source_client destination_client : FronteggClient) : M St unit :=
  migrate_tenants source_client destination_client ;;;
  create_migration_csv "account_data/user_details_prod.csv"
    "account_data/user_passwords_prod.csv" "account_data/migration_data.csv" ;;;
  migrate_settings source_client destination_client ;;;
  migrate_users source_client destination_client.

End Script.

(** The two accounts of the script. *)
Definition FRONTEGG_ACCOUNT_1 : FronteggClient :=
  {| base_url := "https://api.frontegg.com"; account := Source |}.

Definition FRONTEGG_ACCOUNT_2 : FronteggClient :=
  {| base_url := "https://api.us.frontegg.com"; account := Destination |}.

(** ** Two environments to run the script in *)

(** *** A scripted environment: the accounts answer the successive
    requests with the successive replies of a list. *)
Record Scripted := {
  sc_replies : list Reply;
  sc_users_csv : option (list UserDetail);
  sc_hashes_csv : option (list RawHashRow)
}.

#[export] Instance scripted_env : Env Scripted := {|
  env_get_headers _ s := (inr "token", s);
  env_request _ s :=
    match sc_replies s with
    | r :: rest => (r, {| sc_replies := rest; sc_users_csv := sc_users_csv s;
                          sc_hashes_csv := sc_hashes_csv s |})
    | [] => (Unreachable, s)
    end;
  env_read_users _ s := sc_users_csv s;
  env_read_hashes _ s := sc_hashes_csv s
|}.

(** *** Two accounts that store what they are sent *)
Record AccountData := {
  ad_tenants : list Tenant;
  ad_users : list User;
  ad_user_roles : list UserRoles;
  ad_roles : list Role;
  ad_categories : list Category;
  ad_permissions : list Permission;
  ad_assigned : list (string * list string)
}.

Record Cloud := {
  cloud_source : AccountData;
  cloud_destination : AccountData;
  (** ids the destination gives to what it creates *)
  cloud_fresh : list string;
  (** URLs that answer 500 *)
  cloud_broken : list string;
  cloud_users_csv : option (list UserDetail);
  cloud_hashes_csv : option (list RawHashRow)
}.

Definition answer (status : Z) (b : body) : Reply :=
  Replied {| status_code := status; retry_after := RetryAbsent; resp_json := b |}.

Definition base_of (a : Account) : string :=
  match a with
  | Source => "https://api.frontegg.com"
  | Destination => "https://api.us.frontegg.com"
  end.

Definition permission_of_data (p : PermissionData) : Permission :=
  {| perm_name := pd_name p; perm_description := Some (pd_description p);
     perm_categoryId := Some (pd_categoryId p); perm_key := pd_key p;
     perm_assignmentType := Some (pd_assignmentType p) |}.

(** One account answering one request. *)
Definition serve (req : Request) (fresh : list string) (a : AccountData)
  : Reply * list string * AccountData :=
  let base := base_of (req_account req) in
  let hits m path :=
    bool_decide (req_method req = m) && bool_decide (req_url req = base +:+ path) in
  let tenant_header := dict_get "frontegg-tenant-id" (req_headers req) in
  if hits "GET" "/tenants/resources/tenants/v2" then
    (answer 200 (BTenantsPage (ad_tenants a) None), fresh, a)
  else if hits "GET" "/identity/resources/users/v2" then
    (answer 200 (BUsersPage (ad_users a) None), fresh, a)
  else if hits "GET" "/identity/resources/users/v3/roles" then
    (answer 200 (BUserRoles (map Some (filter (λ r,
        Exists (λ u, user_id u = ur_userId r
                     ∧ Some (user_tenantId u) = tenant_header) (ad_users a))
        (ad_user_roles a)))), fresh, a)
  else if hits "GET" "/identity/resources/roles/v1" then
    (answer 200 (BRoles (ad_roles a)), fresh, a)
  else if hits "GET" "/identity/resources/permissions/v1/categories" then
    (answer 200 (BCategories (ad_categories a)), fresh, a)
  else if hits "GET" "/identity/resources/permissions/v1" then
    (answer 200 (BPermissions (ad_permissions a)), fresh, a)
  else
    match req_json req with
    | Some (TenantBody tenantId name) =>
        if hits "POST" "/tenants/resources/tenants/v1" then
          if bool_decide (tenantId ∈ map tenant_tenantId (ad_tenants a)) then
            (answer 409 BEmpty, fresh, a)
          else
            (answer 201 BEmpty, fresh,
             {| ad_tenants := ad_tenants a ++
                  [{| tenant_tenantId := tenantId; tenant_name := name;
                      tenant_metadata := None |}];
                ad_users := ad_users a; ad_user_roles := ad_user_roles a;
                ad_roles := ad_roles a; ad_categories := ad_categories a;
                ad_permissions := ad_permissions a;
                ad_assigned := ad_assigned a |})
        else (answer 404 BEmpty, fresh, a)
    | Some (MetadataBody _) =>
        if bool_decide (Exists (λ t, req_url req = base
                                  +:+ "/tenants/resources/tenants/v1/"
                                  +:+ tenant_tenantId t +:+ "/metadata")
                               (ad_tenants a))
        then (answer 200 BEmpty, fresh, a)
        else (answer 404 BEmpty, fresh, a)
    | Some (CategoryBody name description) =>
        if hits "POST" "/identity/resources/permissions/v1/categories" then
          (answer 201 BEmpty, tail fresh,
           {| ad_tenants := ad_tenants a; ad_users := ad_users a;
              ad_user_roles := ad_user_roles a; ad_roles := ad_roles a;
              ad_categories := ad_categories a ++
                [{| cat_id := default "id" (head fresh); cat_name := name;
                    cat_description := Some description |}];
              ad_permissions := ad_permissions a;
              ad_assigned := ad_assigned a |})
        else (answer 404 BEmpty, fresh, a)
    | Some (PermissionsBody l) =>
        if hits "POST" "/identity/resources/permissions/v1" then
          (answer 201 (BPermissions (map permission_of_data l)), fresh,
           {| ad_tenants := ad_tenants a; ad_users := ad_users a;
              ad_user_roles := ad_user_roles a; ad_roles := ad_roles a;
              ad_categories := ad_categories a;
              ad_permissions := ad_permissions a ++ map permission_of_data l;
              ad_assigned := ad_assigned a |})
        else (answer 404 BEmpty, fresh, a)
    | Some (RoleIdsBody ids) =>
        match filter (λ u, req_url req = base
                             +:+ "/identity/resources/users/v1/"
                             +:+ user_id u +:+ "/roles") (ad_users a) with
        | u :: _ =>
            (answer 200 BEmpty, fresh,
             {| ad_tenants := ad_tenants a; ad_users := ad_users a;
                ad_user_roles := ad_user_roles a; ad_roles := ad_roles a;
                ad_categories := ad_categories a;
                ad_permissions := ad_permissions a;
                ad_assigned := ad_assigned a ++ [(user_id u, ids)] |})
        | [] => (answer 404 BEmpty, fresh, a)
        end
    | None => (answer 404 BEmpty, fresh, a)
    end.

Definition cloud_request (req : Request) (c : Cloud) : Reply * Cloud :=
  if bool_decide (req_url req ∈ cloud_broken c) then (answer 500 BEmpty, c)
  else
    match req_account req with
    | Source =>
        let '(r, fresh, a) := serve req (cloud_fresh c) (cloud_source c) in
        (r, {| cloud_source := a; cloud_destination := cloud_destination c;
               cloud_fresh := fresh; cloud_broken := cloud_broken c;
               cloud_users_csv := cloud_users_csv c;
               cloud_hashes_csv := cloud_hashes_csv c |})
    | Destination =>
        let '(r, fresh, a) := serve req (cloud_fresh c) (cloud_destination c) in
        (r, {| cloud_source := cloud_source c; cloud_destination := a;
               cloud_fresh := fresh; cloud_broken := cloud_broken c;
               cloud_users_csv := cloud_users_csv c;
               cloud_hashes_csv := cloud_hashes_csv c |})
    end.

#[export] Instance cloud_env : Env Cloud := {|
  env_get_headers _ c := (inr "token", c);
  env_request := cloud_request;
  env_read_users _ c := cloud_users_csv c;
  env_read_hashes _ c := cloud_hashes_csv c
|}.

Definition start {St} (s : St) (gas : nat) : World St :=
  {| w_env := s; w_trace := []; w_log := []; w_gas := gas |}.

(** *** Deciding the order of [sort_values] *)

#[export] Instance HashRow_eq_dec : EqDecision HashRow.
Proof. solve_decision. Defined.

#[export] Instance created_le_dec : RelDecision created_le.
Proof.
  intros a b. unfold created_le.
  destruct (hr_createdAt a), (hr_createdAt b); apply _.
Defined.

#[export] Instance created_le_trans : Transitive created_le.
Proof.
  intros a b c. unfold created_le.
  destruct (hr_createdAt a), (hr_createdAt b), (hr_createdAt c); try done; lia.
Qed.

#[export] Instance created_le_total : Total created_le.
Proof.
  intros a b. unfold created_le.
  destruct (hr_createdAt a), (hr_createdAt b); try tauto; lia.
Qed.

(** [sort_values] as a merge sort. *)
#[export] Instance merge_sort_pandas : Pandas :=
  {| sort_values := merge_sort created_le;
     sort_values_perm := merge_sort_Permutation created_le;
     sort_values_sorted := Sorted_merge_sort created_le |}.

(** [str.lower] for the accounts below, whose text is ASCII. *)
#[export] Instance ascii_lower : Lower :=
  {| str_lower := lower; str_lower_ascii := λ _ _, eq_refl |}.

(** *** A small pair of accounts

    The source has one tenant, three users with their roles, two roles,
    one category and two permissions; the destination knows two of the
    users and one of the roles. *)
Definition example_source : AccountData :=
  {| ad_tenants :=
       [{| tenant_tenantId := "t1"; tenant_name := "Acme";
           tenant_metadata := Some (JsonOf "{}") |}];
     ad_users :=
       [{| user_id := "s1"; user_email := "Ann@x.com"; user_tenantId := "t1" |};
        {| user_id := "s2"; user_email := "bob@x.com"; user_tenantId := "t1" |};
        {| user_id := "s3"; user_email := "cid@x.com"; user_tenantId := "t1" |}];
     ad_user_roles :=
       [{| ur_userId := "s1"; ur_roleIds := ["r1"; "r2"] |};
        {| ur_userId := "s2"; ur_roleIds := ["r1"] |};
        {| ur_userId := "s3"; ur_roleIds := ["r2"] |}];
     ad_roles :=
       [{| role_id := "r1"; role_key := "admin" |};
        {| role_id := "r2"; role_key := "viewer" |}];
     ad_categories :=
       [{| cat_id := "c1"; cat_name := "Billing"; cat_description := None |}];
     ad_permissions :=
       [{| perm_name := "read"; perm_description := None;
           perm_categoryId := Some "c1"; perm_key := "bill.read";
           perm_assignmentType := None |};
        {| perm_name := "orphan"; perm_description := None;
           perm_categoryId := Some "c0"; perm_key := "orphan.read";
           perm_assignmentType := None |}];
     ad_assigned := [] |}.

Definition example_destination : AccountData :=
  {| ad_tenants := [];
     ad_users :=
       [{| user_id := "d1"; user_email := "ann@x.com"; user_tenantId := "t1" |};
        {| user_id := "d3"; user_email := "cid@x.com"; user_tenantId := "t1" |}];
     ad_user_roles := [];
     ad_roles := [{| role_id := "d9"; role_key := "admin" |}];
     ad_categories := [];
     ad_permissions := [];
     ad_assigned := [] |}.

Definition example_cloud (broken : list string) : Cloud :=
  {| cloud_source := example_source;
     cloud_destination := example_destination;
     cloud_fresh := ["c2"; "c3"; "c4"];
     cloud_broken := broken;
     cloud_users_csv := Some [];
     cloud_hashes_csv := Some [] |}.

(** The POST requests of a trace: address and body. *)
Definition posts (trace : list Event) : list (string * option json_data) :=
  omap (λ ev, match ev with
              | Sent r => if bool_decide (req_method r = "POST")
                          then Some (req_url r, req_json r) else None
              | _ => None
              end) trace.

(** ** Vocabulary of the statements *)




(** What [assign_user_roles] posts for a row. *)
Definition assignment_post (client : FronteggClient) (row : AssignRow)
  : string * option json_data :=
  (base_url client +:+ "/identity/resources/users/v1/"
   +:+ format_cell (ar_id_dest row) +:+ "/roles",
   Some (RoleIdsBody match ar_roleIds row with
                     | Some (JsonOf ids) => ids
                     | _ => []
                     end)).

Section Vocabulary.
Context {St : Type} `{!Env St}.

(** The world after [req] was sent and the environment moved to [s]. *)
Definition sent (w : World St) (req : Request) (s : St) : World St :=
  {| w_env := s; w_trace := w_trace w ++ [Sent req]; w_log := w_log w;
     w_gas := w_gas w |}.

Definition logged (w : World St) (entries : list LogEntry) : World St :=
  {| w_env := w_env w; w_trace := w_trace w; w_log := w_log w ++ entries;
     w_gas := w_gas w |}.

Definition request_outcome (req : Request) (w : World St)
  : Result Response * World St :=
  let '(reply, s) := env_request req (w_env w) in
  let w1 := sent w req s in
  match reply with
  | Unreachable =>
      (Raise ConnectionError, logged w1 [Failed "Request error" ConnectionError])
  | Replied r =>
      if bool_decide (status_code r = 429) then
        match int_retry_after (retry_after r) with
        | inl e => (Raise e, w1)
        | inr _ => (Raise (NameError "time"),
                    logged w1 [Info "Rate limited. Retrying."])
        end
      else if bool_decide (400 ≤ status_code r < 600) then
        (Raise (HTTPError (status_code r)),
         logged w1 [Failed "Request error" (HTTPError (status_code r))])
      else (Ok r, w1)
  end.

(** The diagnostic [translate_role_ids] logs for an id it drops. *)
Definition drop_diagnostic (role_id : string) : LogEntry :=
  Info ("Role ID '" +:+ role_id +:+ "' not found in translation mapping.").

(** A reply that is a remote error other than a rate limit. *)
Definition remote_failure (reply : Reply) : Prop :=
  match reply with
  | Unreachable => True
  | Replied r => 400 ≤ status_code r < 600 ∧ status_code r ≠ 429
  end.

(** In world [w] the client gets its headers, and the account answers
    its plain GET of [endpoint] with a remote error. *)
Definition fetch_fails (client : FronteggClient) (endpoint : string)
    (w : World St) : Prop :=
  w_gas w ≠ 0%nat ∧
  ∃ token s,
    env_get_headers (account client) (w_env w) = (inr token, s)
    ∧ remote_failure
        (env_request {| req_account := account client; req_method := "GET";
                        req_url := endpoint;
                        req_headers := [("Authorization", "Bearer " +:+ token)];
                        req_params := None; req_json := None |} s).1.

(** The destination users [u] is matched with: same lower-cased email,
    same tenant. *)
Definition matching_users `{!Lower} (u : User) (destination_users : list User)
  : list User :=
  filter (λ v, str_lower (user_email v) = str_lower (user_email u)
               ∧ user_tenantId v = user_tenantId u) destination_users.

(** The requests of a paginated fetch. *)
Definition page_request (client : FronteggClient)
    (headers : list (string * string)) (url : string)
    (params : option (list (string * string))) : Request :=
  {| req_account := account client; req_method := "GET"; req_url := url;
     req_headers := headers; req_params := params; req_json := None |}.

(** The replies of the environment to successive requests. *)
Fixpoint env_run (s : St) (reqs : list Request) : list Reply * St :=
  match reqs with
  | [] => ([], s)
  | req :: rest =>
      let '(reply, s') := env_request req s in
      let '(replies, s'') := env_run s' rest in
      (reply :: replies, s'')
  end.

(** A status [raise_for_status] accepts. *)
Definition ok_status (r : Response) : Prop := ¬ (400 ≤ status_code r < 600).

End Vocabulary.

(** ** Requests and failures of the single functions *)

(** The exception a failed reply surfaces as. *)
Definition failure_of (reply : Reply) : exn :=
  match reply with
  | Unreachable => ConnectionError
  | Replied r => HTTPError (status_code r)
  end.

(** What [create_tenant] posts for a tenant. *)
Definition tenant_post (client : FronteggClient) (tenant : Tenant)
  : string * option json_data :=
  (base_url client +:+ "/tenants/resources/tenants/v1",
   Some (TenantBody (tenant_tenantId tenant) (tenant_name tenant))).

(** The request [create_tenant] sends. *)
Definition tenant_request (client : FronteggClient) (token : string)
    (tenant : Tenant) : Request :=
  {| req_account := account client; req_method := "POST";
     req_url := base_url client +:+ "/tenants/resources/tenants/v1";
     req_headers := [("Authorization", "Bearer " +:+ token)];
     req_params := None;
     req_json := Some (TenantBody (tenant_tenantId tenant)
                         (tenant_name tenant)) |}.

(** What [migrate_tenants] posts for the metadata of a tenant, if
    anything. *)
Definition metadata_post (client : FronteggClient) (tenant : Tenant)
  : option (string * option json_data) :=
  match tenant_metadata tenant with
  | Some (JsonOf metadata_json) =>
      Some (base_url client +:+ "/tenants/resources/tenants/v1/"
            +:+ tenant_tenantId tenant +:+ "/metadata",
            Some (MetadataBody metadata_json))
  | _ => None
  end.

(** The request [get_user_roles] sends for one chunk of user ids. *)
Definition roles_request (client : FronteggClient) (token tenant_id : string)
    (chunk : list string) : Request :=
  {| req_account := account client; req_method := "GET";
     req_url := base_url client +:+ "/identity/resources/users/v3/roles";
     req_headers := [("Authorization", "Bearer " +:+ token);
                     ("frontegg-tenant-id", tenant_id)];
     req_params := Some [("ids", join "," chunk)];
     req_json := None |}.

(** The request [get_roles_mapping] sends. *)
Definition roles_mapping_request (client : FronteggClient) (token : string)
  : Request :=
  {| req_account := account client; req_method := "GET";
     req_url := base_url client +:+ "/identity/resources/roles/v1";
     req_headers := [("Authorization", "Bearer " +:+ token)];
     req_params := None; req_json := None |}.

(** One step of the loop of [get_role_id_translations]. *)
Definition translation_step (destination_roles : list (string * string))
    (m : gmap string string) (item : string * string) : gmap string string :=
  match dict_get item.1 destination_roles with
  | Some dest_id => if str_truthy dest_id then <[item.2 := dest_id]> m else m
  | None => m
  end.

(** A password row after [pd.to_datetime]: empty cells are NaT. *)
Definition parsed_row (r : RawHashRow) : HashRow :=
  {| hr_userId := raw_userId r; hr_hash := raw_hash r;
     hr_createdAt := match raw_createdAt r with
                     | CreatedAt t => Some t
                     | _ => None
                     end |}.

(** A [createdAt] cell that is no date. *)
Definition is_garbage (r : RawHashRow) : Prop :=
  match raw_createdAt r with
  | CreatedGarbage _ => True
  | _ => False
  end.

(** An account whose every page carries a next link. *)
Definition endless_page : Response :=
  {| status_code := 200; retry_after := RetryAbsent;
     resp_json := BTenantsPage [] (Some "/tenants?cursor=again") |}.

(** Its only state. *)
Inductive Endless := endless.

#[export] Instance endless_env : Env Endless := {|
  env_get_headers _ s := (inr "token", s);
  env_request _ s := (Replied endless_page, s);
  env_read_users _ _ := None;
  env_read_hashes _ _ := None
|}.

(** An environment whose token refresh is refused. *)
Inductive Locked := locked.

#[export] Instance locked_env : Env Locked := {|
  env_get_headers _ s := (inl (HTTPError 401), s);
  env_request _ s := (Unreachable, s);
  env_read_users _ _ := None;
  env_read_hashes _ _ := None
|}.

(** ** The class [FronteggClient]: token and expiry

    The functions of the script reach the class only through
    [get_headers], which [Env] abstracts as [env_get_headers]; here the
    class itself is modelled.  The answer of the sign-in is taken to be a
    JSON object whose token is text and whose lifetime is a whole number.
    Instants are microseconds from [datetime.min]; [datetime.utcnow()] and
    the POST of the credentials are the environment. *)

(** The fields of a [FronteggClient] instance. *)
Record AccountSession := {
  as_base_url : string;
  as_client_id : string;
  as_secret : string;
  as_token : option string;
  as_token_expiry : Z
}.

(** The JSON answer of [/auth/v1/vendor]; [None] is a missing key. *)
Record AuthBody := {
  accessToken : option string;
  expiresIn : option Z
}.

Record AuthResponse := {
  auth_status : Z;
  auth_json : json_text AuthBody
}.

Inductive AuthReply :=
| AuthReplied (r : AuthResponse)
| AuthUnreachable.

Class AuthEnv (St : Type) := {
  (** [self.session.post(endpoint, json={'clientId': ..., 'secret': ...})] *)
  env_post_credentials : string → string → string → St → AuthReply * St;
  (** [datetime.utcnow()] *)
  env_utcnow : St → Z * St
}.

Inductive AuthEvent :=
| PostedCredentials (endpoint client_id secret : string)
| AuthLogged (entry : LogEntry).

(** What a method leaves: its result or exception, the instance, the
    environment, and what it posted and logged; as for the script,
    progress-only log lines are not recorded. *)
Record AuthRun (St A : Type) := {
  run_result : exn + A;
  run_self : AccountSession;
  run_env : St;
  run_events : list AuthEvent
}.
Arguments run_result {St A} _.
Arguments run_self {St A} _.
Arguments run_env {St A} _.
Arguments run_events {St A} _.

(** [self.token = token] *)
Definition set_token (self : AccountSession) (token : option string)
  : AccountSession :=
  {| as_base_url := as_base_url self; as_client_id := as_client_id self;
     as_secret := as_secret self; as_token := token;
     as_token_expiry := as_token_expiry self |}.

(** [self.token_expiry = expiry] *)
Definition set_token_expiry (self : AccountSession) (expiry : Z)
  : AccountSession :=
  {| as_base_url := as_base_url self; as_client_id := as_client_id self;
     as_secret := as_secret self; as_token := as_token self;
     as_token_expiry := expiry |}.

Definition no_token_message : string :=
  "Authentication failed: No token found in response.".

(** [datetime.max], 9999-12-31T23:59:59.999999. *)
Definition datetime_max : Z := 3652059 * 86400 * 1000000 - 1.

(** [timedelta(seconds=n)], in microseconds: a [timedelta] spans at most
    999999999 days either way. *)
Definition timedelta_seconds (n : Z) : exn + Z :=
  if bool_decide (-999999999 ≤ n `div` 86400 ≤ 999999999)
  then inr (n * 1000000)
  else inl OverflowError.

(** [instant + delta]: the sum has to be a [datetime]. *)
Definition datetime_add (instant delta : Z) : exn + Z :=
  if bool_decide (0 ≤ instant + delta ≤ datetime_max)
  then inr (instant + delta)
  else inl OverflowError.

(** [datetime.utcnow() + timedelta(seconds=expires_in - 60)], the clock
    having read [now]. *)
Definition expiry_from (now expires_in : Z) : exn + Z :=
  match timedelta_seconds (expires_in - 60) with
  | inl e => inl e
  | inr delta => datetime_add now delta
  end.

(** The expiry of a token that lives [expires_in] seconds from [now] is a
    date Python can hold. *)
Definition expiry_representable (now expires_in : Z) : Prop :=
  -999999999 ≤ (expires_in - 60) `div` 86400 ≤ 999999999
  ∧ 0 ≤ now + (expires_in - 60) * 1000000 ≤ datetime_max.

Section Auth.
Context {St : Type} `{!AuthEnv St}.

Definition auth_endpoint (self : AccountSession) : string :=
  as_base_url self +:+ "/frontegg/identity/resources/auth/v1/vendor".

(** The two [except] clauses of [authenticate], tried in order; both
    re-raise.  The decoder error of [response.json()] is a
    [RequestException] of its own (requests 2.27 and later; before, a
    plain [ValueError], which the second clause logs): either way it is
    logged once.  No clause catches [OverflowError]. *)
Definition authenticate_handlers (e : exn) : list AuthEvent :=
  if (is_RequestException e || is_JSONDecodeError e)%bool then
    [AuthLogged (Failed "Authentication error" e)]
  else
    match e with
    | ValueError what => [AuthLogged (Info what)]
    | _ => []
    end.

(** The [try] block of [authenticate] up to the test of the token. *)
Definition token_of_reply (reply : AuthReply) : exn + (option string * Z) :=
  match reply with
  | AuthUnreachable => inl ConnectionError
  | AuthReplied response =>
      if bool_decide (400 ≤ auth_status response < 600) then
        inl (HTTPError (auth_status response))
      else
        match json_loads (auth_json response) with
        | inl e => inl e
        | inr response_json =>
            let token := accessToken response_json in
            let expires_in := default 3600 (expiresIn response_json) in
            if opt_truthy token then inr (token, expires_in)
            else inl (ValueError no_token_message)
        end
  end.

(** [FronteggClient.authenticate]: the token is stored before the expiry
    is computed. *)
Definition authenticate (self : AccountSession) (s : St) : AuthRun St unit :=
  let endpoint := auth_endpoint self in
  let '(reply, s1) :=
    env_post_credentials endpoint (as_client_id self) (as_secret self) s in
  let posted :=
    PostedCredentials endpoint (as_client_id self) (as_secret self) in
  match token_of_reply reply with
  | inr (token, expires_in) =>
      let self := set_token self token in
      let '(now, s2) := env_utcnow s1 in
      match expiry_from now expires_in with
      | inr expiry =>
          {| run_result := inr (); run_self := set_token_expiry self expiry;
             run_env := s2; run_events := [posted] |}
      | inl e =>
          {| run_result := inl e; run_self := self; run_env := s2;
             run_events := posted :: authenticate_handlers e |}
      end
  | inl e =>
      {| run_result := inl e; run_self := self; run_env := s1;
         run_events := posted :: authenticate_handlers e |}
  end.

(** [{'Authorization': f'Bearer {self.token}'}] *)
Definition bearer (self : AccountSession) : list (string * string) :=
  [("Authorization", "Bearer " +:+ default "None" (as_token self))].

(** The [return] of [get_headers] after a call of [authenticate]. *)
Definition after_authenticate (r : AuthRun St unit)
  : AuthRun St (list (string * string)) :=
  {| run_result := match run_result r with
                   | inl e => inl e
                   | inr _ => inr (bearer (run_self r))
                   end;
     run_self := run_self r; run_env := run_env r;
     run_events := run_events r |}.

(** [FronteggClient.get_headers]: [or] reads the clock only when there is
    a token. *)
Definition client_get_headers (self : AccountSession) (s : St)
  : AuthRun St (list (string * string)) :=
  if opt_truthy (as_token self) then
    let '(now, s1) := env_utcnow s in
    if bool_decide (as_token_expiry self ≤ now) then
      after_authenticate (authenticate self s1)
    else
      {| run_result := inr (bearer self); run_self := self; run_env := s1;
         run_events := [] |}
  else after_authenticate (authenticate self s).

(** [FronteggClient.__init__] *)
Definition client_init (base_url client_id secret : string) (s : St)
  : AuthRun St unit :=
  let '(now, s1) := env_utcnow s in
  authenticate {| as_base_url := base_url; as_client_id := client_id;
                  as_secret := secret; as_token := None;
                  as_token_expiry := now |} s1.

(** The credentials posted in a run, in order. *)
Definition posted_credentials (events : list AuthEvent)
  : list (string * string * string) :=
  omap (λ ev, match ev with
              | PostedCredentials endpoint client_id secret =>
                  Some (endpoint, client_id, secret)
              | AuthLogged _ => None
              end) events.

(** The instances a script can hold: built by [__init__], then passed
    through any number of [get_headers] calls, whatever these return. *)
Inductive constructed : AccountSession → Prop :=
| constructed_init base_url client_id secret s :
    run_result (client_init base_url client_id secret s) = inr () →
    constructed (run_self (client_init base_url client_id secret s))
| constructed_get_headers self s :
    constructed self →
    constructed (run_self (client_get_headers self s)).
End Auth.

(** A scripted sign-in service with a clock that ticks at each reading. *)
Record AuthScript := {
  au_replies : list AuthReply;
  au_clock : Z
}.

#[export] Instance auth_script_env : AuthEnv AuthScript := {|
  env_post_credentials _ _ _ s :=
    match au_replies s with
    | r :: rest => (r, {| au_replies := rest; au_clock := au_clock s |})
    | [] => (AuthUnreachable, s)
    end;
  env_utcnow s :=
    (au_clock s, {| au_replies := au_replies s; au_clock := au_clock s + 1 |})
|}.

Definition token_reply (token : string) (expires_in : option Z) : AuthReply :=
  AuthReplied {| auth_status := 200;
                 auth_json := JsonOf {| accessToken := Some token;
                                        expiresIn := expires_in |} |}.

Definition example_session : AccountSession :=
  {| as_base_url := "https://api.frontegg.com"; as_client_id := "id";
     as_secret := "key"; as_token := Some "old"; as_token_expiry := 50 |}.

(** * Properties *)

Section Requests.
Context {St : Type} `{!Env St}.

(** [time] is not a name of the module. *)
Lemma time_unbound : bool_decide ("time" ∈ module_globals) = false.
Proof. vm_compute. reflexivity. Qed.

(** With room for one round of its loop, a call comes to one request
    and its outcome: the loop never goes round. *)
Lemma make_request_outcome method url client headers params json w :
  w_gas w ≠ 0%nat →
  make_request_with_rate_limiting method url client headers params json w
  = request_outcome {| req_account := account client; req_method := method;
                       req_url := url; req_headers := headers;
                       req_params := params; req_json := json |} w.
Proof.
  intros Hgas. unfold make_request_with_rate_limiting, request_outcome.
  destruct (w_gas w) as [|n] eqn:Hn; [done|]. cbn [while_true].
  unfold bind at 1. unfold request_attempt, try_except_when, try_except.
  unfold bind at 1. unfold session_request.
  destruct (env_request _ (w_env w)) as [[r|] s]; cbn; unfold sent, logged;
    cbn; rewrite ?Hn; [|done].
  case_bool_decide as H429.
  - destruct (retry_after r); cbn; rewrite ?Hn; done.
  - unfold raise_for_status. case_bool_decide; cbn; rewrite ?Hn; done.
Qed.

(** An accepted answer is returned. *)
Lemma request_outcome_ok req w r s :
  env_request req (w_env w) = (Replied r, s) → ok_status r →
  request_outcome req w = (Ok r, sent w req s).
Proof.
  intros Hreq Hok. unfold request_outcome. rewrite Hreq.
  unfold ok_status in Hok.
  case_bool_decide as H429; [lia|]. case_bool_decide; [done|]. done.
Qed.

Lemma env_run_cons_inv s req rest replies s1 :
  env_run s (req :: rest) = (replies, s1) →
  ∃ reply s' replies',
    env_request req s = (reply, s') ∧ env_run s' rest = (replies', s1)
    ∧ replies = reply :: replies'.
Proof.
  cbn. destruct (env_request req s) as [reply s'] eqn:Hreq.
  destruct (env_run s' rest) as [replies' s''] eqn:Hrest.
  intros [= <- <-]. by exists reply, s', replies'.
Qed.

(** The loop of [get_all_paginated_items] over pages that all but the
    last carry a next link, from any value of the local list. *)
Lemma paginate_pages {A} (read : body → exn + (list A * option string))
    client headers (init : list (Response * list A * string))
    (last : Response) (last_items : list A) (last_link : option string) :
  ok_status last → read (resp_json last) = inr (last_items, last_link) →
  opt_truthy last_link = false →
  ∀ fuel items url params (w : World St) s1,
    Forall (λ p, ok_status p.1.1 ∧ read (resp_json p.1.1) = inr (p.1.2, Some p.2)
                 ∧ str_truthy p.2 = true) init →
    str_truthy url = true →
    env_run (w_env w)
      (page_request client headers url params
       :: map (λ p, page_request client headers (base_url client +:+ p.2) (Some []))
              init)
    = (map (λ p, Replied p.1.1) init ++ [Replied last], s1) →
    (length init < fuel)%nat → w_gas w ≠ 0%nat →
    paginate read fuel client headers items (Some url) params w
    = (Ok (items ++ concat (map (λ p, p.1.2) init) ++ last_items),
       {| w_env := s1;
          w_trace := w_trace w ++ map Sent
            (page_request client headers url params
             :: map (λ p, page_request client headers (base_url client +:+ p.2)
                            (Some [])) init);
          w_log := w_log w; w_gas := w_gas w |}).
Proof.
  intros Hok Hread Hfalsy. induction init as [|[[r its] link] init IH];
    intros fuel items url params w s1 Hinit Hurl Hrun Hfuel Hgas.
  - destruct fuel as [|n]; [cbn in Hfuel; lia|].
    apply env_run_cons_inv in Hrun as (reply & s & replies' & Hreq & Hrest & Heq).
    cbn in Hrest, Heq. simplify_eq.
    cbn [paginate opt_truthy]. rewrite Hurl.
    unfold bind at 1. rewrite make_request_outcome by done.
    cbn [default from_option id]. fold (page_request client headers url params).
    erewrite request_outcome_ok by done.
    unfold bind at 1. rewrite Hread. cbn [lift_either ret fst snd].
    rewrite Hfalsy. destruct n; cbn; done.
  - destruct fuel as [|n]; [cbn in Hfuel; lia|].
    apply Forall_cons in Hinit as [(Hr & Hrd & Hlink) Hinit]. cbn in Hr, Hrd, Hlink.
    cbn [map] in Hrun.
    apply env_run_cons_inv in Hrun as (reply & s & replies' & Hreq & Hrest & Heq).
    cbn [map app fst snd] in Heq. simplify_eq.
    cbn [paginate opt_truthy]. rewrite Hurl.
    unfold bind at 1. rewrite make_request_outcome by done.
    cbn [default from_option id]. fold (page_request client headers url params).
    erewrite request_outcome_ok by done.
    unfold bind at 1. rewrite Hrd. cbn [lift_either ret fst snd opt_truthy].
    rewrite Hlink. cbn [default from_option id].
    rewrite (IH n (items ++ its) (base_url client +:+ link) (Some [])
               (sent w (page_request client headers url params) s) s1);
      [|done| |done|cbn in Hfuel |- *; lia|done].
    + cbn. f_equal; [by rewrite <- !app_assoc|].
      f_equal. by rewrite <- app_assoc.
    + (* the next link is truthy, so is the URL made of it *)
      clear -Hlink. destruct (base_url client) as [|c b]; cbn; [done|done].
Qed.
End Requests.

(** ** Rate limiting *)

Section RateLimiting.
Context {St : Type} `{!Env St}.

(** A call never loops: it sends one request and returns or raises. *)
Lemma make_request_sends_once method url client headers params json w :
  w_gas w ≠ 0%nat →
  ∃ res w',
    make_request_with_rate_limiting method url client headers params json w
    = (res, w')
    ∧ res ≠ Diverge
    ∧ w_trace w' = w_trace w ++
        [Sent {| req_account := account client; req_method := method;
                 req_url := url; req_headers := headers;
                 req_params := params; req_json := json |}].
Proof.
  intros Hgas. rewrite make_request_outcome by done. unfold request_outcome.
  destruct (env_request _ (w_env w)) as [[r|] s]; [|by eexists _, _].
  case_bool_decide; [destruct (int_retry_after _)|case_bool_decide];
    by eexists _, _.
Qed.

(** On a 429 the call raises: [time] is not a name of the module, so the
    wait cannot start and no second request is sent. *)
Lemma rate_limited_request_raises method url client headers params json w r s :
  w_gas w ≠ 0%nat →
  let req := {| req_account := account client; req_method := method;
                req_url := url; req_headers := headers;
                req_params := params; req_json := json |} in
  env_request req (w_env w) = (Replied r, s) →
  status_code r = 429 →
  ∃ e w',
    make_request_with_rate_limiting method url client headers params json w
    = (Raise e, w')
    ∧ (e = NameError "time" ∨ ∃ raw, e = ValueError raw)
    ∧ w_trace w' = w_trace w ++ [Sent req].
Proof.
  intros Hgas req Hreq H429. rewrite make_request_outcome by done.
  unfold request_outcome. fold req. rewrite Hreq.
  rewrite bool_decide_eq_true_2 by done.
  destruct (retry_after r); cbn; eexists _, _; eauto.
Qed.

End RateLimiting.

(** C3: a first answer 429 with [Retry-After: 2], followed by a 200: the
    call raises [NameError] after one request; nothing is slept, the
    second answer is never asked for. *)
Theorem rate_limit_surfaces_as_error :
  let too_many := {| status_code := 429; retry_after := RetryInt 2;
                     resp_json := BEmpty |} in
  let fine := {| status_code := 200; retry_after := RetryAbsent;
                 resp_json := BRoles [] |} in
  let url := "https://api.frontegg.com/identity/resources/roles/v1" in
  let req := {| req_account := Source; req_method := "GET"; req_url := url;
                req_headers := []; req_params := None; req_json := None |} in
  let server := {| sc_replies := [Replied too_many; Replied fine];
                   sc_users_csv := None; sc_hashes_csv := None |} in
  make_request_with_rate_limiting "GET" url FRONTEGG_ACCOUNT_1 [] None None
    (start server 5)
  = (Raise (NameError "time"),
     {| w_env := {| sc_replies := [Replied fine]; sc_users_csv := None;
                    sc_hashes_csv := None |};
        w_trace := [Sent req];
        w_log := [Info "Rate limited. Retrying."];
        w_gas := 5 |}).
Proof. vm_compute. reflexivity. Qed.

(** ** Pagination *)

Section Pagination.
Context {St : Type} `{!Env St}.

(** C7: when the account answers the first request and the requests for
    the successive next links with N pages, of which only the last has no
    next link, the fetch returns the items of all pages in page order;
    it sent exactly these N requests, the first with the caller's
    parameters and the others, to the base address followed by the link,
    with empty parameters. *)
Theorem get_all_paginated_items_concat {A}
    (read : body → exn + (list A * option string))
    (client : FronteggClient) (endpoint : string)
    (params : option (list (string * string))) (w : World St)
    (token : string) (s0 s1 : St)
    (init : list (Response * list A * string))
    (last : Response) (last_items : list A) (last_link : option string) :
  env_get_headers (account client) (w_env w) = (inr token, s0) →
  str_truthy endpoint = true →
  Forall (λ p, ok_status p.1.1 ∧ read (resp_json p.1.1) = inr (p.1.2, Some p.2)
               ∧ str_truthy p.2 = true) init →
  ok_status last →
  read (resp_json last) = inr (last_items, last_link) →
  opt_truthy last_link = false →
  let headers := [("Authorization", "Bearer " +:+ token)] in
  let requests :=
    page_request client headers endpoint params
    :: map (λ p, page_request client headers (base_url client +:+ p.2) (Some []))
           init in
  env_run s0 requests = (map (λ p, Replied p.1.1) init ++ [Replied last], s1) →
  (length init < w_gas w)%nat →
  get_all_paginated_items read client endpoint params w
  = (Ok (concat (map (λ p, p.1.2) init) ++ last_items),
     {| w_env := s1; w_trace := w_trace w ++ map Sent requests;
        w_log := w_log w; w_gas := w_gas w |}).
Proof.
  intros Hhead Hurl Hinit Hok Hread Hfalsy headers requests Hrun Hgas.
  unfold get_all_paginated_items, bind, get_headers. rewrite Hhead.
  fold headers.
  rewrite (paginate_pages read client headers init last last_items last_link
             Hok Hread Hfalsy (w_gas w) [] endpoint params (set_env w s0) s1);
    [done|done|done|done|done|cbn; lia].
Qed.

End Pagination.

(** Three pages of users from a scripted account. *)
Lemma get_all_paginated_items_concat_witness :
  let user i := {| user_id := i; user_email := i; user_tenantId := "t" |} in
  let page items next := {| status_code := 200; retry_after := RetryAbsent;
                            resp_json := BUsersPage items next |} in
  let p1 := page [user "a"; user "b"] (Some "/users?cursor=1") in
  let p2 := page [user "c"] (Some "/users?cursor=2") in
  let p3 := page [user "d"; user "e"] None in
  let server := {| sc_replies := [Replied p1; Replied p2; Replied p3];
                   sc_users_csv := None; sc_hashes_csv := None |} in
  (get_all_paginated_items users_page FRONTEGG_ACCOUNT_1
     "https://api.frontegg.com/users" (Some [("_limit", "100")])
     (start server 3)).1
  = Ok [user "a"; user "b"; user "c"; user "d"; user "e"].
Proof.
  intros user page p1 p2 p3 server.
  refine (f_equal fst
    (get_all_paginated_items_concat users_page FRONTEGG_ACCOUNT_1
       "https://api.frontegg.com/users" (Some [("_limit", "100")])
       (start server 3) "token" server
       {| sc_replies := []; sc_users_csv := None; sc_hashes_csv := None |}
       [(p1, [user "a"; user "b"], "/users?cursor=1");
        (p2, [user "c"], "/users?cursor=2")]
       p3 [user "d"; user "e"] None _ _ _ _ _ _ _ _)).
  - reflexivity.
  - reflexivity.
  - repeat first [apply Forall_nil | apply Forall_cons; split];
      repeat split; try reflexivity; unfold ok_status; cbn; lia.
  - unfold ok_status; cbn; lia.
  - reflexivity.
  - reflexivity.
  - reflexivity.
  - cbn; lia.
Defined.

(** ** Translation of role ids *)

Section Translation.
Context {St : Type} `{!Env St}.

Lemma logged_nil (w : World St) : logged w [] = w.
Proof. destruct w. unfold logged. cbn. by rewrite app_nil_r. Qed.

Lemma logged_logged (w : World St) l1 l2 :
  logged (logged w l1) l2 = logged w (l1 ++ l2).
Proof. unfold logged. cbn. by rewrite app_assoc. Qed.

(** The loop of [translate_role_ids], from any value of the local list. *)
Lemma translate_loop (m : gmap string string) (ids : list string) :
  ∀ (acc : list string) (w : World St),
    for_fold ids acc (λ translated_role_ids role_id,
      let translated_id := m !! role_id in
      if opt_truthy translated_id then
        ret (translated_role_ids ++ [default "" translated_id])
      else
        log (Info ("Role ID '" +:+ role_id
                   +:+ "' not found in translation mapping.")) ;;;
        ret translated_role_ids) w
    = (Ok (acc ++ omap (λ id, if opt_truthy (m !! id) then m !! id else None) ids),
       logged w (map drop_diagnostic
                   (filter (λ id, opt_truthy (m !! id) = false) ids))).
Proof.
  induction ids as [|id ids IH]; intros acc w.
  - cbn. by rewrite app_nil_r, logged_nil.
  - cbn [for_fold]. unfold bind at 1. cbn zeta.
    destruct (opt_truthy (m !! id)) eqn:Htruthy.
    + cbn [ret]. rewrite IH. cbn [omap list_omap]. rewrite Htruthy.
      rewrite filter_cons_False by (rewrite Htruthy; done).
      destruct (m !! id) as [d|] eqn:Hm; [|done]. cbn.
      by rewrite <- app_assoc.
    + unfold bind at 1. cbn [log ret]. rewrite IH. cbn [omap list_omap].
      rewrite Htruthy. rewrite filter_cons_True by done.
      cbn [map]. f_equal. unfold logged, drop_diagnostic. cbn.
      by rewrite <- app_assoc.
Qed.

(** C5, as the code does it: [translate_role_ids] always returns; what
    it returns is the serialisation of the translations of the ids the
    map translates, in their order; it is no longer than the input and
    holds values of the map only; each id the map does not know adds
    nothing to the output and gets a diagnostic in the log, and is absent
    from the output unless it is also a value of the map. *)
Theorem translate_role_ids_total_lossy (m : gmap string string)
    (ids : list string) (w : World St) :
  let survivors := filter (λ id, opt_truthy (m !! id) = true) ids in
  let dropped := filter (λ id, opt_truthy (m !! id) = false) ids in
  ∃ out,
    translate_role_ids m ids w
    = (Ok (json_dumps out), logged w (map drop_diagnostic dropped))
    ∧ Forall2 (λ id d, m !! id = Some d) survivors out
    ∧ (length out ≤ length ids)%nat
    ∧ (∀ d, d ∈ out → ∃ id, id ∈ ids ∧ m !! id = Some d)
    ∧ (∀ id, id ∈ ids → m !! id = None →
         id ∈ dropped ∧ ((∀ known, m !! known ≠ Some id) → id ∉ out)).
Proof.
  intros survivors dropped.
  exists (omap (λ id, if opt_truthy (m !! id) then m !! id else None) ids).
  split_and!.
  - unfold translate_role_ids, bind. by rewrite translate_loop.
  - subst survivors. clear. induction ids as [|id ids IH]; [constructor|].
    cbn [omap list_omap]. destruct (opt_truthy (m !! id)) eqn:Htruthy.
    + rewrite filter_cons_True by done.
      destruct (m !! id) as [d|] eqn:Hm; [|done]. by constructor.
    + by rewrite filter_cons_False by (rewrite Htruthy; done).
  - clear. induction ids as [|id ids IH]; [done|]. cbn [omap list_omap].
    destruct (opt_truthy (m !! id)); [destruct (m !! id)|]; cbn; lia.
  - intros d Hd. apply list_elem_of_omap in Hd as (id & Hid & Hkept).
    exists id. split; [done|]. by destruct (opt_truthy (m !! id)).
  - intros id Hid Hnone. subst survivors dropped. split.
    + apply list_elem_of_filter. rewrite Hnone. done.
    + intros Hvalue (known & _ & Hkept)%list_elem_of_omap.
      apply (Hvalue known). by destruct (opt_truthy (m !! known)).
Qed.

End Translation.

(** A map that knows one of two role ids. *)
Lemma translate_role_ids_total_lossy_witness :
  (translate_role_ids {["r1" := "d9"]} ["r1"; "r2"]
     (start (example_cloud []) 1)).1 = Ok (json_dumps ["d9"])
  ∧ drop_diagnostic "r2"
    ∈ w_log (translate_role_ids {["r1" := "d9"]} ["r1"; "r2"]
               (start (example_cloud []) 1)).2.
Proof.
  destruct (translate_role_ids_total_lossy {["r1" := "d9"]} ["r1"; "r2"]
              (start (example_cloud []) 1))
    as (out & Hrun & Hout & _ & _ & Hdrop).
  rewrite Hrun. cbn [fst snd]. split.
  - do 2 f_equal.
    change (Forall2 (λ id d, ({["r1" := "d9"]} : gmap _ _) !! id = Some d)
                    ["r1"] out) in Hout.
    apply Forall2_cons_inv_l in Hout as (d & out' & Hd & Hnil & ->).
    apply Forall2_nil_inv_l in Hnil. subst out'.
    rewrite lookup_singleton_eq in Hd. congruence.
  - assert (Hin2 : "r2" ∈ ["r1"; "r2"]) by (right; left).
    specialize (Hdrop "r2" Hin2 eq_refl). destruct Hdrop as [Hin _].
    cbn [w_log logged start]. apply list_elem_of_fmap. by exists "r2".
Defined.

(** C5 as stated fails: the map sends [r1] to [r2] and does not know
    [r2]; of the input [r1; r2] the second id is dropped, with its
    diagnostic, and still the output holds [r2], the translation of the
    first. *)
Lemma unknown_id_in_output :
  let translation : gmap string string := {["r1" := "r2"]} in
  let run := translate_role_ids translation ["r1"; "r2"]
               (start (example_cloud []) 1) in
  ∃ out,
    run.1 = Ok (json_dumps out)
    ∧ w_log run.2 = [drop_diagnostic "r2"]
    ∧ "r2" ∈ ["r1"; "r2"] ∧ translation !! "r2" = None ∧ "r2" ∈ out.
Proof.
  exists ["r2"]. vm_compute. split_and!; [done|done|right; left|done|left].
Qed.

(** ** Fetches that swallow their failure *)

Section SwallowedFetches.
Context {St : Type} `{!Env St}.

Lemma request_outcome_failure req (w : World St) :
  remote_failure (env_request req (w_env w)).1 →
  ∃ e w', request_outcome req w = (Raise e, w').
Proof.
  unfold request_outcome. destruct (env_request req (w_env w)) as [[r|] s]; cbn.
  - intros [Hrange Hne]. rewrite bool_decide_eq_false_2 by done.
    rewrite bool_decide_eq_true_2 by done. by eexists _, _.
  - intros _. by eexists _, _.
Qed.

(** A failed plain GET inside [try ... except Exception] ends in the
    handler. *)
Lemma failed_fetch_handled {A} (client : FronteggClient) (endpoint : string)
    (k : Response → M St A) (handler : exn → M St A) (w : World St) :
  fetch_fails client endpoint w →
  ∃ e w',
    (headers <- get_headers client ;;
     try_except
       (response <- make_request_with_rate_limiting "GET" endpoint client
                      headers None None ;;
        k response)
       handler) w
    = handler e w'.
Proof.
  intros (Hgas & token & s & Hhead & Hfail).
  unfold bind at 1. unfold get_headers. rewrite Hhead.
  unfold try_except, bind at 1.
  rewrite make_request_outcome by done.
  apply (request_outcome_failure _ (set_env w s)) in Hfail as (e & w' & ->).
  by exists e, w'.
Qed.

Lemma translations_without_destination (source_roles : list (string * string)) :
  ∀ (w : World St), ∃ w',
    for_fold source_roles (∅ : gmap string string)
      (λ role_id_translation '(key, source_id),
         let dest_id := dict_get key ([] : list (string * string)) in
         if opt_truthy dest_id then
           ret (<[source_id := default "" dest_id]> role_id_translation)
         else
           log (Info ("Role key '" +:+ key
                      +:+ "' not found in destination account.")) ;;;
           ret role_id_translation) w
    = (Ok ∅, w').
Proof.
  induction source_roles as [|[key source_id] rest IH]; intros w.
  - by exists w.
  - cbn [for_fold]. unfold bind at 1. cbn. apply IH.
Qed.

(** C10: when the plain GET of the roles, the categories or the
    permissions is answered with a remote error other than 429, the fetch
    function returns the empty dictionary or the empty list; when it is
    the destination roles that fail, the translation map is empty, and
    with an empty map [translate_role_ids] returns the empty list whatever
    the role ids are. *)
Theorem failed_fetch_yields_empty :
  (∀ client (w : World St),
     fetch_fails client (base_url client +:+ "/identity/resources/roles/v1") w →
     ∃ w', get_roles_mapping client w = (Ok [], w'))
  ∧ (∀ client (w : World St),
       fetch_fails client
         (base_url client +:+ "/identity/resources/permissions/v1/categories") w →
       ∃ w', get_categories client w = (Ok [], w'))
  ∧ (∀ client (w : World St),
       fetch_fails client
         (base_url client +:+ "/identity/resources/permissions/v1") w →
       ∃ w', get_permissions client w = (Ok [], w'))
  ∧ (∀ source_client destination_client (w w1 : World St) source_roles,
       get_roles_mapping source_client w = (Ok source_roles, w1) →
       fetch_fails destination_client
         (base_url destination_client +:+ "/identity/resources/roles/v1") w1 →
       ∃ w2, get_role_id_translations source_client destination_client w
             = (Ok ∅, w2))
  ∧ (∀ role_ids (w : World St),
       (translate_role_ids ∅ role_ids w).1 = Ok (json_dumps [])).
Proof.
  assert (Hroles : ∀ client (w : World St),
     fetch_fails client (base_url client +:+ "/identity/resources/roles/v1") w →
     ∃ w', get_roles_mapping client w = (Ok [], w')).
  { intros client w Hfail. unfold get_roles_mapping.
    eapply failed_fetch_handled in Hfail as (e & w' & ->).
    unfold bind, log, ret. by eexists. }
  split_and!.
  - exact Hroles.
  - intros client w Hfail. unfold get_categories.
    eapply failed_fetch_handled in Hfail as (e & w' & ->).
    unfold bind, log, ret. by eexists.
  - intros client w Hfail. unfold get_permissions.
    eapply failed_fetch_handled in Hfail as (e & w' & ->).
    unfold bind, log, ret. by eexists.
  - intros src dst w w1 source_roles Hsrc Hfail.
    apply Hroles in Hfail as (w1' & Hdst).
    unfold get_role_id_translations. unfold bind at 1. rewrite Hsrc.
    unfold bind at 1. rewrite Hdst.
    apply translations_without_destination.
  - intros role_ids w. unfold translate_role_ids. unfold bind at 1.
    rewrite (translate_loop ∅ role_ids [] w). cbn. do 2 f_equal.
    induction role_ids as [|id role_ids IH]; [done|].
    cbn [omap list_omap]. by rewrite lookup_empty.
Qed.

End SwallowedFetches.

(** The three fetches against accounts whose endpoints answer 500. *)
Lemma failed_fetch_yields_empty_witness :
  let down :=
    example_cloud
      ["https://api.us.frontegg.com/identity/resources/roles/v1";
       "https://api.us.frontegg.com/identity/resources/permissions/v1/categories";
       "https://api.us.frontegg.com/identity/resources/permissions/v1"] in
  (get_roles_mapping FRONTEGG_ACCOUNT_2 (start down 5)).1 = Ok []
  ∧ (get_categories FRONTEGG_ACCOUNT_2 (start down 5)).1 = Ok []
  ∧ (get_permissions FRONTEGG_ACCOUNT_2 (start down 5)).1 = Ok []
  ∧ (get_role_id_translations FRONTEGG_ACCOUNT_1 FRONTEGG_ACCOUNT_2
       (start down 5)).1 = Ok ∅.
Proof.
  intros down.
  destruct (failed_fetch_yields_empty (St := Cloud)) as (H1 & H2 & H3 & H4 & _).
  assert (Hfails : ∀ endpoint w, w_gas w = 5%nat → w_env w = down →
            endpoint ∈ cloud_broken down →
            fetch_fails FRONTEGG_ACCOUNT_2 endpoint w).
  { intros endpoint w Hgas Henv Hin. split; [by rewrite Hgas|].
    exists "token", down. split; [by rewrite Henv|].
    cbn [env_request cloud_env]. unfold cloud_request. cbn [req_url].
    rewrite bool_decide_eq_true_2 by done. cbn. lia. }
  split_and!.
  - destruct (H1 FRONTEGG_ACCOUNT_2 (start down 5)) as [w' ->]; [|done].
    apply Hfails; [done|done|]. cbn. set_solver.
  - destruct (H2 FRONTEGG_ACCOUNT_2 (start down 5)) as [w' ->]; [|done].
    apply Hfails; [done|done|]. cbn. set_solver.
  - destruct (H3 FRONTEGG_ACCOUNT_2 (start down 5)) as [w' ->]; [|done].
    apply Hfails; [done|done|]. cbn. set_solver.
  - destruct (H4 FRONTEGG_ACCOUNT_1 FRONTEGG_ACCOUNT_2 (start down 5)
                (get_roles_mapping FRONTEGG_ACCOUNT_1 (start down 5)).2
                [("admin", "r1"); ("viewer", "r2")]) as [w' ->]; [| |done].
    + vm_compute. reflexivity.
    + apply Hfails; [done|done|]. cbn. set_solver.
Defined.

(** ** Creation stages *)

Section Creation.
Context {St : Type} `{!Env St}.

(** A request inside [try ... except Exception: log] is sent once and the
    block goes on, whatever the answer. *)
Lemma guarded_request method url client headers params json what (w : World St) :
  w_gas w ≠ 0%nat →
  ∃ w',
    try_except
      (make_request_with_rate_limiting method url client headers params json ;;;
       ret ())
      (λ e, log (Failed what e)) w
    = (Ok (), w')
    ∧ w_trace w' = w_trace w ++
        [Sent {| req_account := account client; req_method := method;
                 req_url := url; req_headers := headers;
                 req_params := params; req_json := json |}]
    ∧ w_gas w' = w_gas w.
Proof.
  intros Hgas. unfold try_except, bind. rewrite make_request_outcome by done.
  unfold request_outcome.
  destruct (env_request _ (w_env w)) as [[r|] s]; [|by eexists].
  case_bool_decide; [destruct (int_retry_after _)|case_bool_decide];
    by eexists.
Qed.

(** [create_categories] posts every category it is given; what the
    destination already holds is never looked at. *)
Lemma create_categories_posts_all client categories (w : World St) token s :
  w_gas w ≠ 0%nat →
  env_get_headers (account client) (w_env w) = (inr token, s) →
  ∃ w',
    create_categories client categories w = (Ok (), w')
    ∧ posts (w_trace w')
      = posts (w_trace w) ++
        map (λ c, (base_url client
                   +:+ "/identity/resources/permissions/v1/categories",
                   Some (CategoryBody (cat_name c)
                           (default "" (cat_description c)))))
            categories.
Proof.
  intros Hgas Hhead. unfold create_categories, bind at 1, get_headers.
  rewrite Hhead.
  assert (Hgas' : w_gas (set_env w s) ≠ 0%nat) by done.
  change (w_trace w) with (w_trace (set_env w s)).
  generalize dependent (set_env w s). clear. intros w Hgas.
  induction categories as [|c rest IH] in w, Hgas |- *.
  - exists w. by rewrite app_nil_r.
  - cbn [for_each]. unfold bind at 1.
    edestruct (guarded_request "POST") as (w1 & -> & Htrace & Hgas1); [done|].
    destruct (IH w1) as (w' & -> & Hposts); [by rewrite Hgas1|].
    exists w'. split; [done|]. rewrite Hposts, Htrace. unfold posts.
    rewrite omap_app. cbn. by rewrite <- app_assoc.
Qed.

(** [bulk_create_tenants] sends no request beyond the fetch of the
    destination tenants when every tenant is already there. *)
Lemma bulk_create_tenants_skips_existing destination_client tenants
    (w w1 : World St) dest :
  get_tenants destination_client w = (Ok dest, w1) →
  (∀ t, t ∈ tenants → tenant_tenantId t ∈ map tenant_tenantId dest) →
  ∃ w',
    bulk_create_tenants destination_client tenants w = (Ok (), w')
    ∧ w_trace w' = w_trace w1 ∧ w_env w' = w_env w1.
Proof.
  intros Hget Hall. unfold bulk_create_tenants, bind at 1. rewrite Hget.
  clear Hget. induction tenants as [|t rest IH] in w1, Hall |- *.
  - by exists w1.
  - cbn [for_each]. unfold bind at 1.
    rewrite bool_decide_eq_true_2.
    2:{ apply elem_of_list_to_set, Hall. left. }
    cbn [log].
    match goal with |- context [for_each rest ?f ?w2] =>
      destruct (IH w2) as (w' & -> & Htrace & Henv) end.
    + intros t' Ht'. apply Hall. by right.
    + by exists w'.
Qed.

End Creation.

(** C2: the settings stage run twice in a row on the example accounts.
    The second run posts the category and the permission again, and the
    destination ends with each of them twice; the tenant stage, run
    twice, creates nothing the second time. *)
Theorem second_run_creates_again :
  let first := (migrate_settings FRONTEGG_ACCOUNT_1 FRONTEGG_ACCOUNT_2
                  (start (example_cloud []) 10)).2 in
  let second := (migrate_settings FRONTEGG_ACCOUNT_1 FRONTEGG_ACCOUNT_2
                   (start (w_env first) 10)).2 in
  let tenants_first := (migrate_tenants FRONTEGG_ACCOUNT_1 FRONTEGG_ACCOUNT_2
                          (start (example_cloud []) 10)).2 in
  let tenants_second :=
    (bulk_create_tenants FRONTEGG_ACCOUNT_2 (ad_tenants example_source)
       (start (w_env tenants_first) 10)).2 in
  map cat_name (ad_categories (cloud_destination (w_env first))) = ["Billing"]
  ∧ posts (w_trace second)
    = [("https://api.us.frontegg.com/identity/resources/permissions/v1/categories",
        Some (CategoryBody "Billing" ""));
       ("https://api.us.frontegg.com/identity/resources/permissions/v1",
        Some (PermissionsBody
                [{| pd_name := "read"; pd_description := "";
                    pd_categoryId := "c2"; pd_key := "bill.read";
                    pd_assignmentType := "Admin" |}]))]
  ∧ map cat_name (ad_categories (cloud_destination (w_env second)))
    = ["Billing"; "Billing"]
  ∧ map perm_key (ad_permissions (cloud_destination (w_env second)))
    = ["bill.read"; "bill.read"]
  ∧ posts (w_trace tenants_second) = [].
Proof. vm_compute. done. Qed.

(** ** Role assignments *)

Section Assignments.
Context {St : Type} `{!Env St}.

Lemma get_headers_ok client (w : World St) token s :
  env_get_headers (account client) (w_env w) = (inr token, s) →
  get_headers client w
  = (Ok [("Authorization", "Bearer " +:+ token)], set_env w s).
Proof. intros Hhead. unfold get_headers. by rewrite Hhead. Qed.

(** With headers at hand, [assign_user_roles] posts for every row whose
    [roleIds] cell holds a list, be the list empty or the destination id
    missing. *)
Lemma assign_user_roles_posts_every_row client (users_df : list AssignRow) :
  (∀ s, ∃ token s', env_get_headers (account client) s = (inr token, s')) →
  Forall (λ row, ∃ ids, ar_roleIds row = Some (JsonOf ids)) users_df →
  ∀ (w : World St), w_gas w ≠ 0%nat →
  ∃ w',
    assign_user_roles client users_df w = (Ok (), w')
    ∧ posts (w_trace w')
      = posts (w_trace w) ++ map (assignment_post client) users_df.
Proof.
  intros Hauth Hrows. unfold assign_user_roles.
  induction Hrows as [|row rest [ids Hids] _ IH]; intros w Hgas.
  - exists w. by rewrite app_nil_r.
  - cbn [omap list_omap]. rewrite Hids. cbn [fmap option_fmap option_map].
    cbn [for_each]. unfold bind at 1. unfold bind at 1.
    destruct (Hauth (w_env w)) as (token & s' & Hhead).
    rewrite (get_headers_ok _ _ _ _ Hhead). unfold bind at 1.
    cbn [json_loads lift_either ret].
    edestruct (guarded_request "POST") as (w1 & -> & Htrace & Hgas1);
      [|destruct (IH w1) as (w' & -> & Hposts)].
    + exact Hgas.
    + by rewrite Hgas1.
    + exists w'. split; [done|]. rewrite Hposts, Htrace. unfold posts.
      rewrite omap_app. cbn. unfold assignment_post. rewrite Hids.
      by rewrite <- app_assoc.
Qed.

End Assignments.

(** C1: the user stage on the example accounts.  Bob has no user at the
    destination and Cid's only role has no translation: a request goes
    out for each of them, one to the user [nan], one with no role. *)
Theorem roles_posted_without_target_or_roles :
  posts (w_trace (migrate_users FRONTEGG_ACCOUNT_1 FRONTEGG_ACCOUNT_2
                    (start (example_cloud []) 10)).2)
  = [("https://api.us.frontegg.com/identity/resources/users/v1/d1/roles",
      Some (RoleIdsBody ["d9"]));
     ("https://api.us.frontegg.com/identity/resources/users/v1/nan/roles",
      Some (RoleIdsBody ["d9"]));
     ("https://api.us.frontegg.com/identity/resources/users/v1/d3/roles",
      Some (RoleIdsBody []))]
  ∧ posts (w_trace (assign_user_roles FRONTEGG_ACCOUNT_2
                      [{| ar_email := "bob@x.com"; ar_tenantId := "t1";
                          ar_id_source := "s2"; ar_id_dest := None;
                          ar_roleIds := Some (json_dumps []) |}]
                      (start (example_cloud []) 10)).2)
    = [("https://api.us.frontegg.com/identity/resources/users/v1/nan/roles",
        Some (RoleIdsBody []))].
Proof. vm_compute. done. Qed.

(** ** The CSV credential merge *)

Lemma filter_none {A} (P : A → Prop) `{!∀ x, Decision (P x)} (l : list A) :
  (∀ x, x ∈ l → ¬ P x) → filter P l = [].
Proof.
  induction l as [|x l IH]; intros Hall; [done|].
  rewrite filter_cons_False by (apply Hall; left).
  apply IH. intros y Hy. apply Hall. by right.
Qed.

(** Of the rows of one user, [group_tail1] keeps the last. *)
Lemma group_tail1_filter (uid : string) (rows : list HashRow) :
  filter (λ r, hr_userId r = uid) (group_tail1 rows)
  = option_list (last (filter (λ r, hr_userId r = uid) rows)).
Proof.
  induction rows as [|r rest IH]; [done|].
  cbn [group_tail1]. destruct (decide (hr_userId r = uid)) as [Heq|Hne].
  - rewrite (filter_cons_True _ r rest) by done.
    case_bool_decide as Hex.
    + rewrite IH. apply Exists_exists in Hex as (r' & Hr' & Hsame).
      destruct (filter (λ r, hr_userId r = uid) rest) as [|x xs] eqn:Hf.
      * exfalso. assert (r' ∈ filter (λ r, hr_userId r = uid) rest) as Hin.
        { apply list_elem_of_filter. split; [congruence|done]. }
        rewrite Hf in Hin. by apply not_elem_of_nil in Hin.
      * by rewrite last_cons_cons.
    + rewrite filter_cons_True by done. rewrite IH.
      rewrite (filter_none _ rest); [done|].
      intros x Hx Hsame. apply Hex, Exists_exists. exists x.
      split; [done|congruence].
  - rewrite (filter_cons_False _ r rest) by done. rewrite <- IH.
    case_bool_decide; [done|]. by rewrite filter_cons_False.
Qed.

Lemma group_tail1_elem_of (r : HashRow) (rows : list HashRow) :
  r ∈ group_tail1 rows → r ∈ rows.
Proof.
  induction rows as [|x rest IH]; [done|]. cbn [group_tail1].
  case_bool_decide.
  - intros ?. right. by apply IH.
  - intros [->|Hin]%elem_of_cons; [left|right; by apply IH].
Qed.

Lemma StronglySorted_last {A} (R : relation A) (l : list A) (top : A) :
  StronglySorted R l → last l = Some top →
  ∀ x, x ∈ l → x = top ∨ R x top.
Proof.
  intros Hsorted Hlast. apply last_Some in Hlast as [l' ->].
  intros x [Hx|Hx%list_elem_of_singleton]%elem_of_app; [right|by left].
  eapply StronglySorted_app_1_elem_of; [done|done|].
  by apply list_elem_of_singleton.
Qed.

Lemma StronglySorted_filter {A} (R : relation A) (P : A → Prop)
    `{!∀ x, Decision (P x)} (l : list A) :
  StronglySorted R l → StronglySorted R (filter P l).
Proof.
  induction 1 as [|x l Hsorted IH Hall]; [constructor|].
  destruct (decide (P x)).
  - rewrite filter_cons_True by done. constructor; [done|].
    apply Forall_forall. intros y [_ Hy]%list_elem_of_filter.
    by eapply Forall_forall in Hall.
  - by rewrite filter_cons_False.
Qed.

(** [pd.to_datetime] keeps every row of a frame whose cells are dates or
    empty, and fails on a frame with a cell that is neither. *)
Lemma to_datetime_clean (rows : list RawHashRow) :
  Forall (λ r, ¬ is_garbage r) rows → to_datetime rows = inr (map parsed_row rows).
Proof.
  induction 1 as [|r rows Hr _ IH]; [done|]. cbn [to_datetime map].
  unfold is_garbage in Hr. rewrite IH. unfold parsed_row.
  by destruct (raw_createdAt r).
Qed.

Lemma to_datetime_garbage (rows : list RawHashRow) :
  Exists is_garbage rows → ∃ raw, to_datetime rows = inl (ValueError raw).
Proof.
  induction 1 as [r rows Hr|r rows _ [raw IH]]; cbn [to_datetime].
  - unfold is_garbage in Hr. destruct (raw_createdAt r); [done|done|by eexists].
  - rewrite IH. destruct (raw_createdAt r); by eexists.
Qed.

Section Csv.
Context `{!Pandas}.

(** The row [latest_hashes] keeps for a user: the last of the user's
    rows in the sorted frame. *)
Lemma latest_hashes_of_user (uid : string) (hashes_df : list HashRow) :
  filter (λ r, hr_userId r = uid) (latest_hashes hashes_df)
  = option_list (last (filter (λ r, hr_userId r = uid) (sort_values hashes_df))).
Proof. apply group_tail1_filter. Qed.

(** In the sorted frame no row of a user comes after the kept one. *)
Lemma latest_hashes_dominates (uid : string) (hashes_df : list HashRow) sel :
  last (filter (λ r, hr_userId r = uid) (sort_values hashes_df)) = Some sel →
  sel ∈ hashes_df ∧ hr_userId sel = uid
  ∧ ∀ r, r ∈ hashes_df → hr_userId r = uid → r = sel ∨ created_le r sel.
Proof.
  intros Hlast.
  pose proof (last_Some_elem_of _ _ Hlast) as [Huid Hin]%list_elem_of_filter.
  split_and!; [by rewrite <- (sort_values_perm hashes_df)|done|].
  intros r Hr Hsame. eapply StronglySorted_last; [|done|].
  - apply StronglySorted_filter, Sorted_StronglySorted; [apply _|].
    apply sort_values_sorted.
  - apply list_elem_of_filter. split; [done|].
    by rewrite (sort_values_perm hashes_df).
Qed.

Lemma latest_hashes_nonempty (uid : string) (hashes_df : list HashRow) r :
  r ∈ hashes_df → hr_userId r = uid →
  is_Some (last (filter (λ r, hr_userId r = uid) (sort_values hashes_df))).
Proof.
  intros Hr Huid. apply last_is_Some. intros Hnil.
  apply (filter_nil_not_elem_of _ _ r Hnil Huid).
  by rewrite (sort_values_perm hashes_df).
Qed.

Lemma merge_left_cons {L R K : Type} `{EqDecision K}
    (lkey : L → K) (rkey : R → K) (l : L) (rest : list L) (right : list R) :
  merge_left lkey rkey (l :: rest) right
  = match filter (λ r, rkey r = lkey l) right with
    | [] => [(l, None)]
    | ms => map (λ r, (l, Some r)) ms
    end ++ merge_left lkey rkey rest right.
Proof. reflexivity. Qed.

(** A left merge onto a frame with at most one row per key keeps the
    left rows one for one. *)
Lemma merge_left_at_most_one {L R K : Type} `{EqDecision K}
    (lkey : L → K) (rkey : R → K) (left : list L) (right : list R) :
  (∀ l, l ∈ left → (length (filter (λ r, rkey r = lkey l) right) ≤ 1)%nat) →
  merge_left lkey rkey left right
  = map (λ l, (l, head (filter (λ r, rkey r = lkey l) right))) left.
Proof.
  induction left as [|l rest IH]; intros Hone; [done|].
  rewrite merge_left_cons, IH.
  2:{ intros l' Hl'. apply Hone. by right. }
  specialize (Hone l (ltac:(left))). cbn [map].
  destruct (filter (λ r, rkey r = lkey l) right) as [|x [|y xs]]; [done|done|].
  cbn in Hone. lia.
Qed.

(** The merged frame has one row per user row, in order, with the hash
    of the row [latest_hashes] keeps for the user, if any. *)
Lemma final_df_rows (users_df : list UserDetail) (hashes_df : list HashRow) :
  final_df users_df hashes_df
  = map (λ u, {| mr_name := ud_name u; mr_email := ud_email u;
                 mr_tenantId := ud_tenantId u;
                 mr_hash := hr_hash <$>
                   head (filter (λ r, hr_userId r = ud_userId u)
                                (latest_hashes hashes_df)) |}) users_df.
Proof.
  unfold final_df. rewrite merge_left_at_most_one.
  - rewrite map_map. apply map_ext. by intros u.
  - intros u _. rewrite latest_hashes_of_user. destruct (last _); cbn; lia.
Qed.
End Csv.

Section CredentialMerge.
Context {St : Type} `{!Env St} `{!Pandas}.

(** C8, as the code does it.  With both files read and every
    [createdAt] a date or empty, [create_migration_csv] writes one row per
    user row, in order, with the hash of the password row selected for
    the user, and with an empty hash for a user that has no password row.
    The selected row is one of the user's rows.  When all of the user's
    rows carry a date, no row of the user is later than it; when one of
    them carries none, the selected row carries none: an empty date sorts
    last.  A dated row strictly later than all other rows of its user is
    the one selected, and it is the one kept from every reordering of the
    rows. *)
Theorem latest_hash_selected (users_path hashes_path save_path : string)
    (w : World St) (users_df : list UserDetail) (raw_df : list RawHashRow) :
  env_read_users users_path (w_env w) = Some users_df →
  env_read_hashes hashes_path (w_env w) = Some raw_df →
  Forall (λ r, ¬ is_garbage r) raw_df →
  let hashes_df := map parsed_row raw_df in
  ∃ selected : string → option HashRow,
    create_migration_csv users_path hashes_path save_path w
    = (Ok (),
       {| w_env := w_env w;
          w_trace := w_trace w ++
            [WroteCsv save_path
               (map (λ u, {| mr_name := ud_name u; mr_email := ud_email u;
                             mr_tenantId := ud_tenantId u;
                             mr_hash := hr_hash <$> selected (ud_userId u) |})
                    users_df)];
          w_log := w_log w; w_gas := w_gas w |})
    ∧ (∀ uid, (∀ r, r ∈ hashes_df → hr_userId r ≠ uid) → selected uid = None)
    ∧ (∀ uid, (∃ r, r ∈ hashes_df ∧ hr_userId r = uid) →
         ∃ sel,
           selected uid = Some sel ∧ sel ∈ hashes_df ∧ hr_userId sel = uid
           ∧ ((∀ r, r ∈ hashes_df → hr_userId r = uid →
                    is_Some (hr_createdAt r)) →
              ∃ tmax, hr_createdAt sel = Some tmax
                      ∧ ∀ r t, r ∈ hashes_df → hr_userId r = uid →
                               hr_createdAt r = Some t → t ≤ tmax)
           ∧ ((∃ r, r ∈ hashes_df ∧ hr_userId r = uid
                    ∧ hr_createdAt r = None) →
              hr_createdAt sel = None))
    ∧ (∀ top t3,
         top ∈ hashes_df → hr_createdAt top = Some t3 →
         (∀ r, r ∈ hashes_df → hr_userId r = hr_userId top → r ≠ top →
               ∃ t, hr_createdAt r = Some t ∧ t < t3) →
         selected (hr_userId top) = Some top
         ∧ ∀ reordered, reordered ≡ₚ hashes_df →
             filter (λ r, hr_userId r = hr_userId top)
                    (latest_hashes reordered) = [top]).
Proof.
  intros Husers Hhashes Hclean hashes_df.
  exists (λ uid, head (filter (λ r, hr_userId r = uid)
                              (latest_hashes hashes_df))).
  split_and!.
  - unfold create_migration_csv, try_except_when, try_except, read_csv, bind.
    rewrite Husers. cbv beta iota. rewrite Hhashes. cbn [ret fst snd].
    rewrite (to_datetime_clean _ Hclean). cbn [lift_either ret emit].
    fold hashes_df. by rewrite final_df_rows.
  - intros uid Hnone. rewrite filter_none; [done|].
    intros r Hr%group_tail1_elem_of. apply Hnone.
    by rewrite <- (sort_values_perm hashes_df).
  - intros uid (r0 & Hr0 & Huid0).
    destruct (latest_hashes_nonempty uid hashes_df r0 Hr0 Huid0)
      as [sel Hlast].
    destruct (latest_hashes_dominates uid hashes_df sel Hlast)
      as (Hsel & Huid & Hmax).
    exists sel. rewrite latest_hashes_of_user, Hlast.
    split_and!; [done|done|done| |].
    + intros Hstamped. destruct (Hstamped sel Hsel Huid) as [tmax Htmax].
      exists tmax. split; [done|]. intros r t Hr Hru Ht.
      destruct (Hmax r Hr Hru) as [->|Hle].
      * rewrite Ht in Htmax. injection Htmax as ->. lia.
      * unfold created_le in Hle. by rewrite Ht, Htmax in Hle.
    + intros (r & Hr & Hru & Hnat).
      destruct (Hmax r Hr Hru) as [->|Hle]; [done|].
      unfold created_le in Hle. rewrite Hnat in Hle.
      by destruct (hr_createdAt sel).
  - intros top t3 Htop Ht3 Hstrict.
    assert (Hany : ∀ reordered, reordered ≡ₚ hashes_df →
              filter (λ r, hr_userId r = hr_userId top)
                     (latest_hashes reordered) = [top]).
    { intros reordered Hperm.
      assert (top ∈ reordered) as Htop' by by rewrite Hperm.
      destruct (latest_hashes_nonempty (hr_userId top) reordered top Htop'
                  eq_refl) as [sel Hlast].
      destruct (latest_hashes_dominates _ reordered sel Hlast)
        as (Hsel & Huid & Hmax).
      rewrite latest_hashes_of_user, Hlast. cbn. f_equal.
      destruct (decide (sel = top)) as [|Hne]; [done|exfalso].
      destruct (Hstrict sel) as (t & Ht & Hlt);
        [by rewrite <- Hperm|done|done|].
      destruct (Hmax top Htop' eq_refl) as [Heq|Hle]; [done|].
      unfold created_le in Hle. rewrite Ht3, Ht in Hle. lia. }
    split; [|done]. by rewrite (Hany hashes_df).
Qed.
End CredentialMerge.

(** One user with three password rows out of order, one user with none. *)
Lemma latest_hash_selected_witness :
  let row t h := {| raw_userId := "u1"; raw_hash := h;
                    raw_createdAt := CreatedAt t |} in
  let user i := {| ud_userId := i; ud_name := i; ud_email := i;
                   ud_tenantId := "t1" |} in
  let files := {| sc_replies := [];
                  sc_users_csv := Some [user "u1"; user "u2"];
                  sc_hashes_csv := Some [row 2 "second"; row 3 "third";
                                         row 1 "first"] |} in
  ∃ rows,
    w_trace (create_migration_csv "users.csv" "hashes.csv" "out.csv"
               (start files 1)).2 = [WroteCsv "out.csv" rows]
    ∧ map mr_hash rows = [Some "third"; None].
Proof.
  intros row user files.
  destruct (latest_hash_selected "users.csv" "hashes.csv" "out.csv"
              (start files 1) [user "u1"; user "u2"]
              [row 2 "second"; row 3 "third"; row 1 "first"])
    as (selected & Hrun & Hnone & _ & Hstrict).
  - reflexivity.
  - reflexivity.
  - repeat constructor; by intros [].
  - assert (Hthird : selected "u1" = Some (parsed_row (row 3 "third"))).
    { destruct (Hstrict (parsed_row (row 3 "third")) 3) as [Hsel _];
        [right; left|reflexivity| |exact Hsel].
      intros r Hr _ Hne.
      repeat (apply elem_of_cons in Hr as [->|Hr]).
      - exists 2. split; [reflexivity|lia].
      - done.
      - exists 1. split; [reflexivity|lia].
      - by apply not_elem_of_nil in Hr. }
    assert (Hnone2 : selected "u2" = None).
    { apply Hnone. intros r Hr.
      repeat (apply elem_of_cons in Hr as [->|Hr]); try done.
      by apply not_elem_of_nil in Hr. }
    eexists. rewrite Hrun. split; [reflexivity|].
    cbn [map mr_hash ud_userId user]. by rewrite Hthird, Hnone2.
Defined.

(** C8 as stated fails: the user has a row dated 9, a row dated 3 and a
    row with no date; the hash written is that of the row with no date,
    not that of the row with the greatest date. *)
Lemma undated_hash_written :
  let row c h := {| raw_userId := "u1"; raw_hash := h; raw_createdAt := c |} in
  let files :=
    {| sc_replies := [];
       sc_users_csv := Some [{| ud_userId := "u1"; ud_name := "Ann";
                                ud_email := "ann@x.com";
                                ud_tenantId := "t1" |}];
       sc_hashes_csv := Some [row (CreatedAt 9) "newest";
                              row CreatedEmpty "undated";
                              row (CreatedAt 3) "older"] |} in
  create_migration_csv "users.csv" "hashes.csv" "out.csv" (start files 1)
  = (Ok (),
     {| w_env := files;
        w_trace := [WroteCsv "out.csv"
                      [{| mr_name := "Ann"; mr_email := "ann@x.com";
                          mr_tenantId := "t1";
                          mr_hash := Some "undated" |}]];
        w_log := []; w_gas := 1 |}).
Proof. vm_compute. reflexivity. Qed.

(** ** The user merge *)

Lemma merge_left_elem_of {L R K : Type} `{EqDecision K}
    (lkey : L → K) (rkey : R → K) (left : list L) (right : list R) l o :
  (l, o) ∈ merge_left lkey rkey left right →
  l ∈ left ∧ match o with
             | None => filter (λ r, rkey r = lkey l) right = []
             | Some r => r ∈ right ∧ rkey r = lkey l
             end.
Proof.
  induction left as [|x rest IH]; [by intros ?%not_elem_of_nil|].
  rewrite merge_left_cons. intros [Hhere|Hrest]%elem_of_app.
  - destruct (filter (λ r, rkey r = lkey x) right) as [|m ms] eqn:Hf.
    + apply list_elem_of_singleton in Hhere as [= -> ->]. split; [left|done].
    + apply list_elem_of_fmap in Hhere as (r & [= -> ->] & Hr).
      split; [left|]. rewrite <- Hf in Hr.
      apply list_elem_of_filter in Hr as [? ?]. done.
  - destruct (IH Hrest) as [? ?]. split; [by right|done].
Qed.

Section UserMerge.
Context `{!Lower}.

Lemma filter_lowered (u : User) (destination_users : list User) :
  filter (λ r, user_key r = user_key (lower_email u))
         (map lower_email destination_users)
  = map lower_email (matching_users u destination_users).
Proof.
  unfold matching_users.
  induction destination_users as [|v rest IH]; [done|]. cbn [map].
  destruct (decide (str_lower (user_email v) = str_lower (user_email u)
                    ∧ user_tenantId v = user_tenantId u)) as [[He Ht]|Hno].
  - rewrite !filter_cons_True; [|done|unfold user_key; cbn; congruence].
    cbn [map]. by rewrite IH.
  - rewrite !filter_cons_False; [done|done|].
    unfold user_key. cbn. intros [= ? ?]. by apply Hno.
Qed.

(** C4, as the merge does it.  The merge is reached when both accounts
    have users (a frame made of no user has no [email] column, and the
    stage stops before).  Then the source users come out in their order,
    each once per destination user with the same lower-cased email and the
    same tenant, and once when there is none, so exactly once each when no
    source user has two such destination users; a row carries a
    destination id exactly when such a destination user exists, and the
    id is that of one of them.  Lower-casing is Python's, whatever it does
    beyond ASCII. *)
Theorem merge_users_left_join (source_users destination_users : list User) :
  source_users ≠ [] → destination_users ≠ [] →
  map mu_id_source (merge_users source_users destination_users)
  = flat_map (λ u, replicate
                     (Nat.max 1 (length (matching_users u destination_users)))
                     (user_id u)) source_users
  ∧ ((∀ u, u ∈ source_users →
           (length (matching_users u destination_users) ≤ 1)%nat) →
     map mu_id_source (merge_users source_users destination_users)
     = map user_id source_users)
  ∧ (∀ row, row ∈ merge_users source_users destination_users →
       ∃ u, u ∈ source_users
            ∧ mu_id_source row = user_id u
            ∧ mu_email row = str_lower (user_email u)
            ∧ mu_tenantId row = user_tenantId u
            ∧ (is_Some (mu_id_dest row) ↔
               ∃ v, v ∈ destination_users
                    ∧ str_lower (user_email v) = str_lower (user_email u)
                    ∧ user_tenantId v = user_tenantId u)
            ∧ (∀ d, mu_id_dest row = Some d →
                 ∃ v, v ∈ matching_users u destination_users ∧ user_id v = d)).
Proof.
  intros _ _.
  assert (Hrows : map mu_id_source (merge_users source_users destination_users)
    = flat_map (λ u, replicate
                       (Nat.max 1 (length (matching_users u destination_users)))
                       (user_id u)) source_users).
  { unfold merge_users.
    induction source_users as [|u rest IH]; [done|].
    cbn [map flat_map]. rewrite merge_left_cons, !map_app, IH. f_equal.
    rewrite filter_lowered.
    destruct (matching_users u destination_users) as [|v vs]; [done|].
    cbn [length Nat.max map replicate]. f_equal.
    rewrite !map_map. clear. induction vs as [|v' vs IH]; [done|].
    cbn [map length replicate]. by rewrite IH. }
  split_and!; [done| |].
  - intros Hone. rewrite Hrows. clear Hrows.
    induction source_users as [|u rest IH]; [done|]. cbn [flat_map map].
    rewrite IH by (intros u' Hu'; apply Hone; by right).
    specialize (Hone u (ltac:(left))).
    destruct (matching_users u destination_users) as [|v [|v' vs]];
      [done|done|cbn in Hone; lia].
  - intros row Hrow. unfold merge_users in Hrow.
    apply list_elem_of_fmap in Hrow as ([lu o] & -> & Hin).
    apply merge_left_elem_of in Hin as [Hlu Ho].
    apply list_elem_of_fmap in Hlu as (u & -> & Hu).
    exists u. split_and!; try done.
    + destruct o as [lv|]; cbn.
      * destruct Ho as [Hlv Hkey].
        apply list_elem_of_fmap in Hlv as (v & -> & Hv).
        unfold user_key in Hkey. cbn in Hkey.
        split; [intros _; exists v; split_and!; congruence|by eauto].
      * split; [by intros [? ?]|]. intros (v & Hv & He & Ht). exfalso.
        rewrite filter_lowered in Ho. apply fmap_nil_inv in Ho.
        apply (filter_nil_not_elem_of _ _ v Ho); done.
    + intros d Hd. destruct o as [lv|]; [|done]. cbn in Hd.
      destruct Ho as [Hlv Hkey].
      assert (lv ∈ filter (λ r, user_key r = user_key (lower_email u))
                          (map lower_email destination_users)) as Hf
        by by apply list_elem_of_filter.
      rewrite filter_lowered in Hf.
      apply list_elem_of_fmap in Hf as (v & -> & Hv).
      exists v. split; [done|]. cbn in Hd. congruence.
Qed.
End UserMerge.

(** A source user met by two destination users. *)
Lemma merge_users_left_join_witness :
  let ann := {| user_id := "s1"; user_email := "Ann@x.com";
                user_tenantId := "t1" |} in
  let bob := {| user_id := "s2"; user_email := "bob@x.com";
                user_tenantId := "t1" |} in
  let d1 := {| user_id := "d1"; user_email := "ann@x.com";
               user_tenantId := "t1" |} in
  map mu_id_source (merge_users [ann; bob] [d1]) = ["s1"; "s2"]
  ∧ map mu_id_dest (merge_users [ann; bob] [d1]) = [Some "d1"; None].
Proof.
  intros ann bob d1.
  destruct (merge_users_left_join [ann; bob] [d1]) as (_ & Honce & _);
    [discriminate|discriminate|].
  split; [|by vm_compute].
  rewrite Honce; [done|].
  intros u Hu. repeat (apply elem_of_cons in Hu as [->|Hu]).
  - vm_compute. lia.
  - vm_compute. lia.
  - by apply not_elem_of_nil in Hu.
Defined.

(** C4 as stated fails: two destination users that differ by the case of
    their email only are both joined to the one source user, who then
    appears twice. *)
Lemma source_user_joined_twice :
  let ann := {| user_id := "s1"; user_email := "ann@x.com";
                user_tenantId := "t1" |} in
  let d1 := {| user_id := "d1"; user_email := "Ann@x.com";
               user_tenantId := "t1" |} in
  let d2 := {| user_id := "d2"; user_email := "ann@x.com";
               user_tenantId := "t1" |} in
  merge_users [ann] [d1; d2]
  = [{| mu_email := "ann@x.com"; mu_tenantId := "t1"; mu_id_source := "s1";
        mu_id_dest := Some "d1" |};
     {| mu_email := "ann@x.com"; mu_tenantId := "t1"; mu_id_source := "s1";
        mu_id_dest := Some "d2" |}]
  ∧ length (filter (λ row, mu_id_source row = "s1")
                   (merge_users [ann] [d1; d2])) ≠ 1%nat.
Proof. vm_compute. split; [done|lia]. Qed.

(** ** Permissions and their categories *)




Section Settings.
Context {St : Type} `{!Env St}.



(** [create_permissions] posts once, the permissions that have a
    category. *)
Lemma create_permissions_posts client permissions (w : World St) token s :
  w_gas w ≠ 0%nat →
  env_get_headers (account client) (w_env w) = (inr token, s) →
  ∃ res w',
    create_permissions client permissions w = (Ok res, w')
    ∧ w_trace w' = w_trace w ++
        [Sent {| req_account := account client; req_method := "POST";
                 req_url := base_url client
                            +:+ "/identity/resources/permissions/v1";
                 req_headers := [("Authorization", "Bearer " +:+ token)];
                 req_params := None;
                 req_json :=
                   Some (PermissionsBody (permissions_data permissions)) |}].
Proof.
  intros Hgas Hhead. unfold create_permissions, bind at 1, get_headers.
  rewrite Hhead. unfold try_except, bind at 1.
  rewrite make_request_outcome by done. unfold request_outcome. cbn [w_env set_env].
  destruct (env_request _ s) as [[r|] s']; [|by eexists _, _].
  case_bool_decide; [destruct (int_retry_after _); by eexists _, _|].
  case_bool_decide; [by eexists _, _|].
  unfold bind, lift_either. destruct (response_json r); by eexists _, _.
Qed.


End Settings.



(** ** The orchestrator *)

Section Orchestrator.
Context {St : Type} `{!Env St} `{!Pandas} `{!Lower}.

(** The stages run in the order tenants, CSV, settings, users; a stage
    that raises or does not end stops the run where it is. *)
Lemma migrate_stages_in_order source_client destination_client (w : World St) :
  migrate source_client destination_client w
  = match migrate_tenants source_client destination_client w with
    | (Ok _, w1) =>
        match create_migration_csv "account_data/user_details_prod.csv"
                "account_data/user_passwords_prod.csv"
                "account_data/migration_data.csv" w1 with
        | (Ok _, w2) =>
            match migrate_settings source_client destination_client w2 with
            | (Ok _, w3) => migrate_users source_client destination_client w3
            | (Raise e, w3) => (Raise e, w3)
            | (Diverge, w3) => (Diverge, w3)
            end
        | (Raise e, w2) => (Raise e, w2)
        | (Diverge, w2) => (Diverge, w2)
        end
    | (Raise e, w1) => (Raise e, w1)
    | (Diverge, w1) => (Diverge, w1)
    end.
Proof.
  unfold migrate, bind.
  destruct (migrate_tenants _ _ w) as [[[]| |] w1]; [|done|done].
  destruct (create_migration_csv _ _ _ w1) as [[[]| |] w2]; [|done|done].
  by destruct (migrate_settings _ _ w2) as [[[]| |] w3].
Qed.

End Orchestrator.

(** Failed creations are logged and the run goes on to its end. *)
Example failed_creations_do_not_abort :
  let down :=
    example_cloud
      ["https://api.us.frontegg.com/tenants/resources/tenants/v1";
       "https://api.us.frontegg.com/identity/resources/permissions/v1/categories"] in
  let run := migrate FRONTEGG_ACCOUNT_1 FRONTEGG_ACCOUNT_2 (start down 10) in
  run.1 = Ok ()
  ∧ Failed "Error creating tenant t1" (HTTPError 500) ∈ w_log run.2
  ∧ Failed "Error creating category Billing" (HTTPError 500) ∈ w_log run.2.
Proof. vm_compute. split_and!; [done|set_solver|set_solver]. Qed.

(** C9: the source account answers the fetch of the role assignments of
    the only tenant with a 500.  The failure is caught and logged, the
    frame of role assignments is then empty and has no [roleIds] column:
    the user stage stops on [KeyError] before any assignment is sent. *)
Theorem failed_role_fetch_aborts_user_stage :
  let down :=
    example_cloud
      ["https://api.frontegg.com/identity/resources/users/v3/roles"] in
  let run := migrate FRONTEGG_ACCOUNT_1 FRONTEGG_ACCOUNT_2 (start down 10) in
  run.1 = Raise (KeyError "roleIds")
  ∧ w_log run.2
    = [Info "Category ID for permission orphan not found. Skipping.";
       Failed "Request error" (HTTPError 500);
       Failed "Error fetching roles for tenant t1" (HTTPError 500);
       Info "Role key 'viewer' not found in destination account."]
  ∧ map fst (posts (w_trace run.2))
    = ["https://api.us.frontegg.com/tenants/resources/tenants/v1";
       "https://api.us.frontegg.com/tenants/resources/tenants/v1/t1/metadata";
       "https://api.us.frontegg.com/identity/resources/permissions/v1/categories";
       "https://api.us.frontegg.com/identity/resources/permissions/v1"].
Proof. vm_compute. done. Qed.

(** * Token and expiry *)

Section AuthProps.
Context {St : Type} `{!AuthEnv St}.

Lemma str_truthy_ne (token : string) : token ≠ "" → str_truthy token = true.
Proof. by destruct token. Qed.

Lemma str_truthy_true (token : string) : str_truthy token = true → token ≠ "".
Proof. by destruct token. Qed.

Lemma expiry_from_representable (now expires_in : Z) :
  expiry_representable now expires_in →
  expiry_from now expires_in = inr (now + (expires_in - 60) * 1000000).
Proof.
  intros [Hdelta Hsum]. unfold expiry_from, timedelta_seconds, datetime_add.
  rewrite bool_decide_eq_true_2 by done. by rewrite bool_decide_eq_true_2.
Qed.

Lemma expiry_from_overflow (now expires_in : Z) :
  ¬ expiry_representable now expires_in →
  expiry_from now expires_in = inl OverflowError.
Proof.
  intros Hno. unfold expiry_from, timedelta_seconds, datetime_add.
  case_bool_decide as Hdelta; [|done]. case_bool_decide as Hsum; [|done].
  by destruct Hno.
Qed.

Lemma expiry_from_error (now expires_in : Z) (e : exn) :
  expiry_from now expires_in = inl e → e = OverflowError.
Proof.
  unfold expiry_from, timedelta_seconds, datetime_add.
  repeat case_bool_decide; congruence.
Qed.

(** The failures before the token is stored. *)
Lemma token_of_reply_error (reply : AuthReply) (e : exn) :
  token_of_reply reply = inl e → e ≠ OverflowError.
Proof.
  unfold token_of_reply. destruct reply as [response|]; [|congruence].
  case_bool_decide; [congruence|].
  destruct (auth_json response) as [fields|raw]; cbn; [|congruence].
  destruct (opt_truthy _); congruence.
Qed.

Lemma token_of_reply_token (reply : AuthReply) token expires_in :
  token_of_reply reply = inr (token, expires_in) →
  ∃ text, token = Some text ∧ text ≠ "".
Proof.
  unfold token_of_reply. destruct reply as [response|]; [|done].
  case_bool_decide; [done|].
  destruct (json_loads (auth_json response)) as [e|fields]; [done|].
  cbn zeta. destruct (accessToken fields) as [text|]; [|done].
  cbn [opt_truthy]. destruct (str_truthy text) eqn:Htext; [|done].
  intros [= <- _]. exists text. split; [done|]. by apply str_truthy_true.
Qed.

(** What [authenticate] does with an accepted answer that carries a
    token, by whether the expiry is a date. *)
Lemma authenticate_accepted (self : AccountSession) (s s1 s2 : St)
    (response : AuthResponse) (fields : AuthBody) (token : string) (now : Z) :
  env_post_credentials (auth_endpoint self) (as_client_id self)
    (as_secret self) s = (AuthReplied response, s1) →
  ¬ (400 ≤ auth_status response < 600) →
  auth_json response = JsonOf fields →
  accessToken fields = Some token → token ≠ "" →
  env_utcnow s1 = (now, s2) →
  authenticate self s
  = match expiry_from now (default 3600 (expiresIn fields)) with
    | inr expiry =>
        {| run_result := inr ();
           run_self := set_token_expiry (set_token self (Some token)) expiry;
           run_env := s2;
           run_events :=
             [PostedCredentials (auth_endpoint self) (as_client_id self)
                (as_secret self)] |}
    | inl e =>
        {| run_result := inl e; run_self := set_token self (Some token);
           run_env := s2;
           run_events :=
             PostedCredentials (auth_endpoint self) (as_client_id self)
               (as_secret self) :: authenticate_handlers e |}
    end.
Proof.
  intros Hpost Hok Hjson Htoken Hne Hnow. unfold authenticate. cbn zeta.
  rewrite Hpost. unfold token_of_reply.
  rewrite bool_decide_eq_false_2 by done. rewrite Hjson. cbn [json_loads].
  cbn zeta. rewrite Htoken. cbn [opt_truthy]. rewrite (str_truthy_ne _ Hne).
  by rewrite Hnow.
Qed.

(** Whatever [authenticate] returns, the instance has its old expiry or
    a token; after a success it has a token. *)
Lemma authenticate_token (self : AccountSession) (s : St) :
  run_result (authenticate self s) = inr () →
  ∃ token, as_token (run_self (authenticate self s)) = Some token
           ∧ token ≠ "".
Proof.
  unfold authenticate. cbn zeta.
  destruct (env_post_credentials _ _ _ s) as [reply s1].
  destruct (token_of_reply reply) as [e|[token expires_in]] eqn:Hreply;
    [done|].
  destruct (env_utcnow s1) as [now s2].
  destruct (expiry_from now expires_in) as [e|expiry]; [done|]. intros _.
  by apply token_of_reply_token in Hreply.
Qed.

(** A failed [authenticate]: before the token is stored the instance is
    left as it was; after, only [OverflowError] is left to fail, with the
    new token stored, the old expiry kept and nothing logged. *)
Lemma authenticate_failed (self : AccountSession) (s : St) (e : exn) :
  run_result (authenticate self s) = inl e →
  (e ≠ OverflowError ∧ run_self (authenticate self s) = self)
  ∨ (e = OverflowError
     ∧ ∃ token, token ≠ ""
         ∧ run_self (authenticate self s) = set_token self (Some token)
         ∧ run_events (authenticate self s)
           = [PostedCredentials (auth_endpoint self) (as_client_id self)
                (as_secret self)]).
Proof.
  unfold authenticate. cbn zeta.
  destruct (env_post_credentials _ _ _ s) as [reply s1].
  destruct (token_of_reply reply) as [e'|[token expires_in]] eqn:Hreply.
  - intros [= <-]. left. split; [|done]. by eapply token_of_reply_error.
  - destruct (env_utcnow s1) as [now s2].
    destruct (expiry_from now expires_in) as [e'|expiry] eqn:Hexpiry; [|done].
    intros [= <-]. right. apply expiry_from_error in Hexpiry as ->.
    apply token_of_reply_token in Hreply as (text & -> & Htext).
    split; [done|]. by exists text.
Qed.

(** [authenticate] posts the credentials exactly once. *)
Lemma authenticate_posts_once (self : AccountSession) (s : St) :
  posted_credentials (run_events (authenticate self s))
  = [(auth_endpoint self, as_client_id self, as_secret self)].
Proof.
  assert (Hnone : ∀ e, posted_credentials (authenticate_handlers e) = []).
  { intros e. unfold authenticate_handlers.
    destruct (is_RequestException e || is_JSONDecodeError e)%bool; [done|].
    by destruct e. }
  unfold authenticate. cbn zeta.
  destruct (env_post_credentials _ _ _ s) as [reply s1].
  destruct (token_of_reply reply) as [e|[token expires_in]].
  - cbn [run_events]. unfold posted_credentials in *. cbn [omap list_omap].
    by rewrite (Hnone e).
  - destruct (env_utcnow s1) as [now s2].
    destruct (expiry_from now expires_in) as [e|expiry]; [|done].
    cbn [run_events]. unfold posted_credentials in *. cbn [omap list_omap].
    by rewrite (Hnone e).
Qed.

(** X1: a sign-in whose answer is accepted and carries a non-empty token
    stores that token; when the instant of the answer plus the announced
    lifetime less sixty seconds (an hour less sixty seconds when no
    lifetime is announced) is a date Python can hold, that instant becomes
    the expiry and the sign-in succeeds; base URL, client id and secret
    stay. *)
Theorem authenticate_sets_token_and_expiry (self : AccountSession)
    (s s1 s2 : St) (response : AuthResponse) (fields : AuthBody)
    (token : string) (now : Z) :
  env_post_credentials (auth_endpoint self) (as_client_id self)
    (as_secret self) s = (AuthReplied response, s1) →
  ¬ (400 ≤ auth_status response < 600) →
  auth_json response = JsonOf fields →
  accessToken fields = Some token → token ≠ "" →
  env_utcnow s1 = (now, s2) →
  let lifetime := default 3600 (expiresIn fields) in
  expiry_representable now lifetime →
  let r := authenticate self s in
  run_result r = inr ()
  ∧ as_token (run_self r) = Some token
  ∧ as_token_expiry (run_self r) = now + (lifetime - 60) * 1000000
  ∧ as_base_url (run_self r) = as_base_url self
  ∧ as_client_id (run_self r) = as_client_id self
  ∧ as_secret (run_self r) = as_secret self
  ∧ run_env r = s2.
Proof.
  intros Hpost Hok Hjson Htoken Hne Hnow lifetime Hdate. cbn zeta.
  rewrite (authenticate_accepted _ _ _ _ _ _ _ _ Hpost Hok Hjson Htoken Hne
             Hnow).
  fold lifetime. by rewrite (expiry_from_representable _ _ Hdate).
Qed.


(** X3: before the expiry, [get_headers] sends nothing, changes nothing
    and answers with the stored token. *)
Theorem get_headers_reuses_live_token (self : AccountSession) (s s1 : St)
    (token : string) (now : Z) :
  as_token self = Some token → token ≠ "" →
  env_utcnow s = (now, s1) → now < as_token_expiry self →
  client_get_headers self s
  = {| run_result := inr [("Authorization", "Bearer " +:+ token)];
       run_self := self; run_env := s1; run_events := [] |}.
Proof.
  intros Htoken Hne Hnow Hlive. unfold client_get_headers. rewrite Htoken.
  cbn [opt_truthy]. rewrite (str_truthy_ne _ Hne).
  rewrite Hnow. rewrite bool_decide_eq_false_2 by lia.
  unfold bearer. by rewrite Htoken.
Qed.

(** X4: from the instant of expiry on, [get_headers] signs in again,
    once, and is left as the sign-in leaves it.  If the sign-in fails the
    exception reaches the caller and the expiry stays; the token stays
    too, unless the failure is the [OverflowError] of an expiry that is no
    date, where the new token is already stored.  If it succeeds the
    header carries the new token. *)
Theorem get_headers_refreshes_stale_token (self : AccountSession) (s s1 : St)
    (token : string) (now : Z) :
  as_token self = Some token → token ≠ "" →
  env_utcnow s = (now, s1) → as_token_expiry self ≤ now →
  let r := client_get_headers self s in
  posted_credentials (run_events r)
  = [(auth_endpoint self, as_client_id self, as_secret self)]
  ∧ run_self r = run_self (authenticate self s1)
  ∧ match run_result (authenticate self s1) with
    | inl e =>
        run_result r = inl e
        ∧ as_token_expiry (run_self r) = as_token_expiry self
        ∧ (e ≠ OverflowError → run_self r = self)
        ∧ (e = OverflowError →
           ∃ fresh, fresh ≠ "" ∧ run_self r = set_token self (Some fresh))
    | inr _ => ∃ fresh, as_token (run_self r) = Some fresh ∧ fresh ≠ ""
                 ∧ run_result r = inr [("Authorization", "Bearer " +:+ fresh)]
    end.
Proof.
  intros Htoken Hne Hnow Hstale. cbn zeta. unfold client_get_headers.
  rewrite Htoken. cbn [opt_truthy]. rewrite (str_truthy_ne _ Hne), Hnow.
  rewrite bool_decide_eq_true_2 by done. unfold after_authenticate.
  cbn [run_events run_self run_result]. split_and!.
  - apply authenticate_posts_once.
  - done.
  - destruct (run_result (authenticate self s1)) as [e|[]] eqn:Hres.
    + destruct (authenticate_failed self s1 e Hres)
        as [[Hother ->]|(-> & fresh & Hfresh & -> & _)].
      * split_and!; [done|done|done|done].
      * split_and!; [done|done|done|]. intros _. by exists fresh.
    + destruct (authenticate_token _ _ Hres) as (fresh & Hfresh & Hne').
      exists fresh. split_and!; [done|done|]. unfold bearer.
      by rewrite Hfresh.
Qed.

(** X5: a token announced to live sixty seconds or less is stale the
    moment it is stored: the next [get_headers], at any later reading of
    the clock, posts the credentials again.  This holds when the expiry is
    a date, and also when it is none, provided the sign-in was due (the
    old expiry had passed), as it is when [__init__] or [get_headers]
    calls it. *)
Theorem short_lived_token_is_never_reused (self : AccountSession)
    (s s1 s2 : St) (response : AuthResponse) (fields : AuthBody)
    (token : string) (now expires_in : Z) :
  env_post_credentials (auth_endpoint self) (as_client_id self)
    (as_secret self) s = (AuthReplied response, s1) →
  ¬ (400 ≤ auth_status response < 600) →
  auth_json response = JsonOf fields →
  accessToken fields = Some token → token ≠ "" →
  expiresIn fields = Some expires_in → expires_in ≤ 60 →
  env_utcnow s1 = (now, s2) →
  expiry_representable now expires_in ∨ as_token_expiry self ≤ now →
  ∀ s' s'' later, env_utcnow s' = (later, s'') → now ≤ later →
    posted_credentials
      (run_events (client_get_headers (run_self (authenticate self s)) s'))
    = [(auth_endpoint self, as_client_id self, as_secret self)].
Proof.
  intros Hpost Hok Hjson Htoken Hne Hexp Hshort Hnow Hdue s' s'' later Hlater
    Hle.
  rewrite (authenticate_accepted _ _ _ _ _ _ _ _ Hpost Hok Hjson Htoken Hne
             Hnow).
  rewrite Hexp. cbn [default from_option id].
  assert (Hposts : ∀ stored,
            as_token stored = Some token → as_token_expiry stored ≤ later →
            as_base_url stored = as_base_url self →
            as_client_id stored = as_client_id self →
            as_secret stored = as_secret self →
            posted_credentials (run_events (client_get_headers stored s'))
            = [(auth_endpoint self, as_client_id self, as_secret self)]).
  { intros stored Hstored Hstale Hurl Hid Hsecret. unfold client_get_headers.
    rewrite Hstored. cbn [opt_truthy]. rewrite (str_truthy_ne _ Hne), Hlater.
    rewrite bool_decide_eq_true_2 by done. unfold after_authenticate.
    cbn [run_events]. rewrite authenticate_posts_once. unfold auth_endpoint.
    by rewrite Hurl, Hid, Hsecret. }
  destruct (decide (expiry_representable now expires_in)) as [Hdate|Hnodate].
  - rewrite (expiry_from_representable _ _ Hdate). cbn [run_self].
    apply Hposts; try done. cbn. lia.
  - rewrite (expiry_from_overflow _ _ Hnodate). cbn [run_self].
    destruct Hdue as [?|Hdue]; [done|]. apply Hposts; try done. cbn. lia.
Qed.

(** X6: an instance built by [__init__] holds a non-empty token for the
    rest of its life, whatever later calls of [get_headers] return: the
    test [not self.token] never succeeds on it and no header is
    [Bearer None]. *)
Theorem constructed_client_has_token (self : AccountSession) :
  constructed self →
  ∃ token, as_token self = Some token ∧ token ≠ ""
           ∧ ∀ s headers,
               run_result (client_get_headers self s) = inr headers →
               ∃ sent_token,
                 sent_token ≠ ""
                 ∧ headers = [("Authorization", "Bearer " +:+ sent_token)].
Proof.
  assert (Hkeeps : ∀ self0 s token,
            as_token self0 = Some token → token ≠ "" →
            ∃ token', as_token (run_self (client_get_headers self0 s))
                      = Some token' ∧ token' ≠ "").
  { intros self0 s token Htoken Hne. unfold client_get_headers.
    rewrite Htoken. cbn [opt_truthy]. rewrite (str_truthy_ne _ Hne).
    destruct (env_utcnow s) as [now s1]. case_bool_decide; [|by eauto].
    unfold after_authenticate. cbn [run_self].
    destruct (run_result (authenticate self0 s1)) as [e|[]] eqn:Hres.
    - destruct (authenticate_failed self0 s1 e Hres)
        as [[_ ->]|(_ & fresh & Hfresh & -> & _)]; [by eauto|].
      by exists fresh.
    - by apply authenticate_token. }
  assert (Hhas : constructed self →
            ∃ token, as_token self = Some token ∧ token ≠ "").
  { induction 1 as [base_url client_id secret s Hres|self s _ IH].
    - unfold client_init in *. destruct (env_utcnow s) as [now s1].
      cbn [run_result run_self] in *. by apply authenticate_token.
    - destruct IH as (token & Htoken & Hne). by eapply Hkeeps. }
  intros Hc. destruct (Hhas Hc) as (token & Htoken & Hne).
  exists token. split_and!; [done|done|]. intros s headers.
  unfold client_get_headers. rewrite Htoken. cbn [opt_truthy].
  rewrite (str_truthy_ne _ Hne). destruct (env_utcnow s) as [now s1].
  case_bool_decide.
  - unfold after_authenticate. cbn [run_result].
    destruct (run_result (authenticate self s1)) as [e|[]] eqn:Hres; [done|].
    intros [= <-]. destruct (authenticate_token _ _ Hres) as (t & Ht & Hnet).
    exists t. split; [done|]. unfold bearer. by rewrite Ht.
  - cbn. intros [= <-]. exists token. split; [done|]. unfold bearer.
    by rewrite Htoken.
Qed.

End AuthProps.

Lemma authenticate_sets_token_and_expiry_witness :
  let s := {| au_replies := [token_reply "fresh" None]; au_clock := 100 |} in
  let r := authenticate example_session s in
  run_result r = inr ()
  ∧ as_token (run_self r) = Some "fresh"
  ∧ as_token_expiry (run_self r) = 3540000100.
Proof.
  cbn zeta.
  pose proof (@authenticate_sets_token_and_expiry AuthScript auth_script_env
    example_session
    {| au_replies := [token_reply "fresh" None]; au_clock := 100 |}
    {| au_replies := []; au_clock := 100 |}
    {| au_replies := []; au_clock := 101 |}
    {| auth_status := 200;
       auth_json := JsonOf {| accessToken := Some "fresh";
                              expiresIn := None |} |}
    {| accessToken := Some "fresh"; expiresIn := None |} "fresh" 100
    eq_refl ltac:(cbn; lia) eq_refl eq_refl ltac:(discriminate) eq_refl
    ltac:(by vm_compute))
    as (H1 & H2 & H3 & _).
  split_and!; [exact H1|exact H2|exact H3].
Defined.

Lemma get_headers_reuses_live_token_witness :
  client_get_headers example_session {| au_replies := []; au_clock := 49 |}
  = {| run_result := inr [("Authorization", "Bearer old")];
       run_self := example_session;
       run_env := {| au_replies := []; au_clock := 50 |};
       run_events := [] |}.
Proof.
  apply (@get_headers_reuses_live_token AuthScript auth_script_env example_session
           {| au_replies := []; au_clock := 49 |}
           {| au_replies := []; au_clock := 50 |} "old" 49);
    [reflexivity|discriminate|reflexivity|cbn; lia].
Defined.

(** A lifetime too long for a date: the caller of [get_headers] gets
    [OverflowError], and the instance the new token with the old expiry. *)
Lemma get_headers_refreshes_stale_token_witness :
  let r := client_get_headers example_session
             {| au_replies := [token_reply "fresh" (Some (10 ^ 30))];
                au_clock := 50 |} in
  posted_credentials (run_events r)
  = [("https://api.frontegg.com/frontegg/identity/resources/auth/v1/vendor",
      "id", "key")]
  ∧ run_result r = inl OverflowError
  ∧ as_token (run_self r) = Some "fresh"
  ∧ as_token_expiry (run_self r) = 50.
Proof.
  cbn zeta.
  pose proof (@get_headers_refreshes_stale_token AuthScript auth_script_env
    example_session
    {| au_replies := [token_reply "fresh" (Some (10 ^ 30))]; au_clock := 50 |}
    {| au_replies := [token_reply "fresh" (Some (10 ^ 30))]; au_clock := 51 |}
    "old" 50 eq_refl ltac:(discriminate) eq_refl ltac:(cbn; lia))
    as (H1 & _ & _).
  split_and!; [exact H1|reflexivity|reflexivity|reflexivity].
Defined.

Lemma short_lived_token_is_never_reused_witness :
  posted_credentials
    (run_events
       (client_get_headers
          (run_self (authenticate example_session
                       {| au_replies := [token_reply "brief" (Some 60)];
                          au_clock := 100 |}))
          {| au_replies := []; au_clock := 101 |}))
  = [("https://api.frontegg.com/frontegg/identity/resources/auth/v1/vendor",
      "id", "key")].
Proof.
  apply (@short_lived_token_is_never_reused AuthScript auth_script_env example_session
    {| au_replies := [token_reply "brief" (Some 60)]; au_clock := 100 |}
    {| au_replies := []; au_clock := 100 |}
    {| au_replies := []; au_clock := 101 |}
    {| auth_status := 200;
       auth_json := JsonOf {| accessToken := Some "brief";
                              expiresIn := Some 60 |} |}
    {| accessToken := Some "brief"; expiresIn := Some 60 |} "brief" 100 60
    eq_refl ltac:(cbn; lia) eq_refl eq_refl ltac:(discriminate) eq_refl
    ltac:(lia) eq_refl ltac:(right; cbn; lia)
    {| au_replies := []; au_clock := 101 |}
    {| au_replies := []; au_clock := 102 |} 101 eq_refl ltac:(lia)).
Defined.

Lemma constructed_client_has_token_witness :
  ∃ token,
    as_token (run_self (client_init "https://api.frontegg.com" "id" "key"
                          {| au_replies := [token_reply "fresh" None];
                             au_clock := 0 |})) = Some token
    ∧ token ≠ "".
Proof.
  destruct (@constructed_client_has_token AuthScript auth_script_env
              (run_self (client_init "https://api.frontegg.com" "id" "key"
                           {| au_replies := [token_reply "fresh" None];
                              au_clock := 0 |}))
              (@constructed_init AuthScript auth_script_env "https://api.frontegg.com" "id" "key"
                 {| au_replies := [token_reply "fresh" None]; au_clock := 0 |}
                 eq_refl)) as (token & Htoken & Hne & _).
  exists token. split; [exact Htoken|exact Hne].
Defined.

(** * Requests that fail *)

Section Failures.
Context {St : Type} `{!Env St}.

Lemma bind_ret {A B} (a : A) (k : A → M St B) (w : World St) :
  bind (ret a) k w = k a w.
Proof. reflexivity. Qed.

(** A refused or lost request is logged and raised. *)
Lemma request_outcome_remote_failure req (w : World St) reply s :
  env_request req (w_env w) = (reply, s) → remote_failure reply →
  request_outcome req w
  = (Raise (failure_of reply),
     logged (sent w req s) [Failed "Request error" (failure_of reply)]).
Proof.
  intros Hreq Hbad. unfold request_outcome. rewrite Hreq.
  destruct reply as [r|]; [|done]. destruct Hbad as [Hrange Hne].
  rewrite bool_decide_eq_false_2 by done. by rewrite bool_decide_eq_true_2.
Qed.

Lemma get_headers_fail client (w : World St) e s :
  env_get_headers (account client) (w_env w) = (inl e, s) →
  get_headers client w = (Raise e, set_env w s).
Proof. intros Hhead. unfold get_headers. by rewrite Hhead. Qed.

(** X7: what one request gives, by the answer: a lost connection is
    logged and raised as [ConnectionError]; a status outside 400..599 is
    returned and no error is logged; a status inside 400..599 other than 429
    is logged and raised as [HTTPError].  One request is sent in each
    case. *)
Theorem request_result_by_status method url client headers params json
    (w : World St) reply s :
  w_gas w ≠ 0%nat →
  let req := {| req_account := account client; req_method := method;
                req_url := url; req_headers := headers;
                req_params := params; req_json := json |} in
  env_request req (w_env w) = (reply, s) →
  match reply with
  | Unreachable =>
      make_request_with_rate_limiting method url client headers params json w
      = (Raise ConnectionError,
         logged (sent w req s) [Failed "Request error" ConnectionError])
  | Replied r =>
      (¬ (400 ≤ status_code r < 600) →
       make_request_with_rate_limiting method url client headers params json w
       = (Ok r, sent w req s))
      ∧ (400 ≤ status_code r < 600 → status_code r ≠ 429 →
         make_request_with_rate_limiting method url client headers params json w
         = (Raise (HTTPError (status_code r)),
            logged (sent w req s)
              [Failed "Request error" (HTTPError (status_code r))]))
  end.
Proof.
  intros Hgas req Hreq. rewrite make_request_outcome by done.
  unfold request_outcome. fold req. rewrite Hreq. destruct reply as [r|]; [|done].
  split.
  - intros Hok. rewrite bool_decide_eq_false_2 by lia.
    by rewrite bool_decide_eq_false_2.
  - intros Hrange Hne. rewrite bool_decide_eq_false_2 by done.
    by rewrite bool_decide_eq_true_2.
Qed.

(** The loop of [get_all_paginated_items] over good pages followed by a
    failure. *)
Lemma paginate_failure {A} (read : body → exn + (list A * option string))
    client headers (init : list (Response * list A * string)) (bad : Reply) :
  remote_failure bad →
  ∀ fuel items url params (w : World St) s1,
    Forall (λ p, ok_status p.1.1 ∧ read (resp_json p.1.1) = inr (p.1.2, Some p.2)
                 ∧ str_truthy p.2 = true) init →
    str_truthy url = true →
    env_run (w_env w)
      (page_request client headers url params
       :: map (λ p, page_request client headers (base_url client +:+ p.2) (Some []))
              init)
    = (map (λ p, Replied p.1.1) init ++ [bad], s1) →
    (length init < fuel)%nat → w_gas w ≠ 0%nat →
    ∃ w',
      paginate read fuel client headers items (Some url) params w
      = (Raise (failure_of bad), w')
      ∧ w_trace w' = w_trace w ++ map Sent
          (page_request client headers url params
           :: map (λ p, page_request client headers (base_url client +:+ p.2)
                          (Some [])) init).
Proof.
  intros Hbad. induction init as [|[[r its] link] init IH];
    intros fuel items url params w s1 Hinit Hurl Hrun Hfuel Hgas.
  - destruct fuel as [|n]; [cbn in Hfuel; lia|].
    apply env_run_cons_inv in Hrun as (reply & s & replies' & Hreq & Hrest & Heq).
    cbn in Hrest, Heq. simplify_eq.
    cbn [paginate opt_truthy]. rewrite Hurl.
    unfold bind at 1. rewrite make_request_outcome by done.
    cbn [default from_option id]. fold (page_request client headers url params).
    unfold request_outcome. rewrite Hreq. destruct reply as [r|]; cbn in Hbad.
    + destruct Hbad as [Hrange Hne]. rewrite bool_decide_eq_false_2 by done.
      rewrite bool_decide_eq_true_2 by done. by eexists.
    + by eexists.
  - destruct fuel as [|n]; [cbn in Hfuel; lia|].
    apply Forall_cons in Hinit as [(Hr & Hrd & Hlink) Hinit]. cbn in Hr, Hrd, Hlink.
    cbn [map] in Hrun.
    apply env_run_cons_inv in Hrun as (reply & s & replies' & Hreq & Hrest & Heq).
    cbn [map app fst snd] in Heq. simplify_eq.
    cbn [paginate opt_truthy]. rewrite Hurl.
    unfold bind at 1. rewrite make_request_outcome by done.
    cbn [default from_option id]. fold (page_request client headers url params).
    erewrite request_outcome_ok by done.
    unfold bind at 1. rewrite Hrd. cbn [lift_either ret fst snd opt_truthy].
    rewrite Hlink. cbn [default from_option id].
    destruct (IH n (items ++ its) (base_url client +:+ link) (Some [])
                (sent w (page_request client headers url params) s) s1)
      as (w' & -> & Htrace);
      [done| |done|cbn in Hfuel |- *; lia|done|].
    + clear -Hlink. destruct (base_url client) as [|c b]; cbn; [done|done].
    + exists w'. split; [done|].
      rewrite Htrace. cbn. by rewrite <- app_assoc.
Qed.

(** X8: when a page fails after any number of good pages, the
    paginated fetch raises the failure: the items of the good pages are
    lost, although every page was requested. *)
Theorem paginated_fetch_fails_as_a_whole {A}
    (read : body → exn + (list A * option string))
    (client : FronteggClient) (endpoint : string)
    (params : option (list (string * string))) (w : World St)
    (token : string) (s0 s1 : St)
    (init : list (Response * list A * string)) (bad : Reply) :
  env_get_headers (account client) (w_env w) = (inr token, s0) →
  str_truthy endpoint = true →
  Forall (λ p, ok_status p.1.1 ∧ read (resp_json p.1.1) = inr (p.1.2, Some p.2)
               ∧ str_truthy p.2 = true) init →
  remote_failure bad →
  let headers := [("Authorization", "Bearer " +:+ token)] in
  let requests :=
    page_request client headers endpoint params
    :: map (λ p, page_request client headers (base_url client +:+ p.2) (Some []))
           init in
  env_run s0 requests = (map (λ p, Replied p.1.1) init ++ [bad], s1) →
  (length init < w_gas w)%nat →
  ∃ w',
    get_all_paginated_items read client endpoint params w
    = (Raise (failure_of bad), w')
    ∧ w_trace w' = w_trace w ++ map Sent requests.
Proof.
  intros Hhead Hurl Hinit Hbad headers requests Hrun Hgas.
  unfold get_all_paginated_items, bind. rewrite (get_headers_ok _ _ _ _ Hhead).
  fold headers.
  apply (paginate_failure read client headers init bad Hbad (w_gas w) []
           endpoint params (set_env w s0) s1); try done. cbn. lia.
Qed.

(** The loop of [get_all_paginated_items] when every page has a next
    link. *)
Lemma paginate_endless {A} (read : body → exn + (list A * option string))
    client headers :
  (∀ req s, ∃ r s' items link,
      env_request req s = (Replied r, s') ∧ ok_status r
      ∧ read (resp_json r) = inr (items, Some link) ∧ str_truthy link = true) →
  ∀ fuel items url params (w : World St),
    str_truthy url = true → (fuel ≤ w_gas w)%nat →
    (paginate read fuel client headers items (Some url) params w).1 = Diverge.
Proof.
  intros Hpages. induction fuel as [|n IH]; intros items url params w Hurl Hgas.
  - cbn [paginate opt_truthy]. by rewrite Hurl.
  - cbn [paginate opt_truthy]. rewrite Hurl.
    unfold bind at 1. rewrite make_request_outcome by lia.
    cbn [default from_option id].
    destruct (Hpages (page_request client headers url params) (w_env w))
      as (r & s' & its & link & Hreq & Hok & Hread & Hlink).
    fold (page_request client headers url params).
    erewrite request_outcome_ok by done.
    unfold bind at 1. rewrite Hread. cbn [lift_either ret fst snd opt_truthy].
    rewrite Hlink. apply IH; [|cbn; lia].
    cbn [default from_option id]. clear -Hlink.
    destruct (base_url client) as [|c b]; cbn; [done|done].
Qed.

(** X9: against an account whose every page names a next page, the
    paginated fetch exceeds every bound on its iterations: the loop has no
    limit of its own. *)
Theorem endless_pagination_never_returns {A}
    (read : body → exn + (list A * option string))
    (client : FronteggClient) (endpoint : string)
    (params : option (list (string * string))) (w : World St) token s0 :
  (∀ req s, ∃ r s' items link,
      env_request req s = (Replied r, s') ∧ ok_status r
      ∧ read (resp_json r) = inr (items, Some link) ∧ str_truthy link = true) →
  env_get_headers (account client) (w_env w) = (inr token, s0) →
  str_truthy endpoint = true →
  (get_all_paginated_items read client endpoint params w).1 = Diverge.
Proof.
  intros Hpages Hhead Hurl. unfold get_all_paginated_items, bind.
  rewrite (get_headers_ok _ _ _ _ Hhead).
  by apply paginate_endless.
Qed.

(** X10: every function asks for the headers before its [try]: when
    the token refresh fails, the function raises that exception, whatever
    it otherwise catches, and sends no request. *)
Theorem failed_token_refresh_is_never_swallowed client (w : World St) e s :
  env_get_headers (account client) (w_env w) = (inl e, s) →
  (∀ tenant, create_tenant client tenant w = (Raise e, set_env w s))
  ∧ (∀ tenant_id metadata,
       set_tenant_metadata client tenant_id metadata w = (Raise e, set_env w s))
  ∧ (∀ tenant_id user_ids,
       get_user_roles client tenant_id user_ids w = (Raise e, set_env w s))
  ∧ get_roles_mapping client w = (Raise e, set_env w s)
  ∧ get_categories client w = (Raise e, set_env w s)
  ∧ get_permissions client w = (Raise e, set_env w s)
  ∧ (∀ categories, create_categories client categories w = (Raise e, set_env w s))
  ∧ (∀ permissions,
       create_permissions client permissions w = (Raise e, set_env w s))
  ∧ (∀ row roleIds rest, ar_roleIds row = Some roleIds →
       assign_user_roles client (row :: rest) w = (Raise e, set_env w s))
  ∧ get_tenants client w = (Raise e, set_env w s)
  ∧ get_all_users client w = (Raise e, set_env w s).
Proof.
  intros Hhead. pose proof (get_headers_fail client w e s Hhead) as Hfail.
  split_and!.
  - intros ?. unfold create_tenant, bind at 1. by rewrite Hfail.
  - intros ??. unfold set_tenant_metadata, bind at 1. by rewrite Hfail.
  - intros ??. unfold get_user_roles. cbn zeta. unfold bind at 1. by rewrite Hfail.
  - unfold get_roles_mapping, bind at 1. by rewrite Hfail.
  - unfold get_categories, bind at 1. by rewrite Hfail.
  - unfold get_permissions, bind at 1. by rewrite Hfail.
  - intros ?. unfold create_categories, bind at 1. by rewrite Hfail.
  - intros ?. unfold create_permissions, bind at 1. by rewrite Hfail.
  - intros row roleIds rest Hrow. unfold assign_user_roles.
    cbn [omap list_omap]. rewrite Hrow. cbn [fmap option_fmap option_map].
    cbn [for_each]. unfold bind at 1. unfold bind at 1. by rewrite Hfail.
  - unfold get_tenants, get_all_paginated_items, bind at 1. by rewrite Hfail.
  - unfold get_all_users, get_all_paginated_items, bind at 1. by rewrite Hfail.
Qed.

End Failures.

Lemma request_result_by_status_witness :
  let not_found := {| status_code := 404; retry_after := RetryAbsent;
                      resp_json := BEmpty |} in
  let server := {| sc_replies := [Replied not_found]; sc_users_csv := None;
                   sc_hashes_csv := None |} in
  (make_request_with_rate_limiting "GET" "https://api.frontegg.com/x"
     FRONTEGG_ACCOUNT_1 [] None None (start server 1)).1
  = Raise (HTTPError 404).
Proof.
  intros not_found server.
  pose proof (request_result_by_status "GET" "https://api.frontegg.com/x"
                FRONTEGG_ACCOUNT_1 [] None None (start server 1)
                (Replied not_found)
                {| sc_replies := []; sc_users_csv := None;
                   sc_hashes_csv := None |}) as H.
  cbn zeta in H. destruct H as [_ H]; [done|done|].
  rewrite H; [done|cbn; lia|done].
Defined.

Lemma paginated_fetch_fails_as_a_whole_witness :
  let user i := {| user_id := i; user_email := i; user_tenantId := "t" |} in
  let p1 := {| status_code := 200; retry_after := RetryAbsent;
               resp_json := BUsersPage [user "a"] (Some "/users?cursor=1") |} in
  let down := {| status_code := 503; retry_after := RetryAbsent;
                 resp_json := BEmpty |} in
  let server := {| sc_replies := [Replied p1; Replied down];
                   sc_users_csv := None; sc_hashes_csv := None |} in
  (get_all_users FRONTEGG_ACCOUNT_1 (start server 5)).1
  = Raise (HTTPError 503).
Proof.
  intros user p1 down server.
  destruct (paginated_fetch_fails_as_a_whole users_page FRONTEGG_ACCOUNT_1
              "https://api.frontegg.com/identity/resources/users/v2"
              (Some [("_limit", "100"); ("_includeSubTenants", "True")])
              (start server 5) "token" server
              {| sc_replies := []; sc_users_csv := None; sc_hashes_csv := None |}
              [(p1, [user "a"], "/users?cursor=1")] (Replied down))
    as (w' & Hrun & _).
  - reflexivity.
  - reflexivity.
  - repeat first [apply Forall_nil | apply Forall_cons; split];
      repeat split; try reflexivity; unfold ok_status; cbn; lia.
  - cbn. lia.
  - reflexivity.
  - cbn; lia.
  - exact (f_equal fst Hrun).
Defined.

Lemma endless_pagination_never_returns_witness :
  (get_tenants FRONTEGG_ACCOUNT_1 (start endless 1000)).1 = Diverge.
Proof.
  apply (endless_pagination_never_returns tenants_page FRONTEGG_ACCOUNT_1 _ _
           (start endless 1000) "token" endless).
  - intros req s. exists endless_page, s, [], "/tenants?cursor=again".
    split_and!; [done|unfold ok_status; cbn; lia|done|done].
  - done.
  - done.
Defined.

Lemma failed_token_refresh_is_never_swallowed_witness :
  (get_categories FRONTEGG_ACCOUNT_2 (start locked 1)).1 = Raise (HTTPError 401)
  ∧ (create_categories FRONTEGG_ACCOUNT_2 [] (start locked 1)).1
    = Raise (HTTPError 401).
Proof.
  destruct (failed_token_refresh_is_never_swallowed FRONTEGG_ACCOUNT_2
              (start locked 1) (HTTPError 401) locked)
    as (_ & _ & _ & _ & Hcat & _ & Hcreate & _); [done|].
  by rewrite Hcat, Hcreate.
Defined.

(** * The tenant stage *)

Section TenantStage.
Context {St : Type} `{!Env St}.

(** A request inside [try ... except Exception: log]. *)
Lemma guarded_request_opt method url client headers params json what
    (w : World St) :
  w_gas w ≠ 0%nat →
  ∃ res w',
    try_except
      (response <- make_request_with_rate_limiting method url client headers
                     params json ;;
       ret (Some response))
      (λ e, log (Failed what e) ;;; ret None) w
    = (Ok res, w')
    ∧ w_trace w' = w_trace w ++
        [Sent {| req_account := account client; req_method := method;
                 req_url := url; req_headers := headers;
                 req_params := params; req_json := json |}]
    ∧ w_gas w' = w_gas w
    ∧ (res = None → ∃ e, last (w_log w') = Some (Failed what e)).
Proof.
  intros Hgas. unfold try_except, bind. rewrite make_request_outcome by done.
  unfold request_outcome.
  destruct (env_request _ (w_env w)) as [[r|] s].
  - case_bool_decide; [destruct (int_retry_after _)|case_bool_decide];
      eexists _, _; (split; [done|]); cbn; split_and!; try done;
      intros _; eexists; by rewrite last_snoc.
  - eexists _, _. split; [done|]. cbn. split_and!; try done.
    intros _. eexists. by rewrite last_snoc.
Qed.

Lemma create_tenant_run client tenant (w : World St) token s :
  w_gas w ≠ 0%nat →
  env_get_headers (account client) (w_env w) = (inr token, s) →
  ∃ res w',
    create_tenant client tenant w = (Ok res, w')
    ∧ w_trace w' = w_trace w ++
        [Sent {| req_account := account client; req_method := "POST";
                 req_url := base_url client +:+ "/tenants/resources/tenants/v1";
                 req_headers := [("Authorization", "Bearer " +:+ token)];
                 req_params := None;
                 req_json := Some (TenantBody (tenant_tenantId tenant)
                                     (tenant_name tenant)) |}]
    ∧ w_gas w' = w_gas w
    ∧ (res = None →
       ∃ e, last (w_log w')
            = Some (Failed ("Error creating tenant " +:+ tenant_tenantId tenant) e)).
Proof.
  intros Hgas Hhead. unfold create_tenant, bind at 1.
  rewrite (get_headers_ok _ _ _ _ Hhead).
  by apply (guarded_request_opt "POST" _ client _ None _ _ (set_env w s)).
Qed.

(** X11: [create_tenant] sends one POST with the id and name of the
    tenant and never raises on what comes back.  An accepted answer is
    returned.  A refused or lost request is logged twice, once by the
    request and once as [Error creating tenant], and [None] is returned.
    A rate-limited answer ends in [None] too, the exception of the retry
    being logged as [Error creating tenant]. *)
Theorem create_tenant_swallows_failures client tenant (w : World St) token s
    reply s' :
  w_gas w ≠ 0%nat →
  env_get_headers (account client) (w_env w) = (inr token, s) →
  let req := tenant_request client token tenant in
  let failed := "Error creating tenant " +:+ tenant_tenantId tenant in
  env_request req s = (reply, s') →
  (∀ r, reply = Replied r → ok_status r →
     create_tenant client tenant w = (Ok (Some r), sent (set_env w s) req s'))
  ∧ (remote_failure reply →
     create_tenant client tenant w
     = (Ok None,
        logged (sent (set_env w s) req s')
          [Failed "Request error" (failure_of reply);
           Failed failed (failure_of reply)]))
  ∧ (∀ r, reply = Replied r → status_code r = 429 →
     ∃ e entries,
       create_tenant client tenant w
       = (Ok None,
          logged (sent (set_env w s) req s') (entries ++ [Failed failed e]))).
Proof.
  intros Hgas Hhead req failed Hreq.
  assert (Hshape :
    create_tenant client tenant w
    = match request_outcome req (set_env w s) with
      | (Ok response, w') => (Ok (Some response), w')
      | (Raise e, w') => (Ok None, logged w' [Failed failed e])
      | (Diverge, w') => (Diverge, w')
      end).
  { unfold create_tenant. cbn zeta. unfold bind at 1.
    rewrite (get_headers_ok _ _ _ _ Hhead). unfold try_except.
    unfold bind at 1. rewrite make_request_outcome by done.
    fold (tenant_request client token tenant). fold req.
    by destruct (request_outcome req (set_env w s)) as [[response|e|] w']. }
  rewrite Hshape. split_and!.
  - intros r -> Hok.
    by rewrite (request_outcome_ok req (set_env w s) r s').
  - intros Hbad.
    rewrite (request_outcome_remote_failure req (set_env w s) reply s')
      by done.
    by rewrite logged_logged.
  - intros r -> Hlimited. unfold request_outcome. cbn [w_env set_env].
    rewrite Hreq. rewrite bool_decide_eq_true_2 by done.
    destruct (int_retry_after (retry_after r)) as [e|seconds].
    + exists e, []. by rewrite app_nil_l.
    + eexists _, [_]. by rewrite logged_logged.
Qed.

(** X12: [bulk_create_tenants] posts, in order, exactly the given
    tenants whose id the destination did not list when asked at the start;
    a tenant given twice is posted twice, and failed posts stop nothing. *)
Theorem bulk_create_tenants_posts_missing destination_client
    (tenants dest : list Tenant) (w w1 : World St) :
  (∀ s, ∃ token s',
      env_get_headers (account destination_client) s = (inr token, s')) →
  get_tenants destination_client w = (Ok dest, w1) →
  w_gas w1 ≠ 0%nat →
  ∃ w',
    bulk_create_tenants destination_client tenants w = (Ok (), w')
    ∧ posts (w_trace w')
      = posts (w_trace w1) ++
        map (tenant_post destination_client)
            (filter (λ t, tenant_tenantId t ∉ map tenant_tenantId dest) tenants).
Proof.
  intros Hauth Hget Hgas. unfold bulk_create_tenants, bind at 1. rewrite Hget.
  clear Hget w. induction tenants as [|t rest IH] in w1, Hgas |- *.
  - exists w1. by rewrite app_nil_r.
  - cbn [for_each]. unfold bind at 1.
    destruct (decide (tenant_tenantId t ∈ map tenant_tenantId dest)) as [Hin|Hout].
    + rewrite bool_decide_eq_true_2 by by apply elem_of_list_to_set.
      cbn [log]. rewrite filter_cons_False by tauto.
      match goal with |- context [for_each rest ?f ?w2] =>
        destruct (IH w2) as (w' & -> & Hposts) end; [done|].
      by exists w'.
    + rewrite bool_decide_eq_false_2 by by rewrite elem_of_list_to_set.
      unfold bind at 1.
      destruct (Hauth (w_env w1)) as (token & s' & Hhead).
      destruct (create_tenant_run destination_client t w1 token s' Hgas Hhead)
        as (res & w2 & -> & Htrace & Hgas2 & _).
      cbn [ret]. destruct (IH w2) as (w' & -> & Hposts); [by rewrite Hgas2|].
      exists w'. split; [done|]. rewrite Hposts, Htrace.
      rewrite filter_cons_True by done. unfold posts. rewrite omap_app.
      cbn. by rewrite <- app_assoc.
Qed.

Lemma set_tenant_metadata_run client tenant_id metadata (w : World St) token s :
  w_gas w ≠ 0%nat →
  env_get_headers (account client) (w_env w) = (inr token, s) →
  ∃ res w',
    set_tenant_metadata client tenant_id metadata w = (Ok res, w')
    ∧ w_trace w' = w_trace w ++
        [Sent {| req_account := account client; req_method := "POST";
                 req_url := base_url client +:+ "/tenants/resources/tenants/v1/"
                            +:+ tenant_id +:+ "/metadata";
                 req_headers := [("Authorization", "Bearer " +:+ token)];
                 req_params := None;
                 req_json := Some (MetadataBody metadata) |}]
    ∧ w_gas w' = w_gas w.
Proof.
  intros Hgas Hhead. unfold set_tenant_metadata, bind at 1.
  rewrite (get_headers_ok _ _ _ _ Hhead).
  destruct (guarded_request_opt "POST"
              (base_url client +:+ "/tenants/resources/tenants/v1/"
               +:+ tenant_id +:+ "/metadata") client
              [("Authorization", "Bearer " +:+ token)] None
              (Some (MetadataBody metadata))
              ("Error updating metadata for tenant " +:+ tenant_id)
              (set_env w s) Hgas) as (res & w' & Hrun & Htrace & Hgas' & _).
  by exists res, w'.
Qed.

(** One round of the metadata loop of [migrate_tenants]. *)
Lemma metadata_round destination_client (t : Tenant) (w : World St) :
  (∀ s, ∃ token s',
      env_get_headers (account destination_client) s = (inr token, s')) →
  w_gas w ≠ 0%nat →
  ∃ w',
    match tenant_metadata t with
    | Some metadata =>
        if json_text_truthy metadata then
          try_except_when is_JSONDecodeError
            (metadata_json <- lift_either (json_loads metadata) ;;
             set_tenant_metadata destination_client (tenant_tenantId t)
               metadata_json ;;;
             ret ())
            (λ _, log (Info ("Invalid metadata for tenant "
                             +:+ tenant_tenantId t)))
        else ret ()
    | None => ret ()
    end w = (Ok (), w')
    ∧ posts (w_trace w')
      = posts (w_trace w) ++ option_list (metadata_post destination_client t)
    ∧ w_gas w' = w_gas w.
Proof.
  intros Hauth Hgas. unfold metadata_post.
  destruct (tenant_metadata t) as [[v|raw]|] eqn:Hmeta.
  - cbn [json_text_truthy]. unfold try_except_when, try_except.
    unfold bind at 1. cbn [json_loads lift_either ret]. unfold bind at 1.
    destruct (Hauth (w_env w)) as (token & s' & Hhead).
    destruct (set_tenant_metadata_run destination_client (tenant_tenantId t) v
                w token s' Hgas Hhead) as (res & w3 & -> & Htrace & Hgas3).
    exists w3. split_and!; [done| |done]. rewrite Htrace. unfold posts.
    by rewrite omap_app.
  - cbn [json_text_truthy]. destruct (str_truthy raw).
    + unfold try_except_when, try_except, bind.
      cbn [json_loads lift_either raise is_JSONDecodeError log].
      eexists. split_and!; [done| |done]. cbn. by rewrite app_nil_r.
    + exists w. cbn. by rewrite app_nil_r.
  - exists w. cbn. by rewrite app_nil_r.
Qed.

(** X13: after the tenants are created, [migrate_tenants] posts the
    metadata of every source tenant that has some which parses as JSON, in
    order, also for tenants that existed before or failed to be created;
    metadata that does not parse is skipped. *)
Theorem migrate_tenants_replays_metadata source_client destination_client
    (source_tenants : list Tenant) (w w1 w2 : World St) :
  (∀ s, ∃ token s',
      env_get_headers (account destination_client) s = (inr token, s')) →
  get_tenants source_client w = (Ok source_tenants, w1) →
  bulk_create_tenants destination_client source_tenants w1 = (Ok (), w2) →
  w_gas w2 ≠ 0%nat →
  ∃ w3,
    migrate_tenants source_client destination_client w = (Ok (), w3)
    ∧ posts (w_trace w3)
      = posts (w_trace w2) ++ omap (metadata_post destination_client) source_tenants.
Proof.
  intros Hauth Hget Hbulk Hgas. unfold migrate_tenants, bind at 1. rewrite Hget.
  unfold bind at 1. rewrite Hbulk. clear Hget Hbulk w w1.
  induction source_tenants as [|t rest IH] in w2, Hgas |- *.
  - exists w2. by rewrite app_nil_r.
  - cbn [for_each omap list_omap]. unfold bind at 1.
    destruct (metadata_round destination_client t w2 Hauth Hgas)
      as (w3 & -> & Hposts3 & Hgas3).
    destruct (IH w3) as (w' & -> & Hposts); [by rewrite Hgas3|].
    exists w'. split; [done|]. rewrite Hposts, Hposts3, <- app_assoc.
    f_equal. by destruct (metadata_post destination_client t).
Qed.

End TenantStage.

(** The pair of accounts never refuses a token. *)
Lemma cloud_headers (client : FronteggClient) :
  ∀ c : Cloud, ∃ token c',
    env_get_headers (account client) c = (inr token, c').
Proof. intros c. by exists "token", c. Qed.

Lemma create_tenant_swallows_failures_witness :
  let acme := {| tenant_tenantId := "t1"; tenant_name := "Acme";
                 tenant_metadata := None |} in
  let down :=
    example_cloud ["https://api.us.frontegg.com/tenants/resources/tenants/v1"] in
  create_tenant FRONTEGG_ACCOUNT_2 acme (start down 1)
  = (Ok None,
     {| w_env := down;
        w_trace := [Sent (tenant_request FRONTEGG_ACCOUNT_2 "token" acme)];
        w_log := [Failed "Request error" (HTTPError 500);
                  Failed "Error creating tenant t1" (HTTPError 500)];
        w_gas := 1 |}).
Proof.
  intros acme down.
  destruct (create_tenant_swallows_failures FRONTEGG_ACCOUNT_2 acme
              (start down 1) "token" down (answer 500 BEmpty) down)
    as (_ & Hfail & _); [done|done|reflexivity|].
  rewrite Hfail; [reflexivity|]. cbn. lia.
Defined.

Lemma bulk_create_tenants_posts_missing_witness :
  let acme := {| tenant_tenantId := "t1"; tenant_name := "Acme";
                 tenant_metadata := None |} in
  posts (w_trace (bulk_create_tenants FRONTEGG_ACCOUNT_2 [acme; acme]
                    (start (example_cloud []) 10)).2)
  = [tenant_post FRONTEGG_ACCOUNT_2 acme; tenant_post FRONTEGG_ACCOUNT_2 acme].
Proof.
  intros acme.
  set (w := start (example_cloud []) 10).
  set (w1 := (get_tenants FRONTEGG_ACCOUNT_2 w).2).
  assert (Hget : get_tenants FRONTEGG_ACCOUNT_2 w = (Ok [], w1))
    by (vm_compute; reflexivity).
  assert (Hgas : w_gas w1 ≠ 0%nat) by (vm_compute; lia).
  destruct (bulk_create_tenants_posts_missing FRONTEGG_ACCOUNT_2 [acme; acme] []
              w w1 (cloud_headers FRONTEGG_ACCOUNT_2) Hget Hgas)
    as (w' & Hrun & Hposts).
  rewrite Hrun. cbn [snd]. rewrite Hposts. clear. vm_compute. reflexivity.
Defined.

Lemma migrate_tenants_replays_metadata_witness :
  posts (w_trace (migrate_tenants FRONTEGG_ACCOUNT_1 FRONTEGG_ACCOUNT_2
                    (start (example_cloud []) 10)).2)
  = [("https://api.us.frontegg.com/tenants/resources/tenants/v1",
      Some (TenantBody "t1" "Acme"));
     ("https://api.us.frontegg.com/tenants/resources/tenants/v1/t1/metadata",
      Some (MetadataBody "{}"))].
Proof.
  set (w := start (example_cloud []) 10).
  set (w1 := (get_tenants FRONTEGG_ACCOUNT_1 w).2).
  set (w2 := (bulk_create_tenants FRONTEGG_ACCOUNT_2 (ad_tenants example_source)
                w1).2).
  assert (Hget : get_tenants FRONTEGG_ACCOUNT_1 w
                 = (Ok (ad_tenants example_source), w1))
    by (vm_compute; reflexivity).
  assert (Hbulk : bulk_create_tenants FRONTEGG_ACCOUNT_2
                    (ad_tenants example_source) w1 = (Ok (), w2))
    by (vm_compute; reflexivity).
  assert (Hgas : w_gas w2 ≠ 0%nat) by (vm_compute; lia).
  destruct (migrate_tenants_replays_metadata FRONTEGG_ACCOUNT_1
              FRONTEGG_ACCOUNT_2 (ad_tenants example_source) w w1 w2
              (cloud_headers FRONTEGG_ACCOUNT_2) Hget Hbulk Hgas)
    as (w3 & Hrun & Hposts).
  rewrite Hrun. cbn [snd]. rewrite Hposts. clear. vm_compute. reflexivity.
Defined.

(** * The user stage *)

Lemma chunks_aux_spec {A} (n : nat) :
  (0 < n)%nat →
  ∀ fuel (l : list A), (length l ≤ fuel)%nat →
    concat (chunks_aux fuel n l) = l
    ∧ Forall (λ c, (0 < length c ≤ n)%nat) (chunks_aux fuel n l)
    ∧ length (chunks_aux fuel n l) = ((length l + n - 1) / n)%nat.
Proof.
  intros Hn. induction fuel as [|fuel IH]; intros l Hlen.
  - destruct l; [|cbn in Hlen; lia]. cbn. split_and!; [done|done|].
    symmetry. apply Nat.div_small. lia.
  - destruct l as [|x l].
    { cbn. split_and!; [done|done|]. symmetry. apply Nat.div_small. lia. }
    cbn [chunks_aux].
    destruct (IH (drop n (x :: l))) as (Hcat & Hall & Hcount).
    { rewrite length_drop. cbn in *. lia. }
    split_and!.
    + cbn [concat]. rewrite Hcat. apply take_drop.
    + constructor; [|done]. rewrite length_take. cbn. lia.
    + cbn [length]. rewrite Hcount, length_drop. cbn [length].
      destruct (decide (S (length l) ≤ n)%nat) as [Hle|Hgt].
      * replace (S (length l) - n)%nat with 0%nat by lia.
        rewrite (Nat.div_small (0 + n - 1) n) by lia.
        apply (Nat.div_unique _ n 1 (length l)); lia.
      * replace (S (length l) + n - 1)%nat
          with ((S (length l) - n + n - 1) + 1 * n)%nat by lia.
        rewrite Nat.div_add by lia. lia.
Qed.

(** X14: the slices [user_ids[i:i + chunk_size]] of [get_user_roles]
    put together give the list back, each is non-empty and at most
    [chunk_size] long, and there are ceil(len / chunk_size) of them. *)
Theorem chunks_partition {A} (chunk_size : nat) (user_ids : list A) :
  (0 < chunk_size)%nat →
  concat (chunks chunk_size user_ids) = user_ids
  ∧ Forall (λ chunk, (0 < length chunk ≤ chunk_size)%nat)
           (chunks chunk_size user_ids)
  ∧ length (chunks chunk_size user_ids)
    = ((length user_ids + chunk_size - 1) / chunk_size)%nat.
Proof. intros Hn. by apply chunks_aux_spec. Qed.

Lemma chunks_partition_witness :
  chunks 2 ["a"; "b"; "c"; "d"; "e"] = [["a"; "b"]; ["c"; "d"]; ["e"]]
  ∧ concat (chunks 2 ["a"; "b"; "c"; "d"; "e"]) = ["a"; "b"; "c"; "d"; "e"].
Proof.
  split; [reflexivity|].
  apply (chunks_partition 2 ["a"; "b"; "c"; "d"; "e"]). lia.
Defined.

Lemma chunks_single {A} (n : nat) (l : list A) :
  (0 < length l ≤ n)%nat → chunks n l = [l].
Proof.
  intros Hlen. unfold chunks. destruct l as [|x l]; [cbn in Hlen; lia|].
  cbn [length chunks_aux]. rewrite take_ge, drop_ge by (cbn in *; lia).
  by destruct (length l).
Qed.

Lemma unique_elem_of (l : list string) x : x ∈ unique l ↔ x ∈ l.
Proof.
  induction l as [|y l IH]; [done|]. cbn [unique].
  rewrite !elem_of_cons, list_elem_of_filter, IH.
  destruct (decide (x = y)); tauto.
Qed.

Lemma unique_NoDup (l : list string) : NoDup (unique l).
Proof.
  induction l as [|y l IH]; [constructor|]. cbn [unique]. constructor.
  - rewrite list_elem_of_filter. by intros [? _].
  - by apply NoDup_filter.
Qed.

Lemma groups_by_key {A} (key : A → string) (ks : list string) :
  NoDup ks → ∀ (l : list A), (∀ x, x ∈ l → key x ∈ ks) →
  flat_map (λ k, filter (λ x, key x = k) l) ks ≡ₚ l.
Proof.
  induction 1 as [|k ks Hk Hnd IH]; intros l Hall.
  - destruct l as [|x l]; [done|]. specialize (Hall x (ltac:(left))).
    by apply not_elem_of_nil in Hall.
  - cbn [flat_map].
    transitivity (filter (λ x, key x = k) l ++ filter (λ x, ¬ key x = k) l);
      [|apply filter_app_complement].
    apply Permutation_app; [done|].
    assert (Heq : flat_map (λ t, filter (λ x, key x = t) l) ks
                  = flat_map (λ t, filter (λ x, key x = t)
                                     (filter (λ x, ¬ key x = k) l)) ks).
    { clear -Hk. induction ks as [|t ks IH']; [done|].
      cbn [flat_map]. rewrite IH' by (intros ?; apply Hk; by right).
      f_equal. rewrite list_filter_filter. apply list_filter_iff.
      intros x. split; [|by intros [? _]]. intros ->. split; [done|].
      intros ->. apply Hk. left. }
    rewrite Heq. apply IH.
    intros x [Hne Hx]%list_elem_of_filter.
    specialize (Hall x Hx). apply elem_of_cons in Hall as [?|?]; done.
Qed.

Lemma dict_get_set {V} (k k' : string) (v : V) (d : list (string * V)) :
  dict_get k (dict_set k' v d) = if decide (k = k') then Some v else dict_get k d.
Proof.
  induction d as [|[k0 v0] d IH]; cbn [dict_set dict_get].
  - case_bool_decide; case_decide; done.
  - destruct (decide (k' = k0)) as [->|Hne].
    + rewrite bool_decide_eq_true_2 by done. cbn [dict_get].
      case_bool_decide; case_decide; done.
    + rewrite (bool_decide_eq_false_2 (k' = k0)) by done. cbn [dict_get].
      rewrite IH. case_bool_decide; case_decide; congruence.
Qed.

Lemma dict_set_keys {V} (k : string) (v : V) (d : list (string * V)) :
  NoDup (map fst d) →
  NoDup (map fst (dict_set k v d))
  ∧ ∀ x, x ∈ map fst (dict_set k v d) ↔ x = k ∨ x ∈ map fst d.
Proof.
  induction d as [|[k0 v0] d IH]; cbn [dict_set map fst].
  - intros _. split; [repeat constructor; by intros ?%not_elem_of_nil|].
    intros x. rewrite list_elem_of_singleton. split; [by left|].
    by intros [?|?%not_elem_of_nil].
  - intros [Hk0 Hnd]%NoDup_cons. case_bool_decide as Hk.
    + subst k0. cbn [map fst]. split; [by constructor|].
      intros x. rewrite elem_of_cons. tauto.
    + destruct (IH Hnd) as [Hnd' Hin]. cbn [map fst]. split.
      * constructor; [|done]. rewrite Hin. intros [?|?]; congruence.
      * intros x. rewrite !elem_of_cons, Hin. tauto.
Qed.

(** The dictionary comprehension of [get_roles_mapping]. *)
Lemma roles_mapping_fold (roles_list : list Role) (key : string) :
  let mapping :=
    foldl (λ d role, dict_set (role_key role) (role_id role) d) [] roles_list in
  dict_get key mapping
  = role_id <$> last (filter (λ role, role_key role = key) roles_list)
  ∧ NoDup (map fst mapping).
Proof.
  induction roles_list as [|role roles_list IH] using rev_ind.
  - cbn. split; [done|constructor].
  - cbn zeta in *. destruct IH as [IHget IHnd]. rewrite foldl_snoc.
    split; [|by apply dict_set_keys].
    rewrite dict_get_set, filter_app. case_decide as Hk.
    + rewrite filter_cons_True by done. cbn. by rewrite last_snoc.
    + rewrite filter_cons_False by done. rewrite filter_nil, app_nil_r. done.
Qed.

Lemma merge_inner_elem_of {L R K : Type} `{EqDecision K}
    (lkey : L → K) (rkey : R → K) (left : list L) (right : list R) l r :
  (l, r) ∈ merge_inner lkey rkey left right
  ↔ l ∈ left ∧ r ∈ right ∧ rkey r = lkey l.
Proof.
  unfold merge_inner. induction left as [|x rest IH].
  - cbn. split; [by intros ?%not_elem_of_nil|by intros [?%not_elem_of_nil _]].
  - cbn [flat_map]. rewrite elem_of_app, IH, list_elem_of_fmap, elem_of_cons.
    split.
    + intros [(r' & [= -> ->] & [Hk Hr]%list_elem_of_filter)|(? & ? & ?)];
        [by split_and!; [left|..]|by split_and!; [right|..]].
    + intros ([->|Hl] & Hr & Hk); [left|by right].
      exists r. split; [done|]. by apply list_elem_of_filter.
Qed.

Lemma translation_fold_lookup destination_roles source_roles :
  ∀ (acc : gmap string string) sid did,
    foldl (translation_step destination_roles) acc source_roles !! sid = Some did →
    acc !! sid = Some did
    ∨ (did ≠ "" ∧ ∃ key, (key, sid) ∈ source_roles
                         ∧ dict_get key destination_roles = Some did).
Proof.
  induction source_roles as [|[key s0] rest IH]; intros acc sid did; [by left|].
  cbn [foldl]. intros [Hacc|(Hne & k & Hin & Hget)]%IH.
  - unfold translation_step in Hacc. cbn [fst snd] in Hacc.
    destruct (dict_get key destination_roles) as [d|] eqn:Hd; [|by left].
    destruct (str_truthy d) eqn:Ht; [|by left].
    destruct (decide (s0 = sid)) as [->|Hother].
    + rewrite lookup_insert_eq in Hacc. injection Hacc as ->. right.
      split; [by destruct did|]. exists key. split; [left|done].
    + rewrite lookup_insert_ne in Hacc by done. by left.
  - right. split; [done|]. exists k. split; [by right|done].
Qed.

Lemma translation_fold_complete destination_roles source_roles :
  NoDup (map snd source_roles) →
  ∀ (acc : gmap string string) key sid did,
    (key, sid) ∈ source_roles →
    dict_get key destination_roles = Some did → did ≠ "" →
    foldl (translation_step destination_roles) acc source_roles !! sid = Some did.
Proof.
  induction source_roles as [|[k0 s0] rest IH];
    intros Hnd acc key sid did Hin Hget Hne; [by apply not_elem_of_nil in Hin|].
  cbn [map snd] in Hnd. apply NoDup_cons in Hnd as [Hfresh Hnd].
  cbn [foldl]. apply elem_of_cons in Hin as [[= <- <-]|Hin]; [|by eapply IH].
  unfold translation_step at 2. cbn [fst snd]. rewrite Hget.
  assert (str_truthy did = true) as -> by by destruct did.
  generalize (<[sid := did]> acc), (lookup_insert_eq acc sid did).
  clear -Hfresh. induction rest as [|[k1 s1] rest IH]; intros m Hm; [done|].
  cbn [foldl]. apply IH.
  - intros Hin. apply Hfresh. by right.
  - unfold translation_step. cbn [fst snd].
    destruct (dict_get k1 destination_roles) as [d|]; [|done].
    destruct (str_truthy d); [|done]. rewrite lookup_insert_ne; [done|].
    intros ->. apply Hfresh. left.
Qed.

Section UserStage.
Context {St : Type} `{!Env St}.

(** X15: [get_user_roles] sends nothing for no user; for up to a
    hundred users it sends one request with the ids joined by commas and
    returns the records of the answer, or the empty list, after logging,
    when the request fails. *)
Theorem get_user_roles_one_chunk client tenant_id (w : World St) token s :
  env_get_headers (account client) (w_env w) = (inr token, s) →
  w_gas w ≠ 0%nat →
  get_user_roles client tenant_id [] w = (Ok [], set_env w s)
  ∧ ∀ user_ids reply s',
      (0 < length user_ids ≤ 100)%nat →
      let req := roles_request client token tenant_id user_ids in
      env_request req s = (reply, s') →
      (∀ r l, reply = Replied r → ok_status r → resp_json r = BUserRoles l →
         get_user_roles client tenant_id user_ids w
         = (Ok l, sent (set_env w s) req s'))
      ∧ (remote_failure reply →
         get_user_roles client tenant_id user_ids w
         = (Ok [],
            logged (sent (set_env w s) req s')
              [Failed "Request error" (failure_of reply);
               Failed ("Error fetching roles for tenant " +:+ tenant_id)
                 (failure_of reply)])).
Proof.
  intros Hhead Hgas. split.
  - unfold get_user_roles. cbn zeta. unfold bind at 1.
    by rewrite (get_headers_ok _ _ _ _ Hhead).
  - intros user_ids reply s' Hlen req Hreq.
    assert (Hshape :
      get_user_roles client tenant_id user_ids w
      = match request_outcome req (set_env w s) with
        | (Ok response, w') =>
            match user_roles_list (resp_json response) with
            | inr roles => (Ok roles, w')
            | inl e =>
                (Ok [], logged w'
                   [Failed ("Error fetching roles for tenant " +:+ tenant_id) e])
            end
        | (Raise e, w') =>
            (Ok [], logged w'
               [Failed ("Error fetching roles for tenant " +:+ tenant_id) e])
        | (Diverge, w') => (Diverge, w')
        end).
    { unfold get_user_roles. cbn zeta.
      unfold bind at 1. rewrite (get_headers_ok _ _ _ _ Hhead).
      rewrite chunks_single by done. cbn [for_fold app]. unfold bind at 1.
      unfold try_except. unfold bind at 1.
      rewrite make_request_outcome by done. cbn [app].
      fold (roles_request client token tenant_id user_ids). fold req.
      destruct (request_outcome req (set_env w s)) as [[response|e|] w'];
        [|done|done].
      unfold bind at 1. by destruct (user_roles_list (resp_json response)). }
    rewrite Hshape. split.
    + intros r l -> Hok Hbody.
      rewrite (request_outcome_ok req (set_env w s) r s') by done.
      by rewrite Hbody.
    + intros Hbad.
      rewrite (request_outcome_remote_failure req (set_env w s) reply s') by done.
      unfold logged. cbn. by rewrite <- app_assoc.
Qed.

End UserStage.

(** X16: the groups [get_all_user_roles] walks through, one per distinct
    [tenantId] in order of first occurrence, partition the users: every row
    is asked about in exactly one group. *)
Theorem tenant_groups_partition (users_df : list MergedUser) :
  let tenant_ids := unique (map mu_tenantId users_df) in
  NoDup tenant_ids
  ∧ flat_map (λ tenant_id,
                filter (λ row, mu_tenantId row = tenant_id) users_df)
             tenant_ids ≡ₚ users_df.
Proof.
  split; [apply unique_NoDup|].
  apply groups_by_key; [apply unique_NoDup|].
  intros x Hx. apply unique_elem_of, list_elem_of_fmap. by exists x.
Qed.

Section RoleStage.
Context {St : Type} `{!Env St}.

(** X17: on an accepted answer, [get_roles_mapping] returns a dictionary
    with one entry per role key, whose value is the id of the last role of
    that key in the answer. *)
Theorem roles_mapping_last_wins client (w : World St) token s response s'
    (roles : list Role) :
  env_get_headers (account client) (w_env w) = (inr token, s) →
  w_gas w ≠ 0%nat →
  env_request (roles_mapping_request client token) s = (Replied response, s') →
  ok_status response →
  resp_json response = BRoles roles →
  ∃ mapping,
    get_roles_mapping client w
    = (Ok mapping, sent (set_env w s) (roles_mapping_request client token) s')
    ∧ (∀ key, dict_get key mapping
              = role_id <$> last (filter (λ role, role_key role = key) roles))
    ∧ NoDup (map fst mapping).
Proof.
  intros Hhead Hgas Hreq Hok Hbody.
  exists (foldl (λ d role, dict_set (role_key role) (role_id role) d) [] roles).
  split_and!.
  - unfold get_roles_mapping. unfold bind at 1.
    rewrite (get_headers_ok _ _ _ _ Hhead).
    unfold try_except. unfold bind at 1.
    rewrite make_request_outcome by done.
    fold (roles_mapping_request client token).
    rewrite (request_outcome_ok _ (set_env w s) response s') by done.
    unfold bind at 1. by rewrite Hbody.
  - intros key. apply roles_mapping_fold.
  - apply (roles_mapping_fold roles "").
Qed.

(** The loop of [get_role_id_translations]. *)
Lemma translations_loop destination_roles (source_roles : list (string * string)) :
  ∀ (acc : gmap string string) (w : World St), ∃ entries,
    for_fold source_roles acc
      (λ role_id_translation '(key, source_id),
         let dest_id := dict_get key destination_roles in
         if opt_truthy dest_id then
           ret (<[source_id := default "" dest_id]> role_id_translation)
         else
           log (Info ("Role key '" +:+ key
                      +:+ "' not found in destination account.")) ;;;
           ret role_id_translation) w
    = (Ok (foldl (translation_step destination_roles) acc source_roles),
       logged w entries)
    ∧ ∀ key source_id, (key, source_id) ∈ source_roles →
        dict_get key destination_roles = None →
        Info ("Role key '" +:+ key +:+ "' not found in destination account.")
        ∈ entries.
Proof.
  induction source_roles as [|[key sid] rest IH]; intros acc w.
  - exists []. split; [by rewrite logged_nil|]. by intros ?? ?%not_elem_of_nil.
  - cbn [for_fold foldl]. unfold bind at 1. cbn zeta.
    unfold translation_step at 2. cbn [fst snd].
    destruct (dict_get key destination_roles) as [did|] eqn:Hget;
      cbn [opt_truthy].
    + destruct (str_truthy did).
      * cbn [ret default from_option id].
        destruct (IH (<[sid := did]> acc) w) as (entries & Heq & Hlog).
        cbn zeta in Heq. exists entries. split; [exact Heq|].
        intros k s' [[= -> ->]|Hin]%elem_of_cons Hnone; [congruence|eauto].
      * unfold bind at 1. cbn [log ret].
        match goal with |- context [for_fold rest acc _ ?w1] =>
          destruct (IH acc w1) as (entries & Heq & Hlog) end.
        cbn zeta in Heq. eexists (_ :: entries). split.
        { rewrite Heq. f_equal. unfold logged. cbn. by rewrite <- app_assoc. }
        intros k s' [[= -> ->]|Hin]%elem_of_cons Hnone; [congruence|].
        right. eauto.
    + unfold bind at 1. cbn [log ret].
      match goal with |- context [for_fold rest acc _ ?w1] =>
        destruct (IH acc w1) as (entries & Heq & Hlog) end.
      cbn zeta in Heq. eexists (_ :: entries). split.
      { rewrite Heq. f_equal. unfold logged. cbn. by rewrite <- app_assoc. }
      intros k s' [[= -> ->]|Hin]%elem_of_cons Hnone; [left|right; eauto].
Qed.

(** X18: the translation maps a source role id to a destination role
    id only when the two roles have the same key; it does so for every
    key both accounts have, when no two source keys share an id; a source
    key the destination lacks is logged; no request is sent beyond the two
    fetches. *)
Theorem role_id_translations_by_key source_client destination_client
    (w w1 w2 : World St) (source_roles destination_roles : list (string * string)) :
  get_roles_mapping source_client w = (Ok source_roles, w1) →
  get_roles_mapping destination_client w1 = (Ok destination_roles, w2) →
  ∃ translation w3,
    get_role_id_translations source_client destination_client w
    = (Ok translation, w3)
    ∧ w_trace w3 = w_trace w2
    ∧ (∀ source_id dest_id, translation !! source_id = Some dest_id →
         dest_id ≠ ""
         ∧ ∃ key, (key, source_id) ∈ source_roles
                  ∧ dict_get key destination_roles = Some dest_id)
    ∧ (NoDup (map snd source_roles) →
       ∀ key source_id dest_id,
         (key, source_id) ∈ source_roles →
         dict_get key destination_roles = Some dest_id → dest_id ≠ "" →
         translation !! source_id = Some dest_id)
    ∧ (∀ key source_id, (key, source_id) ∈ source_roles →
         dict_get key destination_roles = None →
         Info ("Role key '" +:+ key +:+ "' not found in destination account.")
         ∈ w_log w3).
Proof.
  intros Hsrc Hdst.
  destruct (translations_loop destination_roles source_roles ∅ w2)
    as (entries & Hloop & Hlog).
  eexists _, _. split_and!.
  - unfold get_role_id_translations. unfold bind at 1. rewrite Hsrc.
    unfold bind at 1. rewrite Hdst. exact Hloop.
  - done.
  - intros sid did [Hemp|?]%translation_fold_lookup; [|done].
    by rewrite lookup_empty in Hemp.
  - intros Hnd key sid did. by apply translation_fold_complete.
  - intros key sid Hin Hnone. cbn. apply elem_of_app. right. eauto.
Qed.

End RoleStage.

(** X19: the second merge of [migrate_users] is an inner join.  For each
    row of the users frame, in order, it has one row per role record whose
    user id is the source id of the user, no more and no fewer, so none
    for a user without a record; every row is made of such a user and
    such a record, and every such pair makes a row. *)
Theorem merge_roles_inner_join (users_df : list MergedUser)
    (all_user_roles_df : list (string * json_text (list string))) :
  map ar_id_source (merge_roles users_df all_user_roles_df)
  = flat_map (λ u, replicate
                     (length (filter (λ r, r.1 = mu_id_source u)
                                     all_user_roles_df))
                     (mu_id_source u)) users_df
  ∧ map ar_roleIds (merge_roles users_df all_user_roles_df)
    = flat_map (λ u, map (λ r, Some r.2)
                         (filter (λ r, r.1 = mu_id_source u)
                                 all_user_roles_df)) users_df
  ∧ ∀ row,
      row ∈ merge_roles users_df all_user_roles_df
      ↔ ∃ u r, u ∈ users_df ∧ r ∈ all_user_roles_df ∧ r.1 = mu_id_source u
               ∧ row = {| ar_email := mu_email u; ar_tenantId := mu_tenantId u;
                          ar_id_source := mu_id_source u;
                          ar_id_dest := mu_id_dest u; ar_roleIds := Some r.2 |}.
Proof.
  split_and!.
  - unfold merge_roles, merge_inner.
    induction users_df as [|u rest IH]; [done|]. cbn [flat_map].
    rewrite !map_app, IH. f_equal. rewrite map_map. cbn.
    generalize (filter (λ r, r.1 = mu_id_source u) all_user_roles_df).
    intros records. induction records as [|r records IHr]; [done|].
    cbn [map length replicate]. by rewrite IHr.
  - unfold merge_roles, merge_inner.
    induction users_df as [|u rest IH]; [done|]. cbn [flat_map].
    rewrite !map_app, IH. f_equal. rewrite !map_map. reflexivity.
  - intros row. unfold merge_roles. rewrite list_elem_of_fmap. split.
    + intros ([u r] & -> & Hin).
      apply merge_inner_elem_of in Hin as (? & ? & ?).
      exists u, r. by split_and!.
    + intros (u & r & Hu & Hr & Hk & ->). exists (u, r). split; [done|].
      by apply merge_inner_elem_of.
Qed.

Section UserFrames.
Context {St : Type} `{!Env St} `{!Lower}.

(** X20: when either account has no user at all, [migrate_users]
    stops on [KeyError] for the column [email], after both fetches and
    before any role is fetched. *)
Theorem migrate_users_needs_users source_client destination_client
    (w w1 w2 : World St) (source_users destination_users : list User) :
  get_all_users source_client w = (Ok source_users, w1) →
  get_all_users destination_client w1 = (Ok destination_users, w2) →
  source_users = [] ∨ destination_users = [] →
  migrate_users source_client destination_client w
  = (Raise (KeyError "email"), w2).
Proof.
  intros Hsrc Hdst Hempty. unfold migrate_users.
  unfold bind at 1. rewrite Hsrc. unfold bind at 1. rewrite Hdst.
  unfold bind at 1. destruct source_users as [|u us]; [done|].
  destruct Hempty as [?| ->]; [done|]. cbn [require_column ret].
  by unfold bind at 1.
Qed.

(** X21: when no role record comes back for any user,
    [migrate_users] stops on [KeyError] for the column [roleIds], after the
    translations were fetched and before any role is assigned. *)
Theorem migrate_users_needs_role_records source_client destination_client
    (w w1 w2 w3 w4 : World St) (source_users destination_users : list User)
    (records : list (option UserRoles)) (translations : gmap string string) :
  get_all_users source_client w = (Ok source_users, w1) →
  get_all_users destination_client w1 = (Ok destination_users, w2) →
  source_users ≠ [] → destination_users ≠ [] →
  get_all_user_roles source_client (merge_users source_users destination_users)
    w2 = (Ok records, w3) →
  omap id records = [] →
  get_role_id_translations source_client destination_client w3
  = (Ok translations, w4) →
  migrate_users source_client destination_client w
  = (Raise (KeyError "roleIds"), w4).
Proof.
  intros Hsrc Hdst Hs Hd Hroles Hnone Htrans. unfold migrate_users.
  unfold bind at 1. rewrite Hsrc. unfold bind at 1. rewrite Hdst.
  destruct source_users as [|u us]; [done|].
  destruct destination_users as [|v vs]; [done|].
  cbn [require_column]. rewrite !bind_ret. cbn zeta.
  unfold bind at 1. rewrite Hroles.
  unfold bind at 1. rewrite Htrans. by rewrite Hnone.
Qed.

End UserFrames.

Lemma get_user_roles_one_chunk_witness :
  let down :=
    example_cloud ["https://api.frontegg.com/identity/resources/users/v3/roles"] in
  get_user_roles FRONTEGG_ACCOUNT_1 "t1" ["s1"; "s2"] (start down 1)
  = (Ok [],
     {| w_env := down;
        w_trace := [Sent (roles_request FRONTEGG_ACCOUNT_1 "token" "t1"
                            ["s1"; "s2"])];
        w_log := [Failed "Request error" (HTTPError 500);
                  Failed "Error fetching roles for tenant t1" (HTTPError 500)];
        w_gas := 1 |}).
Proof.
  intros down.
  destruct (get_user_roles_one_chunk FRONTEGG_ACCOUNT_1 "t1" (start down 1)
              "token" down) as [_ Hchunk]; [done|done|].
  destruct (Hchunk ["s1"; "s2"] (answer 500 BEmpty) down) as [_ Hfail].
  - cbn. lia.
  - reflexivity.
  - rewrite Hfail; [reflexivity|]. cbn. lia.
Defined.

Lemma roles_mapping_last_wins_witness :
  let roles := [{| role_id := "r1"; role_key := "admin" |};
                {| role_id := "r2"; role_key := "viewer" |};
                {| role_id := "r3"; role_key := "admin" |}] in
  let server := {| sc_replies := [answer 200 (BRoles roles)];
                   sc_users_csv := None; sc_hashes_csv := None |} in
  ∃ mapping,
    (get_roles_mapping FRONTEGG_ACCOUNT_1 (start server 1)).1 = Ok mapping
    ∧ dict_get "admin" mapping = Some "r3"
    ∧ dict_get "viewer" mapping = Some "r2".
Proof.
  intros roles server.
  destruct (roles_mapping_last_wins FRONTEGG_ACCOUNT_1 (start server 1)
              "token" server
              {| status_code := 200; retry_after := RetryAbsent;
                 resp_json := BRoles roles |}
              {| sc_replies := []; sc_users_csv := None;
                 sc_hashes_csv := None |} roles)
    as (mapping & Hrun & Hget & _).
  - reflexivity.
  - discriminate.
  - reflexivity.
  - unfold ok_status. cbn. lia.
  - reflexivity.
  - exists mapping. rewrite Hrun, !Hget. by split_and!.
Defined.

Lemma role_id_translations_by_key_witness :
  ∃ translation,
    (get_role_id_translations FRONTEGG_ACCOUNT_1 FRONTEGG_ACCOUNT_2
       (start (example_cloud []) 10)).1 = Ok translation
    ∧ translation !! "r1" = Some "d9"
    ∧ translation !! "r2" = None.
Proof.
  set (w := start (example_cloud []) 10).
  set (w1 := (get_roles_mapping FRONTEGG_ACCOUNT_1 w).2).
  set (w2 := (get_roles_mapping FRONTEGG_ACCOUNT_2 w1).2).
  destruct (role_id_translations_by_key FRONTEGG_ACCOUNT_1 FRONTEGG_ACCOUNT_2
              w w1 w2 [("admin", "r1"); ("viewer", "r2")] [("admin", "d9")])
    as (translation & w3 & Hrun & _ & Hsound & Hcomplete & _).
  - vm_compute. reflexivity.
  - vm_compute. reflexivity.
  - exists translation. rewrite Hrun. split_and!; [done| |].
    + apply (Hcomplete (ltac:(apply (bool_decide_unpack _); vm_compute; exact I))
               "admin"); [left|reflexivity|discriminate].
    + destruct (translation !! "r2") as [d|] eqn:Hd; [exfalso|done].
      destruct (Hsound "r2" d Hd) as (_ & key & Hin & Hget).
      apply elem_of_cons in Hin as [[=]|Hin].
      apply list_elem_of_singleton in Hin as [= ->].
      vm_compute in Hget. discriminate.
Defined.

Lemma migrate_users_needs_users_witness :
  let nobody :=
    {| cloud_source := example_source;
       cloud_destination :=
         {| ad_tenants := []; ad_users := []; ad_user_roles := [];
            ad_roles := []; ad_categories := []; ad_permissions := [];
            ad_assigned := [] |};
       cloud_fresh := []; cloud_broken := [];
       cloud_users_csv := None; cloud_hashes_csv := None |} in
  (migrate_users FRONTEGG_ACCOUNT_1 FRONTEGG_ACCOUNT_2 (start nobody 10)).1
  = Raise (KeyError "email").
Proof.
  intros nobody.
  set (w := start nobody 10).
  set (w1 := (get_all_users FRONTEGG_ACCOUNT_1 w).2).
  set (w2 := (get_all_users FRONTEGG_ACCOUNT_2 w1).2).
  rewrite (migrate_users_needs_users FRONTEGG_ACCOUNT_1 FRONTEGG_ACCOUNT_2
             w w1 w2 (ad_users example_source) []).
  - reflexivity.
  - vm_compute. reflexivity.
  - vm_compute. reflexivity.
  - by right.
Defined.

Lemma migrate_users_needs_role_records_witness :
  let down :=
    example_cloud ["https://api.frontegg.com/identity/resources/users/v3/roles"] in
  (migrate_users FRONTEGG_ACCOUNT_1 FRONTEGG_ACCOUNT_2 (start down 10)).1
  = Raise (KeyError "roleIds").
Proof.
  intros down.
  set (w := start down 10).
  set (w1 := (get_all_users FRONTEGG_ACCOUNT_1 w).2).
  set (w2 := (get_all_users FRONTEGG_ACCOUNT_2 w1).2).
  set (w3 := (get_all_user_roles FRONTEGG_ACCOUNT_1
                (merge_users (ad_users example_source)
                   (ad_users example_destination)) w2).2).
  set (w4 := (get_role_id_translations FRONTEGG_ACCOUNT_1 FRONTEGG_ACCOUNT_2
                w3).2).
  rewrite (migrate_users_needs_role_records FRONTEGG_ACCOUNT_1
             FRONTEGG_ACCOUNT_2 w w1 w2 w3 w4 (ad_users example_source)
             (ad_users example_destination) [] {["r1" := "d9"]}).
  - reflexivity.
  - vm_compute. reflexivity.
  - vm_compute. reflexivity.
  - discriminate.
  - discriminate.
  - vm_compute. reflexivity.
  - reflexivity.
  - vm_compute. reflexivity.
Defined.

(** * The settings stage *)

(** X22: the list [create_permissions] builds keeps, in order, exactly the
    permissions with a non-empty [categoryId]; a missing description
    becomes the empty string and a missing assignment type [Admin]. *)
Theorem permissions_data_only_with_category (permissions : list Permission) :
  let kept := filter (λ p, opt_truthy (perm_categoryId p) = true) permissions in
  map pd_key (permissions_data permissions) = map perm_key kept
  ∧ map (λ pd, Some (pd_categoryId pd)) (permissions_data permissions)
    = map perm_categoryId kept
  ∧ Forall (λ pd, pd_categoryId pd ≠ "") (permissions_data permissions)
  ∧ Forall2 (λ p pd, pd_description pd = default "" (perm_description p)
                     ∧ pd_assignmentType pd
                       = default "Admin" (perm_assignmentType p))
            kept (permissions_data permissions).
Proof.
  unfold permissions_data.
  induction permissions as [|p rest (IHk & IHc & IHne & IHd)]; [by cbn|].
  cbn [omap list_omap]. destruct (opt_truthy (perm_categoryId p)) eqn:Ht.
  - rewrite filter_cons_True by done. cbn zeta in *.
    destruct (perm_categoryId p) as [c|] eqn:Hc; [|done].
    cbn. split_and!; [by f_equal|by f_equal| |by constructor].
    constructor; [|done]. cbn. by destruct c.
  - rewrite filter_cons_False by (rewrite Ht; done). done.
Qed.

Section SettingsStage.
Context {St : Type} `{!Env St}.

(** X23: [create_permissions] sends its POST once whatever the
    permissions are, an empty list when none has a category, and never
    raises on a failed request. *)
Theorem create_permissions_always_posts client permissions (w : World St)
    token s :
  w_gas w ≠ 0%nat →
  env_get_headers (account client) (w_env w) = (inr token, s) →
  ∃ res w',
    create_permissions client permissions w = (Ok res, w')
    ∧ posts (w_trace w')
      = posts (w_trace w) ++
        [(base_url client +:+ "/identity/resources/permissions/v1",
          Some (PermissionsBody (permissions_data permissions)))]
    ∧ (Forall (λ p, opt_truthy (perm_categoryId p) = false) permissions →
       permissions_data permissions = []).
Proof.
  intros Hgas Hhead.
  destruct (create_permissions_posts client permissions w token s Hgas Hhead)
    as (res & w' & Hrun & Htrace).
  exists res, w'. split_and!; [done| |].
  - rewrite Htrace. unfold posts. by rewrite omap_app.
  - clear. induction 1 as [|p rest Hp _ IH]; [done|].
    unfold permissions_data in *. cbn [omap list_omap]. rewrite Hp. exact IH.
Qed.

End SettingsStage.

Lemma create_permissions_always_posts_witness :
  let orphan := {| perm_name := "orphan"; perm_description := None;
                   perm_categoryId := None; perm_key := "orphan.read";
                   perm_assignmentType := None |} in
  posts (w_trace (create_permissions FRONTEGG_ACCOUNT_2 [orphan]
                    (start (example_cloud []) 1)).2)
  = [("https://api.us.frontegg.com/identity/resources/permissions/v1",
      Some (PermissionsBody []))].
Proof.
  intros orphan.
  destruct (create_permissions_always_posts FRONTEGG_ACCOUNT_2 [orphan]
              (start (example_cloud []) 1) "token" (example_cloud []))
    as (res & w' & Hrun & Hposts & Hnone); [done|done|].
  rewrite Hrun. cbn [snd]. rewrite Hposts, Hnone; [done|].
  by repeat constructor.
Defined.

(** * The migration file and the whole run *)

(** X25: [groupby('userId').tail(1)] keeps exactly one row for every
    [userId] of the frame, in the order of the frame. *)
Theorem group_tail1_one_row_per_user (rows : list HashRow) :
  NoDup (map hr_userId (group_tail1 rows))
  ∧ (∀ uid, uid ∈ map hr_userId (group_tail1 rows) ↔ uid ∈ map hr_userId rows)
  ∧ sublist (group_tail1 rows) rows.
Proof.
  induction rows as [|r rest (IHnd & IHin & IHsub)];
    [split_and!; [constructor|done|constructor]|].
  cbn [group_tail1]. case_bool_decide as Hex.
  - split_and!; [done| |by apply sublist_cons].
    intros uid. rewrite IHin. cbn [map]. rewrite elem_of_cons.
    split; [by right|]. intros [->|?]; [|done].
    apply Exists_exists in Hex as (r' & Hr' & <-).
    apply list_elem_of_fmap. by exists r'.
  - split_and!.
    + cbn [map]. constructor; [|done]. rewrite IHin.
      intros (r' & Heq & Hr')%list_elem_of_fmap. apply Hex, Exists_exists.
      by exists r'.
    + intros uid. cbn [map]. by rewrite !elem_of_cons, IHin.
    + by apply sublist_skip.
Qed.

Section MigrationFile.
Context {St : Type} `{!Env St} `{!Pandas} `{!Lower}.

(** X26: a password row without a date sorts last: a user with such a
    row gets a row without a date as the latest hash, whatever dated rows
    there are. *)
Theorem undated_row_is_selected (hashes_df : list HashRow) (undated : HashRow) :
  undated ∈ hashes_df → hr_createdAt undated = None →
  ∃ sel,
    filter (λ r, hr_userId r = hr_userId undated) (latest_hashes hashes_df)
    = [sel]
    ∧ sel ∈ hashes_df ∧ hr_createdAt sel = None.
Proof.
  intros Hin Hnat.
  destruct (latest_hashes_nonempty (hr_userId undated) hashes_df undated Hin
              eq_refl) as [sel Hlast].
  destruct (latest_hashes_dominates _ hashes_df sel Hlast) as (Hsel & _ & Hmax).
  exists sel. split_and!; [by rewrite latest_hashes_of_user, Hlast|done|].
  destruct (Hmax undated Hin eq_refl) as [->|Hle]; [done|].
  unfold created_le in Hle. rewrite Hnat in Hle. by destruct (hr_createdAt sel).
Qed.

(** X27: [create_migration_csv] by its inputs: a missing file, the
    users' first, is logged and raised as [FileNotFoundError]; a cell that
    is no date raises [ValueError], unlogged, and nothing is written;
    otherwise the file is written once. *)
Theorem create_migration_csv_outcomes users_path hashes_path save_path
    (w : World St) :
  match env_read_users users_path (w_env w),
        env_read_hashes hashes_path (w_env w) with
  | None, _ =>
      create_migration_csv users_path hashes_path save_path w
      = (Raise (FileNotFoundError users_path),
         logged w [Failed "File not found" (FileNotFoundError users_path)])
  | Some _, None =>
      create_migration_csv users_path hashes_path save_path w
      = (Raise (FileNotFoundError hashes_path),
         logged w [Failed "File not found" (FileNotFoundError hashes_path)])
  | Some users_df, Some hashes_df =>
      (Forall (λ r, ¬ is_garbage r) hashes_df →
       create_migration_csv users_path hashes_path save_path w
       = (Ok (),
          {| w_env := w_env w;
             w_trace := w_trace w ++
               [WroteCsv save_path
                  (final_df users_df (map parsed_row hashes_df))];
             w_log := w_log w; w_gas := w_gas w |}))
      ∧ (Exists is_garbage hashes_df →
         ∃ raw, create_migration_csv users_path hashes_path save_path w
                = (Raise (ValueError raw), w))
  end.
Proof.
  unfold create_migration_csv, try_except_when, try_except, read_csv, bind.
  destruct (env_read_users users_path (w_env w)) as [users_df|]; [|done].
  destruct (env_read_hashes hashes_path (w_env w)) as [hashes_df|]; [|done].
  cbn [ret fst snd]. split.
  - intros Hclean. by rewrite to_datetime_clean.
  - intros [raw Hbad]%to_datetime_garbage. exists raw. by rewrite Hbad.
Qed.

(** X28: when one of the two exports is missing, [migrate] stops on
    [FileNotFoundError] right after the tenant stage: the settings and
    user stages send nothing. *)
Theorem missing_csv_stops_migration source_client destination_client
    (w w1 : World St) :
  migrate_tenants source_client destination_client w = (Ok (), w1) →
  let users_path := "account_data/user_details_prod.csv" in
  let hashes_path := "account_data/user_passwords_prod.csv" in
  (env_read_users users_path (w_env w1) = None →
   migrate source_client destination_client w
   = (Raise (FileNotFoundError users_path),
      logged w1 [Failed "File not found" (FileNotFoundError users_path)]))
  ∧ (∀ users_df,
       env_read_users users_path (w_env w1) = Some users_df →
       env_read_hashes hashes_path (w_env w1) = None →
       migrate source_client destination_client w
       = (Raise (FileNotFoundError hashes_path),
          logged w1 [Failed "File not found" (FileNotFoundError hashes_path)])).
Proof.
  intros Htenants users_path hashes_path. subst users_path hashes_path.
  split; [intros Husers|intros users_df Husers Hhashes];
    unfold migrate; unfold bind at 1; rewrite Htenants;
    unfold create_migration_csv, try_except_when, try_except, read_csv, bind;
    cbv beta iota; rewrite Husers; [done|].
  cbv beta iota. by rewrite Hhashes.
Qed.

End MigrationFile.


Lemma undated_row_is_selected_witness :
  let dated := {| hr_userId := "u1"; hr_hash := "new";
                  hr_createdAt := Some 9 |} in
  let undated := {| hr_userId := "u1"; hr_hash := "old";
                    hr_createdAt := None |} in
  map hr_hash (filter (λ r, hr_userId r = "u1")
                      (latest_hashes [undated; dated])) = ["old"].
Proof.
  intros dated undated.
  destruct (undated_row_is_selected [undated; dated] undated)
    as (sel & Hsel & Hin & Hnat); [left|done|].
  change (hr_userId undated) with "u1" in Hsel. rewrite Hsel. cbn [map].
  apply elem_of_cons in Hin as [->|Hin]; [done|].
  apply list_elem_of_singleton in Hin as ->. done.
Defined.

Lemma create_migration_csv_outcomes_witness :
  (create_migration_csv "users.csv" "hashes.csv" "out.csv"
     (start {| sc_replies := []; sc_users_csv := None;
               sc_hashes_csv := Some [] |} 1)).1
  = Raise (FileNotFoundError "users.csv").
Proof.
  pose proof (create_migration_csv_outcomes "users.csv" "hashes.csv" "out.csv"
                (start {| sc_replies := []; sc_users_csv := None;
                          sc_hashes_csv := Some [] |} 1)) as H.
  cbn [env_read_users env_read_hashes scripted_env w_env start sc_users_csv] in H.
  by rewrite H.
Defined.

Lemma missing_csv_stops_migration_witness :
  let unprepared :=
    {| cloud_source := example_source;
       cloud_destination := example_destination;
       cloud_fresh := ["c2"; "c3"; "c4"]; cloud_broken := [];
       cloud_users_csv := None; cloud_hashes_csv := Some [] |} in
  let run := migrate FRONTEGG_ACCOUNT_1 FRONTEGG_ACCOUNT_2 (start unprepared 10) in
  run.1 = Raise (FileNotFoundError "account_data/user_details_prod.csv")
  ∧ map fst (posts (w_trace run.2))
    = ["https://api.us.frontegg.com/tenants/resources/tenants/v1";
       "https://api.us.frontegg.com/tenants/resources/tenants/v1/t1/metadata"].
Proof.
  intros unprepared. cbn zeta.
  set (w := start unprepared 10).
  set (w1 := (migrate_tenants FRONTEGG_ACCOUNT_1 FRONTEGG_ACCOUNT_2 w).2).
  assert (Htenants : migrate_tenants FRONTEGG_ACCOUNT_1 FRONTEGG_ACCOUNT_2 w
                     = (Ok (), w1)) by (vm_compute; reflexivity).
  assert (Hposts : map fst (posts (w_trace w1))
    = ["https://api.us.frontegg.com/tenants/resources/tenants/v1";
       "https://api.us.frontegg.com/tenants/resources/tenants/v1/t1/metadata"])
    by (vm_compute; reflexivity).
  assert (Hread : env_read_users "account_data/user_details_prod.csv" (w_env w1)
                  = None) by (vm_compute; reflexivity).
  destruct (missing_csv_stops_migration FRONTEGG_ACCOUNT_1 FRONTEGG_ACCOUNT_2
              w w1 Htenants) as [Hrun _].
  rewrite (Hrun Hread). cbn [fst snd logged w_trace]. split; [done|exact Hposts].
Defined.
